(** * SimpleBudget: the budget accounting engine

    A shallow embedding of the accounting kernel of SimpleBudget (the
    application script, in its two evolutions that carry the dynamic
    monthly allowance), with the properties of its specification stated and
    settled against it.

    Conventions of the embedding.
    - The global [data] object becomes an explicit [LedgerState] that every
      operation receives and returns.  Persistence ([saveData]), rendering
      and toasts do not change [data]; toasts that tell the outcome of an
      operation are returned next to the state.
    - [new Date()] becomes an explicit [Date] argument, [now].
    - JavaScript numbers that hold money are exact rationals ([Q]): the
      sums, differences and the one division of the engine are then the
      arithmetic of the specification's fixed-point currency, without
      binary rounding.  Equality of amounts is [Qeq] ([==]).
    - What [parseFloat] reads from an amount field is a [JS.number]: a
      rational, [NaN] or an infinity.  No state holds an infinite amount;
      an addition or an edit that would store one has no result ([None]).
    - Strings are sequences of code units below 256 ([string]).
    - [data.history] is a finite map from month keys to buckets, the own
      properties of the object.  A key that the map does not hold and that
      names a member of [Object.prototype] ([JS.inherited]) is read as that
      member: where the code then throws, the operation ends with [data] as
      it stands at that point.
    - [localeCompare] is known on dates of the shape YYYY-MM-DD
      ([JS.iso_date]), where it orders as the code units do; a sort that
      would need it elsewhere has no result ([None]). *)

From Stdlib Require Import ZArith QArith Qabs Qround String Ascii List Bool Lia.
From Stdlib Require Import DecimalString DecimalZ Sorted.
From Stdlib Require OrderedTypeEx.
From stdpp Require Import gmap strings list fin_maps.

Local Open Scope Z_scope.

(** ** JavaScript primitives used by the engine *)

Module JS.

(** Truthiness of a string: only the empty string is falsy. *)
Definition truthy (s : string) : bool :=
  match s with EmptyString => false | String _ _ => true end.

(** [a || b] on strings. *)
Definition or_else (a b : string) : string := if truthy a then a else b.

(** [x || 0] on numbers: zero is the only falsy rational. *)
Definition or_zero (x : Q) : Q := if Qeq_bool x 0 then 0%Q else x.

(** [x < y] on numbers. *)
Definition ltb (x y : Q) : bool := negb (Qle_bool y x).

(** [s.split(sep)[0]]: the text before the first separator. *)
Fixpoint split_head (sep : ascii) (s : string) : string :=
  match s with
  | EmptyString => EmptyString
  | String c r => if Ascii.eqb c sep then EmptyString else String c (split_head sep r)
  end.

(** [s.slice(0, n)]. *)
Fixpoint slice0 (n : nat) (s : string) : string :=
  match n, s with
  | S n', String c r => String c (slice0 n' r)
  | _, _ => EmptyString
  end.

(** [s.startsWith(p)]. *)
Definition startsWith (s p : string) : bool := String.prefix p s.

Definition is_digit (c : ascii) : bool :=
  match c with
  | "0" | "1" | "2" | "3" | "4" | "5" | "6" | "7" | "8" | "9" => true
  | _ => false
  end%char.

(** White space and line terminators among the code units below 256. *)
Definition is_space (c : ascii) : bool :=
  let n := nat_of_ascii c in
  ((9 <=? n) && (n <=? 13) || (n =? 32) || (n =? 160))%nat.

Fixpoint skip_space (s : string) : string :=
  match s with
  | String c r => if is_space c then skip_space r else s
  | EmptyString => EmptyString
  end.

Fixpoint take_digits (s : string) : string :=
  match s with
  | String c r => if is_digit c then String c (take_digits r) else EmptyString
  | EmptyString => EmptyString
  end.

(** [parseInt(s, 10)]; [None] is NaN.  Leading white space is skipped,
    one sign is read, then the longest run of decimal digits. *)
Definition parseInt (s : string) : option Z :=
  let s1 := skip_space s in
  let '(neg, s2) :=
    match s1 with
    | String "-"%char r => (true, r)
    | String "+"%char r => (false, r)
    | _ => (false, s1)
    end in
  match take_digits s2 with
  | EmptyString => None
  | ds =>
      match NilEmpty.uint_of_string ds with
      | Some u => Some (if neg then - Z.of_uint u else Z.of_uint u)
      | None => None
      end
  end.

(** [n.toString()] and [String(n)] of an integer. *)
Definition toString (n : Z) : string := NilZero.string_of_int (Z.to_int n).

(** [s.padStart(2, '0')]. *)
Definition padStart2 (s : string) : string :=
  match s with
  | String c EmptyString => String "0"%char s
  | EmptyString => "00"%string
  | _ => s
  end.

(** [s.trim()]. *)
Definition trim (s : string) : string :=
  String.rev (skip_space (String.rev (skip_space s))).

(** Texts of the shape [YYYY-MM-DD], as the date field and
    [toISOString().split('T')[0]] give them. *)
Definition iso_date (s : string) : bool :=
  match s with
  | String y1 (String y2 (String y3 (String y4 (String h1 (String m1 (String m2
      (String h2 (String d1 (String d2 EmptyString))))))))) =>
      is_digit y1 && is_digit y2 && is_digit y3 && is_digit y4 && Ascii.eqb h1 "-"
      && is_digit m1 && is_digit m2 && Ascii.eqb h2 "-" && is_digit d1 && is_digit d2
  | _ => false
  end.

(** [a.localeCompare(b)].  The collation is the one of the runtime.  Two
    texts of the shape [YYYY-MM-DD] differ first at a digit, and there
    every collation orders them as their code units do; on other texts
    this model does not tell what the collation answers ([None]). *)
Definition localeCompare (a b : string) : option comparison :=
  if iso_date a && iso_date b then Some (String.compare a b) else None.

(** The names that an object inherits from [Object.prototype]: [o[key]]
    finds a value under them (a function, or the prototype itself) on an
    object that has no property of its own of that name. *)
Definition Object_prototype_names : list string :=
  ["constructor"; "__defineGetter__"; "__defineSetter__"; "hasOwnProperty";
   "__lookupGetter__"; "__lookupSetter__"; "isPrototypeOf"; "propertyIsEnumerable";
   "toString"; "valueOf"; "__proto__"; "toLocaleString"]%string.

Definition inherited (key : string) : bool :=
  existsb (String.eqb key) Object_prototype_names.

(** What [parseFloat] returns. *)
Inductive number : Type :=
| NaN
| PosInfinity
| NegInfinity
| Finite (q : Q).

(** [isNaN(raw) || raw <= 0]. *)
Definition refused (raw : number) : bool :=
  match raw with
  | NaN | NegInfinity => true
  | PosInfinity => false
  | Finite q => Qle_bool q 0
  end.

(** The rational that a number is; the ledger of this model holds
    rationals, so that an infinite amount has no place in it. *)
Definition finite (raw : number) : option Q :=
  match raw with Finite q => Some q | _ => None end.

(** [parseFloat(x.toFixed(2))] for [x > 0]: the nearest multiple of one
    cent, the larger one on a tie (in lowest terms). *)
Definition toFixed2 (x : Q) : Q := Qred (Qmake (Qfloor (x * 100 + (1 # 2))) 100).

Section Sort.
Context {A : Type} (cmp : A → A → comparison).

(** [Array.prototype.sort(cmp)] is a stable sort: elements that
    compare equal keep their order.  The comparator of the engine is a
    total preorder, for which the stable result is unique; it is
    computed here by stable insertion. *)
Fixpoint insert_sorted (x : A) (l : list A) : list A :=
  match l with
  | [] => [x]
  | y :: r =>
      match cmp x y with
      | Gt => y :: insert_sorted x r
      | _ => x :: l
      end
  end.

Definition sort (l : list A) : list A := foldr insert_sorted [] l.
End Sort.

End JS.

(** ** Data model *)

Module Transaction.
(** [{ id, date, time, amount, description }]; a negative amount is an
    expense, a positive one an income. *)
Record t : Type := mk {
  id : string;
  date : string;
  time : string;
  amount : Q;
  description : string
}.
End Transaction.

Module MonthBucket.
(** A history entry [{ goal, transactions }]. *)
Record t : Type := mk {
  goal : Q;
  transactions : list Transaction.t
}.
End MonthBucket.

Record Settings : Type := { annualBudget : Q }.

(** The root object [data]. *)
Record LedgerState : Type := {
  version : Z;
  settings : Settings;
  currentMonth : string;
  transactions : list Transaction.t;
  history : gmap string MonthBucket.t
}.

Definition with_transactions (txs : list Transaction.t) (data : LedgerState) : LedgerState :=
  {| version := version data; settings := settings data;
     currentMonth := currentMonth data; transactions := txs;
     history := history data |}.

Definition with_history (h : gmap string MonthBucket.t) (data : LedgerState) : LedgerState :=
  {| version := version data; settings := settings data;
     currentMonth := currentMonth data; transactions := transactions data;
     history := h |}.

Definition with_currentMonth (k : string) (data : LedgerState) : LedgerState :=
  {| version := version data; settings := settings data;
     currentMonth := k; transactions := transactions data;
     history := history data |}.

Definition with_settings (s : Settings) (data : LedgerState) : LedgerState :=
  {| version := version data; settings := s;
     currentMonth := currentMonth data; transactions := transactions data;
     history := history data |}.

(** What the engine reads from one [new Date()]. *)
Record Date : Type := {
  getFullYear : Z;
  getMonth : Z;            (* 0-indexed *)
  toISODate : string;      (* toISOString().split('T')[0] *)
  toTimeHM : string        (* toTimeString().slice(0, 5) *)
}.

(** What an operation tells the user. *)
Inductive Toast : Type :=
| ToastInvalidAmount      (* 'Please enter a valid amount' *)
| ToastAdded
| ToastRemoved            (* 'Transaction removed' *)
| ToastMoved (destMonthKey : string)
| ToastUpdated            (* 'Transaction updated' *)
| ToastInvalidFile        (* 'Invalid file format' *)
| ToastReadFailed         (* 'Failed to read file' *)
| ToastImported           (* 'Data imported successfully' *)
| ToastSettingsSaved.

(** A property of a parsed JSON document, as JavaScript reads it. *)
Inductive jsval (A : Type) : Type :=
| Undefined               (* the property is not there *)
| Null
| Boolean (b : bool)
| Number (q : Q)
| Text (s : string)
| Shaped (a : A).         (* a value of the shape the data model gives the property *)
Arguments Undefined {A}.
Arguments Null {A}.
Arguments Boolean {A} b.
Arguments Number {A} q.
Arguments Text {A} s.
Arguments Shaped {A} a.

(** A property that is absent, [null], or an object of the expected shape. *)
Inductive jsobject (A : Type) : Type :=
| NoProperty
| NullProperty
| Object (a : A).
Arguments NoProperty {A}.
Arguments NullProperty {A}.
Arguments Object {A} a.

(** The candidate that [JSON.parse] hands to the import.  [settings] and
    [transactions], the two properties the import validates, range over
    every JSON value; arrays and objects in them have the shape of the data
    model.  [version], [currentMonth] and [history] are absent or
    well-shaped ([history] may also be [null]). *)
Record Candidate : Type := {
  c_version : option Z;
  c_settings : jsval Settings;
  c_currentMonth : option string;
  c_transactions : jsval (list Transaction.t);
  c_history : jsobject (gmap string MonthBucket.t)
}.

Definition is_truthy {A} (v : jsval A) : bool :=
  match v with
  | Undefined | Null => false
  | Boolean b => b
  | Number q => negb (Qeq_bool q 0)
  | Text s => JS.truthy s
  | Shaped _ => true
  end.

(** [Array.isArray(v)] on the [transactions] property. *)
Definition is_array {A} (v : jsval A) : bool :=
  match v with Shaped _ => true | _ => false end.

Definition is_undefined {A} (v : jsval A) : bool :=
  match v with Undefined => true | _ => false end.

(** ** Definitions shared by both evolutions of the script *)

Definition CURRENT_YEAR (now : Date) : Z := getFullYear now.

Definition CURRENT_MONTH_KEY (now : Date) : string :=
  JS.toString (getFullYear now) +:+ "-" +:+ JS.padStart2 (JS.toString (getMonth now + 1)).

Definition emptyData (now : Date) : LedgerState :=
  {| version := 1;
     settings := {| annualBudget := 0 |};
     currentMonth := CURRENT_MONTH_KEY now;
     transactions := [];
     history := ∅ |}.

(** [archiveMonth(monthKey, transactions, goal)]. *)
Definition archiveMonth (monthKey : string) (txs : list Transaction.t) (goal : Q)
    (data : LedgerState) : LedgerState :=
  if negb (JS.truthy monthKey) then data
  else with_history
         (<[monthKey := MonthBucket.mk (JS.or_zero goal) txs]> (history data)) data.

(** [parseInt(key.split('-')[0], 10)]. *)
Definition yearOf (key : string) : option Z := JS.parseInt (JS.split_head "-" key).

(** [parseInt(key.split('-')[0], 10) < lastYear]; false when the year is NaN. *)
Definition year_before (key : string) (lastYear : Z) : bool :=
  match yearOf key with
  | Some y => y <? lastYear
  | None => false
  end.

(** [Object.keys(o)]. *)
Definition Object_keys {A} (o : gmap string A) : list string := (map_to_list o).*1.

(** [pruneOldHistory()]: the keys are listed once, then visited. *)
Definition prune_keys (lastYear : Z) (keys : list string)
    (h : gmap string MonthBucket.t) : gmap string MonthBucket.t :=
  foldl (λ h key, if year_before key lastYear then delete key h else h) h keys.

Definition pruneOldHistory (now : Date) (data : LedgerState) : LedgerState :=
  let thisYear := CURRENT_YEAR now in
  let lastYear := thisYear - 1 in
  with_history (prune_keys lastYear (Object_keys (history data)) (history data)) data.

(** [calcMonthsRemainingInYear()]. *)
Definition calcMonthsRemainingInYear (now : Date) : Z := 12 - getMonth now.

(** The loop body [if (tx.amount < 0) spent += Math.abs(tx.amount); else
    income += tx.amount] on the pair [(spent, income)]. *)
Definition tally (acc : Q * Q) (tx : Transaction.t) : Q * Q :=
  if JS.ltb (Transaction.amount tx) 0
  then (fst acc + Qabs (Transaction.amount tx), snd acc)%Q
  else (fst acc, snd acc + Transaction.amount tx)%Q.

(** [calcMonthSpent()] and [calcMonthIncome()]. *)
Definition calcMonthSpent (data : LedgerState) : Q :=
  foldl (λ s t, s + Qabs (Transaction.amount t))%Q 0%Q
        (filter (λ t, JS.ltb (Transaction.amount t) 0 = true) (transactions data)).

Definition calcMonthIncome (data : LedgerState) : Q :=
  foldl (λ s t, s + Transaction.amount t)%Q 0%Q
        (filter (λ t, JS.ltb 0 (Transaction.amount t) = true) (transactions data)).

Section Rollover.
(** The two evolutions differ in [calcDynamicMonthlyGoal]. *)
Variable calcDynamicMonthlyGoal : Date → LedgerState → Q.

(** [checkMonthlyReset()]; the goal of the toast is not part of [data]. *)
Definition checkMonthlyReset_with (now : Date) (data : LedgerState) : LedgerState :=
  let currentKey := CURRENT_MONTH_KEY now in
  if String.eqb (currentMonth data) currentKey then data
  else
    let data := archiveMonth (currentMonth data) (transactions data)
                  (calcDynamicMonthlyGoal now data) data in
    let data := with_currentMonth currentKey data in
    let data := with_transactions [] data in
    pruneOldHistory now data.
End Rollover.

(** [Object.assign(emptyData(), imported)], followed by the two repairs
    [if (!data.history) data.history = {}] and
    [if (!Array.isArray(data.transactions)) data.transactions = []].
    A truthy [settings] that is not an object has no [annualBudget] to
    read, and every reader takes [annualBudget || 0]. *)
Definition assign_imported (now : Date) (imported : Candidate) : LedgerState :=
  let base := emptyData now in
  {| version := match c_version imported with Some v => v | None => version base end;
     settings := match c_settings imported with
                 | Shaped s => s
                 | _ => {| annualBudget := 0 |}
                 end;
     currentMonth := match c_currentMonth imported with
                     | Some k => k | None => currentMonth base end;
     transactions := match c_transactions imported with
                     | Shaped txs => txs
                     | _ => []      (* not an array *)
                     end;
     history := match c_history imported with
                | Object h => h
                | NoProperty => history base
                | NullProperty => ∅
                end |}.

(** The [onload] handler of [importData(event)].  [imported] is [None]
    when [JSON.parse] throws or yields [null] (reading a property then
    throws): both end in the [catch].  [confirmed] tells whether the user
    confirms the modal, whose callback does the replacement. *)
Definition importData (now : Date) (imported : option Candidate) (confirmed : bool)
    (data : LedgerState) : LedgerState * option Toast :=
  match imported with
  | None => (data, Some ToastReadFailed)
  | Some imported =>
      if negb (is_truthy (c_settings imported)) || is_undefined (c_transactions imported)
      then (data, Some ToastInvalidFile)
      else if confirmed
      then (pruneOldHistory now (assign_imported now imported), Some ToastImported)
      else (data, None)
  end.

(** [addTransaction()].  [raw] is [parseFloat] of the amount field,
    [newId] the value of [generateId()].  The guard lets [Infinity]
    through; [toFixed] keeps it and the amount stored is [Infinity] or
    [-Infinity], which no state of this model holds: the result is
    [None] there. *)
Definition addTransaction (now : Date) (newId : string) (raw : JS.number)
    (descriptionInput : string) (isIncomeMode : bool)
    (data : LedgerState) : option (LedgerState * option Toast) :=
  if JS.refused raw then Some (data, Some ToastInvalidAmount)
  else
    match JS.finite raw with
    | None => None
    | Some raw =>
        let amount := JS.toFixed2 raw in
        let description :=
          JS.or_else (JS.trim descriptionInput) (if isIncomeMode then "Income" else "Expense") in
        let tx := Transaction.mk newId (toISODate now) (toTimeHM now)
                    (if isIncomeMode then amount else - amount)%Q description in
        Some (with_transactions (tx :: transactions data) data, Some ToastAdded)
    end.

(** [arr.find(t => t.id === id)]. *)
Definition find_tx (id : string) (txs : list Transaction.t) : option Transaction.t :=
  List.find (λ t, String.eqb (Transaction.id t) id) txs.

(** [arr.filter(t => t.id !== id)]. *)
Definition remove_tx (id : string) (txs : list Transaction.t) : list Transaction.t :=
  List.filter (λ t, negb (String.eqb (Transaction.id t) id)) txs.

(** Assigning to the properties of the object that [find] returned: the
    first element with that id changes in place. *)
Fixpoint update_found (id : string) (f : Transaction.t → Transaction.t)
    (txs : list Transaction.t) : list Transaction.t :=
  match txs with
  | [] => []
  | t :: r => if String.eqb (Transaction.id t) id then f t :: r
              else t :: update_found id f r
  end.

(** [(a, b) => b.date.localeCompare(a.date)]. *)
Definition by_date_desc (a b : Transaction.t) : option comparison :=
  JS.localeCompare (Transaction.date b) (Transaction.date a).

(** Every date of the list has the shape on which the collation is
    known. *)
Definition iso_dated (txs : list Transaction.t) : bool :=
  forallb (λ t, JS.iso_date (Transaction.date t)) txs.

(** The comparator on a list that is [iso_dated]. *)
Definition compare_dates (a b : Transaction.t) : comparison :=
  match by_date_desc a b with Some c => c | None => Eq end.

(** [txs.unshift(tx); txs.sort(by_date_desc)].  A list of one element is
    sorted without a comparison.  A longer list is sorted when the
    collation of its dates is known; otherwise its order is the
    runtime's to tell ([None]). *)
Definition unshift_sorted (tx : Transaction.t) (txs : list Transaction.t)
    : option (list Transaction.t) :=
  match txs with
  | [] => Some [tx]
  | _ :: _ =>
      if iso_dated (tx :: txs) then Some (JS.sort compare_dates (tx :: txs)) else None
  end.

(** The edit sheet: its fields and the variables [editingTxId],
    [editIsIncome] (and [editingTxMonth] where the script has it). *)
Record EditForm : Type := {
  editingTxId : option string;
  editAmount : JS.number;         (* parseFloat of the field *)
  editDescription : string;
  editDate : string;
  editIsIncome : bool
}.

Definition falsy_id (i : option string) : bool :=
  match i with Some s => negb (JS.truthy s) | None => true end.

(** [monthKey && ...] and [monthKey || fallback] on a variable that
    holds [null] or a string. *)
Definition truthy_key (monthKey : option string) : bool :=
  match monthKey with Some k => JS.truthy k | None => false end.

Definition key_or (monthKey : option string) (fallback : string) : string :=
  match monthKey with
  | Some k => if JS.truthy k then k else fallback
  | None => fallback
  end.

(** [monthKey && data.history[monthKey]]: the bucket, when the key is
    truthy and the history has it. *)
Definition bucket_at (monthKey : option string) (h : gmap string MonthBucket.t)
    : option MonthBucket.t :=
  if truthy_key monthKey then h !! key_or monthKey "" else None.

(** The object literal [updatedTx] of the edit. *)
Definition updatedTx_of (srcTx : Transaction.t) (newDate : string) (amount : Q)
    (description : string) : Transaction.t :=
  Transaction.mk (Transaction.id srcTx)
                 (JS.or_else newDate (Transaction.date srcTx))
                 (JS.or_else (Transaction.time srcTx) "")
                 amount description.

(** [data.history[key].transactions = f(data.history[key].transactions)]
    on a bucket that exists. *)
Definition map_bucket (f : list Transaction.t → list Transaction.t)
    (b : MonthBucket.t) : MonthBucket.t :=
  MonthBucket.mk (MonthBucket.goal b) (f (MonthBucket.transactions b)).

(** [if (!data.history[key]) data.history[key] = { goal: 0, transactions: [] }].
    Under a name that [Object.prototype] defines, [data.history[key]] is
    truthy without a bucket of the history's own, and none is made. *)
Definition ensure_bucket (key : string) (h : gmap string MonthBucket.t)
    : gmap string MonthBucket.t :=
  match h !! key with
  | Some _ => h
  | None => if JS.inherited key then h else <[key := MonthBucket.mk 0 []]> h
  end.

(** [data.history[key].transactions.unshift(...)] after [ensure_bucket]
    throws a [TypeError] when the history has no bucket of its own at the
    key: what is read there is a member of [Object.prototype], whose
    [transactions] is [undefined]. *)
Definition unshift_throws (key : string) (h : gmap string MonthBucket.t) : bool :=
  match h !! key with
  | Some _ => false
  | None => JS.inherited key
  end.

(** [data.history[key].transactions.unshift(tx)] and the sort, on a
    history that has a bucket at the key. *)
Definition unshift_in_history (key : string) (tx : Transaction.t)
    (h : gmap string MonthBucket.t) : option (gmap string MonthBucket.t) :=
  match h !! key with
  | Some bucket =>
      match unshift_sorted tx (MonthBucket.transactions bucket) with
      | Some sorted => Some (<[key := MonthBucket.mk (MonthBucket.goal bucket) sorted]> h)
      | None => None
      end
  | None => Some h
  end.

(** [description] and the signed [amount] of an edit. *)
Definition edit_description (form : EditForm) : string :=
  JS.or_else (JS.trim (editDescription form))
             (if editIsIncome form then "Income" else "Expense").

Definition edit_amount (form : EditForm) (raw : Q) : Q :=
  let amount := JS.toFixed2 raw in
  (if editIsIncome form then amount else - amount)%Q.

(** ** The script whose allowance counts the year to date
       (second script of the source, [calcYearToDateNet]) *)

Module YearToDate.

(** [calcYearToDateNet()].  [map_fold] visits the keys in the order of the
    map, [Object.keys] in the order of insertion; the two sums of exact
    amounts are the same in any order. *)
Definition calcYearToDateNet (now : Date) (data : LedgerState) : Q :=
  let thisYearStr := JS.toString (CURRENT_YEAR now) in
  let past :=
    map_fold (λ key bucket acc,
                if JS.startsWith key thisYearStr
                then foldl tally acc (MonthBucket.transactions bucket)
                else acc)
             (0%Q, 0%Q) (history data) in
  let total := foldl tally past (transactions data) in
  (fst total - snd total)%Q.

(** [calcRemainingAnnual()]. *)
Definition calcRemainingAnnual (now : Date) (data : LedgerState) : Q :=
  let annual := JS.or_zero (annualBudget (settings data)) in
  (annual - calcYearToDateNet now data)%Q.

(** [calcDynamicMonthlyGoal()]. *)
Definition calcDynamicMonthlyGoal (now : Date) (data : LedgerState) : Q :=
  let monthsLeft := calcMonthsRemainingInYear now in
  if monthsLeft <=? 0 then 0%Q
  else (calcRemainingAnnual now data / inject_Z monthsLeft)%Q.

(** [calcMonthlyRemaining()]. *)
Definition calcMonthlyRemaining (now : Date) (data : LedgerState) : Q :=
  let monthSpent := calcMonthSpent data in
  let monthIncome := calcMonthIncome data in
  (calcDynamicMonthlyGoal now data - monthSpent + monthIncome)%Q.

Definition checkMonthlyReset : Date → LedgerState → LedgerState :=
  checkMonthlyReset_with calcDynamicMonthlyGoal.

(** [deleteTransaction(id)]. *)
Definition deleteTransaction (id : string) (data : LedgerState) : LedgerState :=
  with_transactions (remove_tx id (transactions data)) data.

(** [saveEditTx()]: only transactions of the current month are edited.
    The result is the state when the call ends, by a [return] or by the
    [TypeError] of an [unshift] on [undefined] (then without a toast), and
    [None] where the call stores an infinite amount or leaves the order
    of a list to a collation that this model does not know. *)
Definition saveEditTx (form : EditForm) (data : LedgerState)
    : option (LedgerState * option Toast) :=
  if falsy_id (editingTxId form) then Some (data, None)
  else
    let editingTxId := default ""%string (editingTxId form) in
    let raw := editAmount form in
    if JS.refused raw then Some (data, Some ToastInvalidAmount)
    else
      let description := edit_description form in
      let newDate := editDate form in
      match find_tx editingTxId (transactions data) with
      | None => Some (data, None)
      | Some tx =>
          let newMonthKey :=
            if JS.truthy newDate then JS.slice0 7 newDate else currentMonth data in
          let movingToHistory := negb (String.eqb newMonthKey (currentMonth data)) in
          if movingToHistory then
            let data := with_transactions (remove_tx editingTxId (transactions data)) data in
            let h := ensure_bucket newMonthKey (history data) in
            if unshift_throws newMonthKey h then Some (data, None)
            else
              match JS.finite raw with
              | None => None
              | Some raw =>
                  let updatedTx :=
                    Transaction.mk (Transaction.id tx) newDate
                                   (JS.or_else (Transaction.time tx) "")
                                   (edit_amount form raw) description in
                  match unshift_in_history newMonthKey updatedTx h with
                  | None => None
                  | Some h => Some (with_history h data, Some (ToastMoved newMonthKey))
                  end
              end
          else
            match JS.finite raw with
            | None => None
            | Some raw =>
                let set (tx : Transaction.t) :=
                  Transaction.mk (Transaction.id tx)
                                 (if JS.truthy newDate then newDate else Transaction.date tx)
                                 (Transaction.time tx)
                                 (edit_amount form raw) description in
                Some (with_transactions (update_found editingTxId set (transactions data)) data,
                      Some ToastUpdated)
            end
      end.

End YearToDate.

(** ** The script that also edits archived months
       (first script of the source, [editingTxMonth]) *)

Module PriorMonths.

(** [calcPriorMonthsNetThisYear()], with the same loop over the keys. *)
Definition calcPriorMonthsNetThisYear (now : Date) (data : LedgerState) : Q :=
  let thisYearStr := JS.toString (CURRENT_YEAR now) in
  let total :=
    map_fold (λ key bucket acc,
                if JS.startsWith key thisYearStr
                then foldl tally acc (MonthBucket.transactions bucket)
                else acc)
             (0%Q, 0%Q) (history data) in
  (fst total - snd total)%Q.

(** [calcDynamicMonthlyGoal()]. *)
Definition calcDynamicMonthlyGoal (now : Date) (data : LedgerState) : Q :=
  let monthsLeft := calcMonthsRemainingInYear now in
  if monthsLeft <=? 0 then 0%Q
  else
    let annual := JS.or_zero (annualBudget (settings data)) in
    ((annual - calcPriorMonthsNetThisYear now data) / inject_Z monthsLeft)%Q.

(** [calcRemainingAnnual()]. *)
Definition calcRemainingAnnual (now : Date) (data : LedgerState) : Q :=
  let annual := JS.or_zero (annualBudget (settings data)) in
  let priorNet := calcPriorMonthsNetThisYear now data in
  let currentNet := (calcMonthSpent data - calcMonthIncome data)%Q in
  (annual - priorNet - currentNet)%Q.

(** [calcMonthlyRemaining()]. *)
Definition calcMonthlyRemaining (now : Date) (data : LedgerState) : Q :=
  let monthSpent := calcMonthSpent data in
  let monthIncome := calcMonthIncome data in
  (calcDynamicMonthlyGoal now data - monthSpent + monthIncome)%Q.

Definition checkMonthlyReset : Date → LedgerState → LedgerState :=
  checkMonthlyReset_with calcDynamicMonthlyGoal.

(** [monthKey && data.history[monthKey]] is truthy without a bucket of
    the history's own: the key is a name that [Object.prototype]
    defines. *)
Definition inherited_key (monthKey : option string) (h : gmap string MonthBucket.t) : bool :=
  match bucket_at monthKey h, monthKey with
  | None, Some key => JS.inherited key
  | _, _ => false
  end.

(** [deleteTransaction(id, monthKey = null)]: the state when the call
    ends.  At an [inherited_key] the first branch is taken,
    [data.history[monthKey].transactions] is [undefined] and [filter]
    throws before anything is assigned. *)
Definition deleteTransaction (id : string) (monthKey : option string)
    (data : LedgerState) : LedgerState :=
  match bucket_at monthKey (history data) with
  | Some bucket =>
      with_history (<[key_or monthKey "" := map_bucket (remove_tx id) bucket]> (history data)) data
  | None =>
      if inherited_key monthKey (history data) then data
      else with_transactions (remove_tx id (transactions data)) data
  end.

(** The call ends by that [TypeError]. *)
Definition deleteTransaction_throws (monthKey : option string) (data : LedgerState) : bool :=
  inherited_key monthKey (history data).

(** "Remove from source": the filter on the list of the source bucket. *)
Definition remove_from_source (srcMonthKey : option string) (editingTxId : string)
    (data : LedgerState) : LedgerState :=
  if truthy_key srcMonthKey
  then with_history
         (alter (map_bucket (remove_tx editingTxId))
                (key_or srcMonthKey "") (history data)) data
  else with_transactions (remove_tx editingTxId (transactions data)) data.

(** "Add to destination" throws: the destination is a history key
    where [unshift_throws]. *)
Definition destination_throws (destMonthKey : string) (data : LedgerState) : bool :=
  negb (String.eqb destMonthKey (currentMonth data))
  && unshift_throws destMonthKey (history data).

(** "Add to destination": [unshift] and [sort] on the current list or on
    the history bucket of the key, made first when the key has none. *)
Definition add_to_destination (destMonthKey : string) (updatedTx : Transaction.t)
    (data : LedgerState) : option LedgerState :=
  if String.eqb destMonthKey (currentMonth data)
  then
    match unshift_sorted updatedTx (transactions data) with
    | Some sorted => Some (with_transactions sorted data)
    | None => None
    end
  else
    match unshift_in_history destMonthKey updatedTx
            (ensure_bucket destMonthKey (history data)) with
    | Some h => Some (with_history h data)
    | None => None
    end.

(** "Same bucket - update in place": [Object.assign(srcTx, updatedTx)]. *)
Definition assign_in_source (srcMonthKey : option string) (editingTxId : string)
    (updatedTx : Transaction.t) (data : LedgerState) : LedgerState :=
  if truthy_key srcMonthKey
  then with_history
         (alter (map_bucket (update_found editingTxId (λ _, updatedTx)))
                (key_or srcMonthKey "") (history data)) data
  else with_transactions
         (update_found editingTxId (λ _, updatedTx) (transactions data)) data.

(** [saveEditTx()], with [editingTxMonth]: [None] (null) is the current
    month, otherwise a history key.  The result is read as in the other
    script. *)
Definition saveEditTx (form : EditForm) (editingTxMonth : option string)
    (data : LedgerState) : option (LedgerState * option Toast) :=
  if falsy_id (editingTxId form) then Some (data, None)
  else
    let editingTxId := default ""%string (editingTxId form) in
    let raw := editAmount form in
    if JS.refused raw then Some (data, Some ToastInvalidAmount)
    else
      let description := edit_description form in
      let newDate := editDate form in
      let srcMonthKey := editingTxMonth in
      let srcTx :=
        if truthy_key srcMonthKey
        then find_tx editingTxId
               (match bucket_at srcMonthKey (history data) with
                | Some bucket => MonthBucket.transactions bucket
                | None => []
                end)
        else find_tx editingTxId (transactions data) in
      match srcTx with
      | None => Some (data, None)
      | Some srcTx =>
          let destMonthKey :=
            if JS.truthy newDate then JS.slice0 7 newDate
            else key_or srcMonthKey (currentMonth data) in
          let moving :=
            negb (String.eqb destMonthKey (key_or srcMonthKey (currentMonth data))) in
          if moving then
            let data := remove_from_source srcMonthKey editingTxId data in
            if destination_throws destMonthKey data then Some (data, None)
            else
              match JS.finite raw with
              | None => None
              | Some raw =>
                  let updatedTx :=
                    updatedTx_of srcTx newDate (edit_amount form raw) description in
                  match add_to_destination destMonthKey updatedTx data with
                  | Some data => Some (data, Some (ToastMoved destMonthKey))
                  | None => None
                  end
              end
          else
            match JS.finite raw with
            | None => None
            | Some raw =>
                let updatedTx :=
                  updatedTx_of srcTx newDate (edit_amount form raw) description in
                Some (assign_in_source srcMonthKey editingTxId updatedTx data,
                      Some ToastUpdated)
            end
      end.

End PriorMonths.

(** ** The specification's calculator, in its own words *)

Module Spec.

(** [sumExpenses], [sumIncome]: partition by sign, sum magnitudes. *)
Fixpoint sumExpenses (txs : list Transaction.t) : Q :=
  match txs with
  | [] => 0
  | t :: r => (if JS.ltb (Transaction.amount t) 0 then Qabs (Transaction.amount t) else 0)
              + sumExpenses r
  end%Q.

Fixpoint sumIncome (txs : list Transaction.t) : Q :=
  match txs with
  | [] => 0
  | t :: r => (if JS.ltb 0 (Transaction.amount t) then Transaction.amount t else 0)
              + sumIncome r
  end%Q.

Definition netOf (txs : list Transaction.t) : Q := (sumExpenses txs - sumIncome txs)%Q.

Definition monthsRemainingInYear (now : Date) : Z := 12 - getMonth now.

(** The month key's year equals [now]'s year. *)
Definition in_year (now : Date) (key : string) : bool :=
  match yearOf key with
  | Some y => y =? getFullYear now
  | None => false
  end.

(** Sum of [netOf] over every history bucket of [now]'s year, plus the
    current month. *)
Definition yearToDateNet (now : Date) (data : LedgerState) : Q :=
  (map_fold (λ key bucket acc,
               if in_year now key then acc + netOf (MonthBucket.transactions bucket) else acc)
            0 (history data)
   + netOf (transactions data))%Q.

End Spec.

(** Keys that begin with the decimal text of a four-digit year and a
    hyphen, as [CURRENT_MONTH_KEY] and the date field produce them. *)
Definition year_keyed (key : string) : bool :=
  match yearOf key with
  | Some y =>
      (1000 <=? y) && (y <=? 9999)
      && String.prefix (JS.toString y +:+ "-") key
  | None => false
  end.

(** A clock reading with a month in [0..11] and a four-digit year. *)
Definition valid_date (now : Date) : Prop :=
  0 <= getMonth now <= 11 ∧ 1000 <= getFullYear now <= 9999.

(** Texts made of decimal digits only. *)
Fixpoint all_digits (s : string) : bool :=
  match s with
  | EmptyString => true
  | String c r => JS.is_digit c && all_digits r
  end.

(** ** The scenarios of the specification *)

(** The first day of month [m] (0-indexed) of year [y], at midnight. *)
Definition first_of_month (y m : Z) : Date :=
  {| getFullYear := y; getMonth := m;
     toISODate := JS.toString y +:+ "-" +:+ JS.padStart2 (JS.toString (m + 1)) +:+ "-01";
     toTimeHM := "00:00" |}.

(** Scenario C: a January bucket, an empty current month, a budget of
    12000. *)
Definition scenarioC (y : Z) (goal : Q) (january : list Transaction.t) : LedgerState :=
  {| version := 1;
     settings := {| annualBudget := 12000 |};
     currentMonth := CURRENT_MONTH_KEY (first_of_month y 1);
     transactions := [];
     history := {[ CURRENT_MONTH_KEY (first_of_month y 0) := MonthBucket.mk goal january ]} |}.

(** Scenario B: no history, one expense of 500.00 this month, a budget of
    12000. *)
Definition scenarioB : LedgerState :=
  {| version := 1;
     settings := {| annualBudget := 12000 |};
     currentMonth := "2024-03";
     transactions := [Transaction.mk "lt9x0k2ab3f7" "2024-03-01" "09:30" (-(500)) "Groceries"];
     history := ∅ |}.

(** A ledger still in January 2024, with one expense of 600.00, opened
    again in February. *)
Definition januaryLedger : LedgerState :=
  {| version := 1;
     settings := {| annualBudget := 12000 |};
     currentMonth := "2024-01";
     transactions := [Transaction.mk "lr1a2b3c4d5e" "2024-01-15" "18:05" (-(600)) "Shoes"];
     history := ∅ |}.

(** ** Buckets and the ids they hold *)

Definition ids (txs : list Transaction.t) : list string := Transaction.id <$> txs.

(** The list of a bucket: [None] is the current month, [Some key] the
    history bucket of that key (without a bucket it holds nothing). *)
Definition bucket_txs (bucket : option string) (data : LedgerState) : list Transaction.t :=
  match bucket with
  | None => transactions data
  | Some key =>
      match history data !! key with
      | Some b => MonthBucket.transactions b
      | None => []
      end
  end.

(** Bucket [bucket] holds a transaction with this id. *)
Definition holds (data : LedgerState) (bucket : option string) (id : string) : Prop :=
  id ∈ ids (bucket_txs bucket data).

(** Each transaction id appears in at most one bucket. *)
Definition unique_buckets (data : LedgerState) : Prop :=
  ∀ id b1 b2, holds data b1 id → holds data b2 id → b1 = b2.

(** Two candidates of the import. *)
Definition candidate_scalar_settings : Candidate :=
  {| c_version := Some 1;
     c_settings := Number 5;
     c_currentMonth := Some "2024-03"%string;
     c_transactions := Shaped [];
     c_history := Object ∅ |}.

Definition candidate_twice : Candidate :=
  {| c_version := Some 1;
     c_settings := Shaped {| annualBudget := 12000 |};
     c_currentMonth := Some "2024-03"%string;
     c_transactions := Shaped [Transaction.mk "lt9x0k2ab3f7" "2024-03-01" "09:30" (-(500)) "Groceries"];
     c_history :=
       Object {[ "2024-02"%string :=
                   MonthBucket.mk 1000
                     [Transaction.mk "lt9x0k2ab3f7" "2024-02-11" "09:30" (-(500)) "Groceries"] ]} |}.

Definition candidate_text_transactions : Candidate :=
  {| c_version := Some 1;
     c_settings := Shaped {| annualBudget := 12000 |};
     c_currentMonth := Some "2024-03"%string;
     c_transactions := Text "none";
     c_history := NoProperty |}.

(** ** Source and destination of an edit *)

(** The bucket [editingTxMonth] names: a truthy key is a history key,
    [null] (or the empty string) the current month. *)
Definition src_bucket (editingTxMonth : option string) : option string :=
  if truthy_key editingTxMonth then editingTxMonth else None.

(** The bucket of [destMonthKey]: the current list when it is the
    current month, else the history bucket of that key. *)
Definition dest_bucket (destMonthKey : string) (data : LedgerState) : option string :=
  if String.eqb destMonthKey (currentMonth data) then None else Some destMonthKey.

(** The number that the digits of a text spell, whatever stands between
    them: 20240211 for "2024-02-11".  On dates of the shape [YYYY-MM-DD]
    the later day has the larger number. *)
Definition digit_value (c : ascii) : Z := Z.of_N (N_of_ascii c) - 48.

Fixpoint digits_number (acc : Z) (s : string) : Z :=
  match s with
  | EmptyString => acc
  | String c r =>
      if JS.is_digit c then digits_number (acc * 10 + digit_value c) r
      else digits_number acc r
  end.

Definition date_number (s : string) : Z := digits_number 0 s.

(** [a] may stand before [b] in a list sorted by date descending: the
    day of [b] is not the later one. *)
Definition not_after (a b : Transaction.t) : Prop :=
  date_number (Transaction.date b) <= date_number (Transaction.date a).

(** The order of code units on the dates, the later first: what
    [compare_dates] answers on dates of the shape [YYYY-MM-DD]. *)
Definition code_units_desc (a b : Transaction.t) : comparison :=
  String.compare (Transaction.date b) (Transaction.date a).

(** The transactions of one date, in their order in the list. *)
Definition of_date (d : string) (txs : list Transaction.t) : list Transaction.t :=
  filter (λ t, Transaction.date t = d) txs.

(** The goal of a history bucket, when the key has one. *)
Definition goal_at (key : string) (data : LedgerState) : option Q :=
  MonthBucket.goal <$> history data !! key.

(** A ledger in March 2024 with an archive of February, and the edit
    sheet that dates the March transaction to February 11th. *)
Definition marchLedger : LedgerState :=
  {| version := 1;
     settings := {| annualBudget := 12000 |};
     currentMonth := "2024-03";
     transactions := [Transaction.mk "lt9x0k2ab3f7" "2024-03-01" "09:30" (-(500)) "Groceries"];
     history :=
       {[ "2024-02"%string :=
            MonthBucket.mk 1000
              [Transaction.mk "ls5aa01bb2c3" "2024-02-20" "12:00" (-(40)) "Lunch";
               Transaction.mk "ls4zz99yy8x7" "2024-02-11" "08:15" (-(75)) "Fuel";
               Transaction.mk "ls3kk55jj4h3" "2024-02-02" "19:40" (2000) "Salary"] ]} |}.

Definition editToFebruary : EditForm :=
  {| editingTxId := Some "lt9x0k2ab3f7"%string;
     editAmount := JS.Finite 500;
     editDescription := "Groceries";
     editDate := "2024-02-11";
     editIsIncome := false |}.

(** A ledger in April 2024 with two transactions and an archive of
    March, and the edit sheet that dates the first one to March 11th. *)
Definition aprilLedger : LedgerState :=
  {| version := 1;
     settings := {| annualBudget := 12000 |};
     currentMonth := "2024-04";
     transactions :=
       [Transaction.mk "lu7mm20nn3p4" "2024-04-03" "10:20" (-(120)) "Shoes";
        Transaction.mk "lu6qq11rr2s3" "2024-04-01" "09:00" (-(30)) "Bread"];
     history :=
       {[ "2024-03"%string :=
            MonthBucket.mk 1100
              [Transaction.mk "lt9aa01bb2c3" "2024-03-20" "12:00" (-(40)) "Lunch";
               Transaction.mk "lt8zz99yy8x7" "2024-03-11" "08:15" (-(75)) "Fuel";
               Transaction.mk "lt7kk55jj4h3" "2024-03-02" "19:40" (2000) "Salary"] ]} |}.

Definition editToMarch : EditForm :=
  {| editingTxId := Some "lu7mm20nn3p4"%string;
     editAmount := JS.Finite (2599 # 20);
     editDescription := "  Boots ";
     editDate := "2024-03-11";
     editIsIncome := false |}.

(** The same edit to a month that has no bucket. *)
Definition editToJanuary : EditForm :=
  {| editingTxId := Some "lt9x0k2ab3f7"%string;
     editAmount := JS.Finite 500;
     editDescription := "Groceries";
     editDate := "2024-01-28";
     editIsIncome := false |}.

(** ** Reachable states *)

(** One action of the user, or one activation of the application.
    [accepts] tells which documents the import is given and [fresh] which
    ids [generateId()] gives in a state.  An addition or an edit is a
    step when the model has the state that it leaves. *)
Inductive step (accepts : Candidate → Prop) (fresh : LedgerState → string → Prop)
    (data : LedgerState) : LedgerState → Prop :=
| step_add now newId raw descriptionInput isIncomeMode data' toast :
    fresh data newId →
    addTransaction now newId raw descriptionInput isIncomeMode data = Some (data', toast) →
    step accepts fresh data data'
| step_edit form editingTxMonth data' toast :
    PriorMonths.saveEditTx form editingTxMonth data = Some (data', toast) →
    step accepts fresh data data'
| step_delete id monthKey :
    step accepts fresh data (PriorMonths.deleteTransaction id monthKey data)
| step_rollover now :
    step accepts fresh data (PriorMonths.checkMonthlyReset now data)
| step_import now imported confirmed :
    (∀ c, imported = Some c → accepts c) →
    step accepts fresh data (fst (importData now imported confirmed data)).

Inductive reachable (accepts : Candidate → Prop) (fresh : LedgerState → string → Prop)
    : LedgerState → Prop :=
| reachable_empty now : reachable accepts fresh (emptyData now)
| reachable_step data data' :
    reachable accepts fresh data → step accepts fresh data data' →
    reachable accepts fresh data'.

(** Any id, as [generateId()] may give it: it checks nothing. *)
Definition any_id (data : LedgerState) (newId : string) : Prop := True.

(** An id that no archived month holds. *)
Definition unused_id (data : LedgerState) (newId : string) : Prop :=
  ∀ key, ¬ holds data (Some key) newId.

(** Any document, as long as the import itself takes it. *)
Definition any_candidate (imported : Candidate) : Prop := True.

(** A document in which each transaction id appears in at most one
    bucket. *)
Definition candidate_unique (imported : Candidate) : Prop :=
  ∀ now, unique_buckets (assign_imported now imported).

(** ** The rest of the script: rendering, the edit sheet, the store *)

(** [s.replace(/c/g, by)] for a pattern of one character. *)
Fixpoint replace_all (c : ascii) (by_text : string) (s : string) : string :=
  match s with
  | EmptyString => EmptyString
  | String a r =>
      if Ascii.eqb a c then by_text +:+ replace_all c by_text r
      else String a (replace_all c by_text r)
  end.

(** [escapeHtml(str)] on a string: five replacements, one after the
    other, the ampersand first. *)
Definition escapeHtml (str : string) : string :=
  replace_all "'" "&#39;"
    (replace_all "034" "&quot;"
       (replace_all ">" "&gt;"
          (replace_all "<" "&lt;"
             (replace_all "&" "&amp;" str)))).

(** The text that stands for one character in escaped HTML. *)
Definition entity_of (c : ascii) : string :=
  if Ascii.eqb c "&" then "&amp;"
  else if Ascii.eqb c "<" then "&lt;"
  else if Ascii.eqb c ">" then "&gt;"
  else if Ascii.eqb c "034" then "&quot;"
  else if Ascii.eqb c "'" then "&#39;"
  else String c EmptyString.

Fixpoint escape_each (s : string) : string :=
  match s with
  | EmptyString => EmptyString
  | String a r => entity_of a +:+ escape_each r
  end.

(** The character occurs in the text. *)
Fixpoint has_char (c : ascii) (s : string) : bool :=
  match s with
  | EmptyString => false
  | String a r => Ascii.eqb a c || has_char c r
  end.

(** [txs.filter(t => t.amount < 0).reduce((s, t) => s + Math.abs(t.amount), 0)]
    and the same for income. *)
Definition spentOf (txs : list Transaction.t) : Q :=
  foldl (λ s t, s + Qabs (Transaction.amount t))%Q 0%Q
        (filter (λ t, JS.ltb (Transaction.amount t) 0 = true) txs).

Definition incomeOf (txs : list Transaction.t) : Q :=
  foldl (λ s t, s + Transaction.amount t)%Q 0%Q
        (filter (λ t, JS.ltb 0 (Transaction.amount t) = true) txs).

(** [parseFloat(...) || 0] for the budget field. *)
Definition or_zero_number (typed : JS.number) : JS.number :=
  match typed with
  | JS.NaN => JS.Finite 0
  | JS.Finite q => JS.Finite (JS.or_zero q)
  | JS.PosInfinity => JS.PosInfinity
  | JS.NegInfinity => JS.NegInfinity
  end.

(** What the settings tab shows as the monthly budget: the dash, an
    amount, or the quotient of an infinite input. *)
Inductive Shown : Type := Dash | Amount (q : Q) | InfiniteAmount.

Section Render.
(** The script's own calculation. *)
Variable calcDynamicMonthlyGoal : Date → LedgerState → Q.

(** The live monthly budget of the settings tab, before it is
    formatted. *)
Definition updateSettingsMonthlyDisplay_with (now : Date) (annualInput : JS.number)
    (data : LedgerState) : Shown :=
  let annual := or_zero_number annualInput in
  let monthlyGoal := calcDynamicMonthlyGoal now data in
  if JS.ltb 0 (annualBudget (settings data)) then Amount monthlyGoal
  else
    match annual with
    | JS.Finite annual =>
        if JS.ltb 0 annual
        then Amount (annual / inject_Z (calcMonthsRemainingInYear now))%Q
        else Dash
    | JS.PosInfinity => InfiniteAmount
    | JS.NegInfinity | JS.NaN => Dash
    end.
End Render.

Module YearToDateView.
Definition updateSettingsMonthlyDisplay : Date → JS.number → LedgerState → Shown :=
  updateSettingsMonthlyDisplay_with YearToDate.calcDynamicMonthlyGoal.
End YearToDateView.

Module PriorMonthsView.
Definition updateSettingsMonthlyDisplay : Date → JS.number → LedgerState → Shown :=
  updateSettingsMonthlyDisplay_with PriorMonths.calcDynamicMonthlyGoal.
End PriorMonthsView.

(** One card of the history tab. *)
Record HistoryCard : Type := {
  card_key : string;
  card_goal : Q;
  card_net : Q;
  card_transactions : list Transaction.t
}.

(** [Object.keys(data.history).sort().reverse()]: the default sort
    orders strings by their code units. *)
Definition historyKeys (data : LedgerState) : list string :=
  rev (JS.sort String.compare (Object_keys (history data))).

(** [renderHistory()]: the cards, in the order they are written. *)
Definition renderHistory (data : LedgerState) : list HistoryCard :=
  omap (λ key,
          match history data !! key with
          | Some month =>
              let txs := MonthBucket.transactions month in
              let goal := JS.or_zero (MonthBucket.goal month) in
              let spent := spentOf txs in
              let income := incomeOf txs in
              let net := (spent - income)%Q in
              Some {| card_key := key; card_goal := goal; card_net := net;
                      card_transactions := txs |}
          | None => None
          end)
       (historyKeys data).

(** The transaction that [openEditTx] and [confirmDeleteTx] look for. *)
Definition lookup_tx (id : string) (monthKey : option string) (data : LedgerState)
    : option Transaction.t :=
  if truthy_key monthKey
  then find_tx id (match bucket_at monthKey (history data) with
                   | Some bucket => MonthBucket.transactions bucket
                   | None => []
                   end)
  else find_tx id (transactions data).

(** [openEditTx(id, monthKey = null)]: the edit sheet as it opens, with
    [editingTxMonth]; [None] when the transaction is not found and the
    sheet stays closed.  The fields of the sheet hold what is assigned to
    them, and [parseFloat] reads the amount back as it was written. *)
Definition openEditTx (id : string) (monthKey : option string) (data : LedgerState)
    : option (EditForm * option string) :=
  match lookup_tx id monthKey data with
  | None => None
  | Some tx =>
      Some ({| editingTxId := Some id;
               editAmount := JS.Finite (Qabs (Transaction.amount tx));
               editDescription := Transaction.description tx;
               editDate := Transaction.date tx;
               editIsIncome := JS.ltb 0 (Transaction.amount tx) |},
            if truthy_key monthKey then monthKey else None)
  end.

(** [confirmDeleteTx(id, monthKey = null)], with the answer of the user
    to the modal. *)
Definition confirmDeleteTx (id : string) (monthKey : option string) (confirmed : bool)
    (data : LedgerState) : LedgerState :=
  match lookup_tx id monthKey data with
  | None => data
  | Some _ => if confirmed then PriorMonths.deleteTransaction id monthKey data else data
  end.

(** [deleteEditTx()], from the open sheet. *)
Definition deleteEditTx (form : EditForm) (editingTxMonth : option string)
    (confirmed : bool) (data : LedgerState) : LedgerState :=
  if falsy_id (editingTxId form) then data
  else confirmDeleteTx (default ""%string (editingTxId form)) editingTxMonth confirmed data.

(** [confirmClearData()], with the answer of the user. *)
Definition confirmClearData (now : Date) (confirmed : bool) (data : LedgerState)
    : LedgerState :=
  if confirmed then emptyData now else data.

(** [exportData()]: the object [exportObj] as [JSON.parse] reads it back
    from the downloaded file.  [exportedAt] is no field of the data
    model: an import copies it into [data], where no function reads it. *)
Definition exportData (data : LedgerState) : Candidate :=
  {| c_version := Some (if version data =? 0 then 1 else version data);
     c_settings := Shaped (settings data);
     c_currentMonth := Some (currentMonth data);
     c_transactions := Shaped (transactions data);
     c_history := Object (history data) |}.

(** What [localStorage.getItem(STORAGE_KEY)] holds: nothing (or the
    empty text, which is falsy as well), a text that [JSON.parse] rejects,
    or a document. *)
Inductive Stored : Type :=
| NoItem
| BadText
| Document (parsed : Candidate).

(** [saveData()]: the document written; when [setItem] throws the store
    keeps what it had. *)
Definition saveData (written : bool) (data : LedgerState) (store : Stored) : Stored :=
  if written
  then Document {| c_version := Some (version data);
                   c_settings := Shaped (settings data);
                   c_currentMonth := Some (currentMonth data);
                   c_transactions := Shaped (transactions data);
                   c_history := Object (history data) |}
  else store.

(** [loadData()]. *)
Definition loadData (now : Date) (store : Stored) (data : LedgerState) : LedgerState :=
  match store with
  | NoItem => data
  | BadText => emptyData now
  | Document parsed => assign_imported now parsed
  end.

Section Init.
Variable checkMonthlyReset : Date → LedgerState → LedgerState.

(** The script as it starts: [let data = emptyData()], then [init()]
    loads the store and checks the month, all at one reading of the
    clock. *)
Definition init_with (now : Date) (store : Stored) : LedgerState :=
  checkMonthlyReset now (loadData now store (emptyData now)).
End Init.

(** An amount as the script stores it: rounded to cents. *)
Definition in_cents (a : Q) : Prop := JS.toFixed2 (Qabs a) = Qabs a.

(** The net spend that the loop over the history keys adds up, bucket by
    bucket: the buckets whose key starts with the text of the year. *)
Definition year_net (thisYearStr : string) (l : list (string * MonthBucket.t)) : Q :=
  foldr (λ kb acc,
           if JS.startsWith kb.1 thisYearStr
           then (acc + Spec.netOf (MonthBucket.transactions kb.2))%Q
           else acc)
        0%Q l.

(** Every amount of the state is in cents, and the documents that keep
    it so. *)
Definition cents_everywhere (data : LedgerState) : Prop :=
  ∀ bucket t, t ∈ bucket_txs bucket data → in_cents (Transaction.amount t).

Definition candidate_cents (imported : Candidate) : Prop :=
  ∀ now, cents_everywhere (assign_imported now imported).
(** ** Facts about the JavaScript primitives *)

Section StringFacts.

Lemma string_of_uint_digits u : all_digits (NilEmpty.string_of_uint u) = true.
Proof. induction u; simpl; auto. Qed.

Lemma digit_not_space c : JS.is_digit c = true → JS.is_space c = false.
Proof.
  destruct c as [[] [] [] [] [] [] [] []]; simpl; intros H;
    try discriminate H; reflexivity.
Qed.

Lemma digit_not_hyphen c : JS.is_digit c = true → Ascii.eqb c "-" = false.
Proof.
  destruct c as [[] [] [] [] [] [] [] []]; simpl; intros H;
    try discriminate H; reflexivity.
Qed.

Lemma take_digits_all s : all_digits s = true → JS.take_digits s = s.
Proof.
  induction s as [|c r IH]; simpl; [done|].
  intros [Hc Hr]%andb_prop. rewrite Hc, IH; done.
Qed.

Lemma split_head_digits s rest :
  all_digits s = true → JS.split_head "-" (s +:+ String "-" rest) = s.
Proof.
  induction s as [|c r IH]; simpl; [done|].
  intros [Hc Hr]%andb_prop. rewrite (digit_not_hyphen _ Hc), IH; done.
Qed.

(** The decimal text of a natural number: digits, at least one. *)
Lemma toString_nonneg n :
  0 <= n →
  ∃ u, JS.toString n = NilZero.string_of_uint u ∧ Z.of_uint u = n.
Proof.
  intros Hn. unfold JS.toString.
  pose proof (DecimalZ.of_to n) as Hrt.
  destruct (Z.to_int n) as [u|u] eqn:E.
  - exists u. split; [reflexivity|]. exact Hrt.
  - destruct n; simpl in E; try discriminate E. lia.
Qed.

Lemma NilZero_digits u : all_digits (NilZero.string_of_uint u) = true.
Proof. destruct u; try apply string_of_uint_digits. reflexivity. Qed.

Lemma NilZero_nonempty u : NilZero.string_of_uint u ≠ EmptyString.
Proof. destruct u; simpl; discriminate. Qed.

Lemma toString_digits n : 0 <= n → all_digits (JS.toString n) = true.
Proof. intros [u [-> _]]%toString_nonneg. apply NilZero_digits. Qed.

Lemma parseInt_digits s :
  all_digits s = true → s ≠ EmptyString →
  ∃ u, NilEmpty.uint_of_string s = Some u ∧ JS.parseInt s = Some (Z.of_uint u).
Proof.
  intros Hd Hne. unfold JS.parseInt.
  destruct s as [|c r]; [done|].
  pose proof Hd as Hd'. simpl in Hd'. apply andb_prop in Hd' as [Hc Hr].
  assert (Hsk : JS.skip_space (String c r) = String c r).
  { simpl. rewrite (digit_not_space _ Hc). reflexivity. }
  rewrite Hsk.
  assert (Hsign : (match String c r with
                   | String "-"%char r0 => (true, r0)
                   | String "+"%char r0 => (false, r0)
                   | _ => (false, String c r)
                   end) = (false, String c r)).
  { destruct c as [[] [] [] [] [] [] [] []]; simpl in Hc; try discriminate Hc; reflexivity. }
  rewrite Hsign. rewrite (take_digits_all _ Hd).
  destruct (NilEmpty.uint_of_string (String c r)) as [u|] eqn:E.
  - exists u. split; reflexivity.
  - exfalso. clear -Hd E. revert E.
    assert (G : ∀ s, all_digits s = true → NilEmpty.uint_of_string s ≠ None).
    { induction s as [|a s IH]; simpl; [done|].
      intros [Ha Hs]%andb_prop. specialize (IH Hs).
      destruct (NilEmpty.uint_of_string s); [|done].
      destruct a as [[] [] [] [] [] [] [] []]; simpl in Ha; try discriminate Ha; done. }
    apply G; exact Hd.
Qed.

(** [parseInt] reads back what [toString] wrote. *)
Lemma parseInt_toString n : 0 <= n → JS.parseInt (JS.toString n) = Some n.
Proof.
  intros Hn. destruct (toString_nonneg n Hn) as [u [Hs Hu]].
  rewrite Hs.
  destruct (parseInt_digits (NilZero.string_of_uint u)
              (NilZero_digits u) (NilZero_nonempty u)) as [u' [Hu' ->]].
  f_equal. rewrite <- Hu.
  destruct u; simpl in Hu'; try (rewrite NilEmpty.usu in Hu'; injection Hu' as <-; reflexivity).
  injection Hu' as <-. reflexivity.
Qed.

Lemma toString_inj n m : 0 <= n → 0 <= m → JS.toString n = JS.toString m → n = m.
Proof.
  intros Hn Hm E.
  pose proof (parseInt_toString n Hn) as H1.
  pose proof (parseInt_toString m Hm) as H2.
  rewrite E in H1. congruence.
Qed.

Lemma yearOf_toString y rest :
  0 <= y → yearOf (JS.toString y +:+ String "-" rest) = Some y.
Proof.
  intros Hy. unfold yearOf.
  rewrite split_head_digits by (apply toString_digits; exact Hy).
  apply parseInt_toString; exact Hy.
Qed.

Lemma prefix_empty s : String.prefix "" s = true.
Proof. destruct s; reflexivity. Qed.

Lemma prefix_cons c p d s :
  String.prefix (String c p) (String d s)
  = if ascii_dec c d then String.prefix p s else false.
Proof. simpl. destruct (ascii_dec c d); reflexivity. Qed.

Lemma prefix_app_iff p a b :
  String.length p = String.length a →
  String.prefix p (a +:+ b) = true ↔ p = a.
Proof.
  revert a. induction p as [|c p IH]; intros [|d a] Hlen; simpl in Hlen; try discriminate Hlen.
  - rewrite prefix_empty. split; reflexivity.
  - change (String d a +:+ b) with (String d (a +:+ b)).
    rewrite prefix_cons.
    destruct (ascii_dec c d) as [->|Hne].
    + rewrite IH by congruence. split; congruence.
    + split; [discriminate | congruence].
Qed.

Lemma prefix_app_inv p s :
  String.prefix p s = true → ∃ rest, s = p +:+ rest.
Proof.
  revert s. induction p as [|c p IH]; intros s H.
  - exists s. reflexivity.
  - destruct s as [|d s]; [discriminate H|].
    rewrite prefix_cons in H.
    destruct (ascii_dec c d) as [->|Hne]; [|discriminate H].
    destruct (IH s H) as [rest ->]. exists rest. reflexivity.
Qed.

Lemma app_assoc_string a b c : (a +:+ b) +:+ c = a +:+ (b +:+ c).
Proof.
  induction a as [|x a IH]; [reflexivity|].
  change (String x ((a +:+ b) +:+ c) = String x (a +:+ (b +:+ c))).
  rewrite IH; reflexivity.
Qed.

(** The decimal text of a four-digit year has four characters. *)
Lemma toString_length4 y :
  1000 <= y <= 9999 → String.length (JS.toString y) = 4%nat.
Proof.
  intros Hy.
  assert (H : forallb (λ i, Nat.eqb (String.length (JS.toString (1000 + Z.of_nat i))) 4)
                      (seq 0 (Z.to_nat 9000)) = true) by (vm_compute; reflexivity).
  rewrite forallb_forall in H.
  specialize (H (Z.to_nat (y - 1000))).
  replace (1000 + Z.of_nat (Z.to_nat (y - 1000))) with y in H by lia.
  apply Nat.eqb_eq, H, in_seq. lia.
Qed.

(** On a year-keyed history key, [startsWith] the text of a four-digit
    year tells that the key's year is that year. *)
Lemma startsWith_year key y :
  year_keyed key = true → 1000 <= y <= 9999 →
  JS.startsWith key (JS.toString y) = (match yearOf key with
                                       | Some y' => y' =? y
                                       | None => false
                                       end).
Proof.
  unfold year_keyed. intros Hk Hy.
  destruct (yearOf key) as [y'|] eqn:E; [|discriminate Hk].
  apply andb_prop in Hk as [[Hlo Hhi]%andb_prop Hpre].
  apply Z.leb_le in Hlo, Hhi.
  apply prefix_app_inv in Hpre as [rest ->].
  rewrite app_assoc_string. unfold JS.startsWith.
  destruct (y' =? y) eqn:Ey.
  - apply Z.eqb_eq in Ey as ->.
    apply prefix_app_iff; reflexivity.
  - apply Z.eqb_neq in Ey.
    apply not_true_is_false. intros Hp.
    apply prefix_app_iff in Hp.
    + apply toString_inj in Hp; lia.
    + rewrite !toString_length4 by lia. reflexivity.
Qed.

End StringFacts.

(** ** The allowance *)

Section Allowance.
Local Open Scope Q_scope.

Lemma or_zero_eq x : JS.or_zero x == x.
Proof.
  unfold JS.or_zero. destruct (Qeq_bool x 0) eqn:E; [|reflexivity].
  apply Qeq_bool_iff in E. symmetry; exact E.
Qed.

Lemma ltb_true x y : JS.ltb x y = true ↔ (x < y)%Q.
Proof.
  unfold JS.ltb. rewrite negb_true_iff.
  split.
  - intros H. apply Qnot_le_lt. intros Hle. apply Qle_bool_iff in Hle. congruence.
  - intros H. apply not_true_is_false. intros Hle%Qle_bool_iff.
    exact (Qlt_not_le _ _ H Hle).
Qed.

Lemma ltb_false x y : JS.ltb x y = false ↔ (y <= x)%Q.
Proof.
  unfold JS.ltb. rewrite negb_false_iff. apply Qle_bool_iff.
Qed.

(** One transaction moves [spent - income] by its net. *)
Lemma tally_step acc t :
  fst (tally acc t) - snd (tally acc t)
  == (fst acc - snd acc) + Spec.netOf [t].
Proof.
  unfold tally, Spec.netOf. simpl.
  destruct (JS.ltb (Transaction.amount t) 0) eqn:Eneg;
    destruct (JS.ltb 0 (Transaction.amount t)) eqn:Epos; simpl.
  - apply ltb_true in Eneg, Epos. exfalso.
    exact (Qlt_irrefl _ (Qlt_trans _ _ _ Eneg Epos)).
  - ring.
  - ring.
  - apply ltb_false in Eneg, Epos.
    assert (E0 : Transaction.amount t == 0) by (apply Qle_antisym; assumption).
    rewrite E0. ring.
Qed.

Lemma netOf_cons t txs : Spec.netOf (t :: txs) == Spec.netOf [t] + Spec.netOf txs.
Proof. unfold Spec.netOf. simpl. ring. Qed.

(** The two accumulators of the script, read as their difference. *)
Lemma tally_fold txs : ∀ acc,
  fst (foldl tally acc txs) - snd (foldl tally acc txs)
  == (fst acc - snd acc) + Spec.netOf txs.
Proof.
  induction txs as [|t txs IH]; intros acc; simpl.
  - unfold Spec.netOf; simpl. ring.
  - rewrite IH, tally_step, (netOf_cons t txs). ring.
Qed.

(** The same for the loop over the history keys. *)
Lemma tally_buckets (now : Date) (l : list (string * MonthBucket.t)) :
  (1000 <= getFullYear now <= 9999)%Z →
  Forall (λ kb, year_keyed kb.1 = true) l →
  let code :=
    foldr (uncurry (λ key bucket acc,
                      if JS.startsWith key (JS.toString (CURRENT_YEAR now))
                      then foldl tally acc (MonthBucket.transactions bucket)
                      else acc)) (0%Q, 0%Q) l in
  fst code - snd code
  == foldr (uncurry (λ key bucket acc,
                       if Spec.in_year now key
                       then acc + Spec.netOf (MonthBucket.transactions bucket)
                       else acc)) 0 l.
Proof.
  intros Hy Hl. induction Hl as [|[key bucket] l Hk Hl IH]; simpl.
  - reflexivity.
  - simpl in Hk. unfold CURRENT_YEAR, Spec.in_year in *.
    rewrite (startsWith_year key (getFullYear now) Hk Hy).
    destruct (yearOf key) as [y|]; [|exact IH].
    destruct (y =? getFullYear now)%Z; [|exact IH].
    rewrite tally_fold. simpl in IH. rewrite IH. reflexivity.
Qed.

(** On year-keyed histories the script's year-to-date net is the
    specification's. *)
Lemma calcYearToDateNet_spec now data :
  (1000 <= getFullYear now <= 9999)%Z →
  (∀ key, is_Some (history data !! key) → year_keyed key = true) →
  YearToDate.calcYearToDateNet now data == Spec.yearToDateNet now data.
Proof.
  intros Hy Hkeys.
  unfold YearToDate.calcYearToDateNet, Spec.yearToDateNet.
  cbv zeta. rewrite tally_fold, !map_fold_foldr.
  rewrite (tally_buckets now (map_to_list (history data)) Hy); [reflexivity|].
  apply Forall_forall. intros [key bucket] Hin. simpl.
  apply Hkeys. exists bucket. apply elem_of_map_to_list. exact Hin.
Qed.

Lemma calcDynamicMonthlyGoal_unfold now data :
  (0 <= getMonth now <= 11)%Z →
  YearToDate.calcDynamicMonthlyGoal now data
  = YearToDate.calcRemainingAnnual now data / inject_Z (12 - getMonth now).
Proof.
  intros Hm. unfold YearToDate.calcDynamicMonthlyGoal, calcMonthsRemainingInYear.
  destruct (12 - getMonth now <=? 0)%Z eqn:E; [|reflexivity].
  apply Z.leb_le in E. lia.
Qed.

End Allowance.

(** ** C1, C2: the allowance formula and its scenarios *)

Section AllowanceScenarios.
Local Open Scope Q_scope.

Lemma year_keyed_toString y rest :
  (1000 <= y <= 9999)%Z → year_keyed (JS.toString y +:+ String "-" rest) = true.
Proof.
  intros Hy. unfold year_keyed.
  rewrite yearOf_toString by lia.
  apply andb_true_intro; split.
  - apply andb_true_intro; split; apply Z.leb_le; lia.
  - change (JS.toString y +:+ String "-" rest)
      with (JS.toString y +:+ ("-" +:+ rest)).
    rewrite <- app_assoc_string. apply prefix_app_iff; reflexivity.
Qed.

Lemma year_keyed_CURRENT_MONTH_KEY now :
  (1000 <= getFullYear now <= 9999)%Z → year_keyed (CURRENT_MONTH_KEY now) = true.
Proof. intros Hy. apply (year_keyed_toString _ _ Hy). Qed.

(** C1, for every state and date: on a history whose keys begin with
    a four-digit year and at a date of a four-digit year, the dynamic
    monthly goal is (annualBudget - yearToDateNet) / monthsRemainingInYear,
    with yearToDateNet the sum of the nets of the history buckets of
    the year of [now] plus the net of the current month; and in scenario
    C (budget 12000, a January bucket of net 1500, empty current month,
    February 1st) the remaining annual budget is 10500 and the goal
    10500/11. *)
Theorem C1_dynamic_goal_formula :
  (∀ now data,
      valid_date now →
      (∀ key, is_Some (history data !! key) → year_keyed key = true) →
      YearToDate.calcDynamicMonthlyGoal now data
      == (annualBudget (settings data) - Spec.yearToDateNet now data)
         / inject_Z (Spec.monthsRemainingInYear now))
  ∧ (∀ y goal january,
      (1000 <= y <= 9999)%Z →
      Spec.netOf january == 1500 →
      let now := first_of_month y 1 in
      let data := scenarioC y goal january in
      Spec.monthsRemainingInYear now = 11%Z
      ∧ YearToDate.calcRemainingAnnual now data == 10500
      ∧ YearToDate.calcDynamicMonthlyGoal now data == 10500 # 11).
Proof.
  assert (General : ∀ now data,
      valid_date now →
      (∀ key, is_Some (history data !! key) → year_keyed key = true) →
      YearToDate.calcRemainingAnnual now data
      == annualBudget (settings data) - Spec.yearToDateNet now data).
  { intros now data [_ Hy] Hkeys. unfold YearToDate.calcRemainingAnnual. cbv zeta.
    rewrite or_zero_eq, (calcYearToDateNet_spec now data Hy Hkeys). reflexivity. }
  split.
  - intros now data Hnow Hkeys.
    rewrite calcDynamicMonthlyGoal_unfold by apply Hnow.
    rewrite (General now data Hnow Hkeys). reflexivity.
  - intros y goal january Hy Hnet now data.
    assert (Hnow : valid_date now) by (split; simpl; lia).
    assert (Hkeys : ∀ key, is_Some (history data !! key) → year_keyed key = true).
    { intros key [b Hb]. simpl in Hb.
      apply lookup_singleton_Some in Hb as [<- _].
      apply year_keyed_CURRENT_MONTH_KEY. exact Hy. }
    assert (Hrem : YearToDate.calcRemainingAnnual now data == 10500).
    { rewrite (General now data Hnow Hkeys).
      unfold Spec.yearToDateNet. simpl history. rewrite map_fold_singleton.
      unfold Spec.in_year, CURRENT_MONTH_KEY. simpl getFullYear.
      change (JS.toString y +:+ "-" +:+ ?r) with (JS.toString y +:+ String "-" r).
      rewrite yearOf_toString by lia. rewrite Z.eqb_refl.
      simpl. rewrite Hnet. reflexivity. }
    split; [reflexivity|]. split; [exact Hrem|].
    rewrite calcDynamicMonthlyGoal_unfold by (simpl; lia).
    rewrite Hrem. reflexivity.
Qed.

(** The general formula of C1 at scenario C in 2024. *)
Lemma C1_witness :
  let now := first_of_month 2024 1 in
  let data := scenarioC 2024 1000
                [Transaction.mk "lr1a2b3c4d5e" "2024-01-15" "18:05" (-(1500)) "Rent"] in
  YearToDate.calcDynamicMonthlyGoal now data
  == (annualBudget (settings data) - Spec.yearToDateNet now data)
     / inject_Z (Spec.monthsRemainingInYear now).
Proof.
  intros now data.
  apply (proj1 C1_dynamic_goal_formula now data).
  - split; simpl; lia.
  - intros key [b Hb]. subst data. cbn [history scenarioC] in Hb.
    apply lookup_singleton_Some in Hb as [<- _].
    vm_compute. reflexivity.
Defined.

End AllowanceScenarios.

Section MonthlyRemaining.
Local Open Scope Q_scope.

Lemma foldl_spent txs : ∀ acc,
  foldl (λ s t, s + Qabs (Transaction.amount t)) acc
        (filter (λ t, JS.ltb (Transaction.amount t) 0 = true) txs)
  == acc + Spec.sumExpenses txs.
Proof.
  induction txs as [|t txs IH]; intros acc; simpl.
  - ring.
  - rewrite filter_cons. destruct (decide (JS.ltb (Transaction.amount t) 0 = true)) as [E|E].
    + simpl. rewrite IH, E. ring.
    + apply not_true_is_false in E. rewrite IH, E. ring.
Qed.

Lemma foldl_income txs : ∀ acc,
  foldl (λ s t, s + Transaction.amount t) acc
        (filter (λ t, JS.ltb 0 (Transaction.amount t) = true) txs)
  == acc + Spec.sumIncome txs.
Proof.
  induction txs as [|t txs IH]; intros acc; simpl.
  - ring.
  - rewrite filter_cons. destruct (decide (JS.ltb 0 (Transaction.amount t) = true)) as [E|E].
    + simpl. rewrite IH, E. ring.
    + apply not_true_is_false in E. rewrite IH, E. ring.
Qed.

(** [monthlyRemaining = dynamicMonthlyGoal - netOf(current)], in both
    scripts. *)
Lemma calcMonthlyRemaining_spec now data :
  YearToDate.calcMonthlyRemaining now data
  == YearToDate.calcDynamicMonthlyGoal now data - Spec.netOf (transactions data).
Proof.
  unfold YearToDate.calcMonthlyRemaining, calcMonthSpent, calcMonthIncome, Spec.netOf.
  cbv zeta. rewrite foldl_spent, foldl_income. ring.
Qed.

(** C2 as stated fails on the year-to-date script: in scenario B the
    expense of 500 is part of the year-to-date net, the goal is 1150 and
    650 remain, not 700. *)
Lemma C2_counterexample :
  let now := first_of_month 2024 2 in
  annualBudget (settings scenarioB) == 12000
  ∧ history scenarioB = ∅
  ∧ Transaction.amount <$> transactions scenarioB = [-(500)]
  ∧ YearToDate.calcMonthlyRemaining now scenarioB == 650
  ∧ ¬ YearToDate.calcMonthlyRemaining now scenarioB == 700.
Proof.
  intros now. repeat split; try reflexivity.
  vm_compute. discriminate.
Qed.

(** C2, amended: with a budget of 12000, an empty history, March 1st
    and exactly one current-month expense of 500.00, monthlyRemaining =
    dynamicMonthlyGoal - netOf(current) = 1150.00 - 500.00 = 650.00,
    the goal being (12000 - 500) / 10 because the year-to-date net
    counts the current month. *)
Theorem C2_monthly_remaining_scenario_B now data t :
  getMonth now = 2%Z →
  annualBudget (settings data) == 12000 →
  history data = ∅ →
  transactions data = [t] →
  Transaction.amount t == -(500) →
  YearToDate.calcMonthlyRemaining now data
  == YearToDate.calcDynamicMonthlyGoal now data - Spec.netOf (transactions data)
  ∧ Spec.netOf (transactions data) == 500
  ∧ YearToDate.calcDynamicMonthlyGoal now data == 1150
  ∧ YearToDate.calcMonthlyRemaining now data == 650.
Proof.
  intros Hm Hb Hh Ht Ha.
  assert (Hneg : JS.ltb (Transaction.amount t) 0 = true)
    by (apply ltb_true; rewrite Ha; reflexivity).
  assert (Hpos : JS.ltb 0 (Transaction.amount t) = false)
    by (apply ltb_false; rewrite Ha; discriminate).
  assert (Hnet : Spec.netOf (transactions data) == 500).
  { rewrite Ht. unfold Spec.netOf. simpl. rewrite Hneg, Hpos, Ha. reflexivity. }
  assert (Hgoal : YearToDate.calcDynamicMonthlyGoal now data == 1150).
  { rewrite calcDynamicMonthlyGoal_unfold by lia.
    unfold YearToDate.calcRemainingAnnual, YearToDate.calcYearToDateNet.
    cbv zeta. rewrite or_zero_eq, tally_fold, Hh, map_fold_empty, Hb, Hnet, Hm.
    reflexivity. }
  split; [apply calcMonthlyRemaining_spec|].
  split; [exact Hnet|]. split; [exact Hgoal|].
  rewrite calcMonthlyRemaining_spec, Hgoal, Hnet. reflexivity.
Qed.

(** The amended C2 at scenario B, March 1st 2024. *)
Lemma C2_witness :
  YearToDate.calcMonthlyRemaining (first_of_month 2024 2) scenarioB == 650.
Proof.
  apply (C2_monthly_remaining_scenario_B (first_of_month 2024 2) scenarioB
           (Transaction.mk "lt9x0k2ab3f7" "2024-03-01" "09:30" (-(500)) "Groceries"));
    reflexivity.
Defined.

(** The script that keeps the goal fixed within the month gives the 700
    of the scenario. *)
Lemma PriorMonths_scenario_B :
  PriorMonths.calcDynamicMonthlyGoal (first_of_month 2024 2) scenarioB == 1200
  ∧ PriorMonths.calcMonthlyRemaining (first_of_month 2024 2) scenarioB == 700.
Proof. split; reflexivity. Qed.

End MonthlyRemaining.

(** ** C3, C5: rollover and pruning *)

Section Pruning.

Lemma elem_of_Object_keys {A} (o : gmap string A) key :
  key ∈ Object_keys o ↔ is_Some (o !! key).
Proof.
  unfold Object_keys. rewrite list_elem_of_fmap. split.
  - intros [[k a] [-> Hin]]. exists a. apply elem_of_map_to_list. exact Hin.
  - intros [a Ha]. exists (key, a). split; [reflexivity|].
    apply elem_of_map_to_list. exact Ha.
Qed.

(** The loop deletes exactly the listed keys whose year is before
    [lastYear]. *)
Lemma prune_keys_lookup lastYear keys : ∀ h key,
  prune_keys lastYear keys h !! key
  = if bool_decide (key ∈ keys) && year_before key lastYear then None else h !! key.
Proof.
  induction keys as [|k keys IH]; intros h key.
  - simpl. reflexivity.
  - unfold prune_keys in *. simpl foldl. rewrite IH.
    destruct (decide (key = k)) as [->|Hne].
    + rewrite (bool_decide_eq_true_2 (k ∈ k :: keys)) by apply list_elem_of_here.
      destruct (year_before k lastYear) eqn:E.
      * rewrite andb_true_r. simpl. rewrite lookup_delete_eq.
        destruct (bool_decide (k ∈ keys)); reflexivity.
      * rewrite !andb_false_r. reflexivity.
    + assert (Hmem : bool_decide (key ∈ k :: keys) = bool_decide (key ∈ keys)).
      { apply bool_decide_ext. rewrite elem_of_cons. split; [intros [?|?]; [congruence|assumption] | auto]. }
      rewrite Hmem.
      destruct (bool_decide (key ∈ keys) && year_before key lastYear); [reflexivity|].
      destruct (year_before k lastYear); [|reflexivity].
      apply lookup_delete_ne. congruence.
Qed.

Lemma pruneOldHistory_lookup now data key :
  history (pruneOldHistory now data) !! key
  = if year_before key (getFullYear now - 1) then None else history data !! key.
Proof.
  unfold pruneOldHistory, CURRENT_YEAR. cbn [history with_history].
  rewrite prune_keys_lookup.
  destruct (year_before key (getFullYear now - 1)).
  - rewrite andb_true_r.
    destruct (bool_decide (key ∈ Object_keys (history data))) eqn:E; [reflexivity|].
    apply bool_decide_eq_false in E. rewrite elem_of_Object_keys in E.
    destruct (history data !! key) as [b|]; [|reflexivity].
    exfalso. apply E. exists b. reflexivity.
  - rewrite andb_false_r. reflexivity.
Qed.

Variable calcDynamicMonthlyGoal : Date → LedgerState → Q.

(** What a rollover leaves: the new month, an empty list, and the old
    history with the outgoing month archived, then pruned.  The goal
    frozen in the archive is [calcDynamicMonthlyGoal] read at [now]. *)
Lemma checkMonthlyReset_rolls now data :
  currentMonth data ≠ CURRENT_MONTH_KEY now →
  let data' := checkMonthlyReset_with calcDynamicMonthlyGoal now data in
  currentMonth data' = CURRENT_MONTH_KEY now
  ∧ transactions data' = []
  ∧ ∀ key,
      history data' !! key
      = if year_before key (getFullYear now - 1) then None
        else if JS.truthy (currentMonth data) && String.eqb key (currentMonth data)
        then Some (MonthBucket.mk (JS.or_zero (calcDynamicMonthlyGoal now data))
                                  (transactions data))
        else history data !! key.
Proof.
  intros Hne data'. subst data'. unfold checkMonthlyReset_with.
  destruct (String.eqb (currentMonth data) (CURRENT_MONTH_KEY now)) eqn:E.
  { apply String.eqb_eq in E. contradiction. }
  cbv zeta. split; [reflexivity|]. split; [reflexivity|].
  intros key. rewrite pruneOldHistory_lookup.
  destruct (year_before key (getFullYear now - 1)); [reflexivity|].
  unfold archiveMonth.
  destruct (JS.truthy (currentMonth data)); simpl; [|reflexivity].
  destruct (String.eqb key (currentMonth data)) eqn:Ek.
  - apply String.eqb_eq in Ek as ->. apply lookup_insert_eq.
  - apply String.eqb_neq in Ek. apply lookup_insert_ne. congruence.
Qed.

Lemma checkMonthlyReset_current now data :
  currentMonth data = CURRENT_MONTH_KEY now →
  checkMonthlyReset_with calcDynamicMonthlyGoal now data = data.
Proof.
  intros E. unfold checkMonthlyReset_with. rewrite E, String.eqb_refl. reflexivity.
Qed.

End Pruning.

(** C3 on the script, at a ledger still in January 2024 (budget 12000,
    one expense of 600) opened in February 2024: the rollover archives
    "2024-01" with the goal computed from the outgoing transactions but
    with February's months remaining, (12000 - 600) / 11; the goal with
    [now] still in January is (12000 - 600) / 12 = 950. *)
Theorem C3_archived_goal_at_rollover :
  let january := first_of_month 2024 0 in
  let february := first_of_month 2024 1 in
  let data' := YearToDate.checkMonthlyReset february januaryLedger in
  currentMonth januaryLedger = CURRENT_MONTH_KEY january
  ∧ currentMonth januaryLedger ≠ CURRENT_MONTH_KEY february
  ∧ currentMonth data' = CURRENT_MONTH_KEY february
  ∧ transactions data' = []
  ∧ history data' !! currentMonth januaryLedger
    = Some (MonthBucket.mk (YearToDate.calcDynamicMonthlyGoal february januaryLedger)
                           (transactions januaryLedger))
  ∧ (YearToDate.calcDynamicMonthlyGoal february januaryLedger == 11400 # 11)%Q
  ∧ (YearToDate.calcDynamicMonthlyGoal january januaryLedger == 950)%Q
  ∧ ¬ (YearToDate.calcDynamicMonthlyGoal february januaryLedger
       == YearToDate.calcDynamicMonthlyGoal january januaryLedger)%Q.
Proof.
  intros january february data'.
  split; [reflexivity|]. split; [discriminate|].
  split; [reflexivity|]. split; [reflexivity|].
  split; [vm_compute; reflexivity|].
  split; [reflexivity|]. split; [reflexivity|].
  vm_compute. discriminate.
Qed.

(** The year that the code reads off a key that begins with the decimal
    text of a year and a hyphen, and what the pruning does with such a
    key. *)
Lemma year_before_toString y rest lastYear :
  0 <= y →
  year_before (JS.toString y +:+ String "-" rest) lastYear = (y <? lastYear).
Proof.
  intros Hy. unfold year_before. rewrite yearOf_toString by exact Hy. reflexivity.
Qed.

Lemma rollover_lookup goalOf now data key :
  currentMonth data ≠ CURRENT_MONTH_KEY now →
  history (checkMonthlyReset_with goalOf now data) !! key
  = if year_before key (getFullYear now - 1) then None
    else if JS.truthy (currentMonth data) && String.eqb key (currentMonth data)
    then Some (MonthBucket.mk (JS.or_zero (goalOf now data)) (transactions data))
    else history data !! key.
Proof.
  intros Hne. destruct (checkMonthlyReset_rolls goalOf now data Hne) as (_ & _ & Hh).
  apply Hh.
Qed.

Lemma import_lookup now imported data data' key :
  importData now imported true data = (data', Some ToastImported) →
  ∃ c, imported = Some c
       ∧ history data' !! key
         = if year_before key (getFullYear now - 1) then None
           else history (assign_imported now c) !! key.
Proof.
  unfold importData. destruct imported as [c|]; [|discriminate].
  destruct (negb (is_truthy (c_settings c)) || is_undefined (c_transactions c));
    [discriminate|].
  intros [= <-]. exists c. split; [reflexivity|]. apply pruneOldHistory_lookup.
Qed.

(** C5: after a rollover and after an accepted import, no remaining
    history key has a year before [currentYear - 1], and a key of the
    shape YYYY-..., whose year is the number before its first hyphen, is
    gone when that number is below [currentYear - 1] and is kept with its
    bucket when it is not: pruning removes every key whose year is
    strictly less than [currentYear - 1] and removes no key whose year is
    at least [currentYear - 1]. *)
Theorem C5_history_pruned_to_window :
  (∀ goalOf now data key,
      currentMonth data ≠ CURRENT_MONTH_KEY now →
      is_Some (history (checkMonthlyReset_with goalOf now data) !! key) →
      year_before key (getFullYear now - 1) = false
      ∧ (∀ y, yearOf key = Some y → getFullYear now - 1 <= y)
      ∧ (year_keyed key = true → ∃ y, yearOf key = Some y ∧ getFullYear now - 1 <= y))
  ∧ (∀ now imported data data' key,
      importData now imported true data = (data', Some ToastImported) →
      is_Some (history data' !! key) →
      year_before key (getFullYear now - 1) = false
      ∧ (∀ y, yearOf key = Some y → getFullYear now - 1 <= y)
      ∧ (year_keyed key = true → ∃ y, yearOf key = Some y ∧ getFullYear now - 1 <= y))
  ∧ (∀ now data key y,
      yearOf key = Some y → y < getFullYear now - 1 →
      history (pruneOldHistory now data) !! key = None)
  ∧ (∀ now data key y,
      yearOf key = Some y → getFullYear now - 1 <= y →
      history (pruneOldHistory now data) !! key = history data !! key)
  ∧ (∀ now data y rest,
      0 <= y →
      history (pruneOldHistory now data) !! (JS.toString y +:+ String "-" rest)
      = if y <? getFullYear now - 1 then None
        else history data !! (JS.toString y +:+ String "-" rest))
  ∧ (∀ goalOf now data y rest,
      currentMonth data ≠ CURRENT_MONTH_KEY now →
      0 <= y →
      (y < getFullYear now - 1 →
       history (checkMonthlyReset_with goalOf now data) !! (JS.toString y +:+ String "-" rest)
       = None)
      ∧ (getFullYear now - 1 <= y →
         JS.toString y +:+ String "-" rest ≠ currentMonth data →
         history (checkMonthlyReset_with goalOf now data) !! (JS.toString y +:+ String "-" rest)
         = history data !! (JS.toString y +:+ String "-" rest)))
  ∧ (∀ now imported data data' y rest,
      importData now imported true data = (data', Some ToastImported) →
      0 <= y → y < getFullYear now - 1 →
      history data' !! (JS.toString y +:+ String "-" rest) = None).
Proof.
  assert (Kept : ∀ key lastYear,
             year_before key lastYear = false →
             (∀ y, yearOf key = Some y → lastYear <= y)
             ∧ (year_keyed key = true → ∃ y, yearOf key = Some y ∧ lastYear <= y)).
  { intros key lastYear H.
    assert (G : ∀ y, yearOf key = Some y → lastYear <= y).
    { intros y Hy. unfold year_before in H. rewrite Hy in H.
      apply Z.ltb_ge in H. exact H. }
    split; [exact G|]. intros Hk. unfold year_keyed in Hk.
    destruct (yearOf key) as [y|] eqn:E; [|discriminate Hk].
    exists y. split; [reflexivity|]. apply G. reflexivity. }
  assert (Pruned : ∀ now data key,
             is_Some (history (pruneOldHistory now data) !! key) →
             year_before key (getFullYear now - 1) = false).
  { intros now data key [b Hb]. rewrite pruneOldHistory_lookup in Hb.
    destruct (year_before key (getFullYear now - 1)); [discriminate Hb|reflexivity]. }
  split; [|split; [|split; [|split; [|split; [|split]]]]].
  - intros goalOf now data key Hne Hsome.
    assert (Hb : year_before key (getFullYear now - 1) = false).
    { unfold checkMonthlyReset_with in Hsome.
      destruct (String.eqb (currentMonth data) (CURRENT_MONTH_KEY now)) eqn:E.
      { apply String.eqb_eq in E. contradiction. }
      exact (Pruned _ _ _ Hsome). }
    split; [exact Hb | exact (Kept _ _ Hb)].
  - intros now imported data data' key Himp Hsome.
    assert (Hb : year_before key (getFullYear now - 1) = false).
    { unfold importData in Himp. destruct imported as [c|]; [|discriminate Himp].
      destruct (negb (is_truthy (c_settings c)) || is_undefined (c_transactions c));
        [discriminate Himp|].
      injection Himp as <-. exact (Pruned _ _ _ Hsome). }
    split; [exact Hb | exact (Kept _ _ Hb)].
  - intros now data key y Hy Hlt. rewrite pruneOldHistory_lookup.
    unfold year_before. rewrite Hy.
    destruct (y <? getFullYear now - 1) eqn:E; [reflexivity|].
    apply Z.ltb_ge in E. lia.
  - intros now data key y Hy Hle. rewrite pruneOldHistory_lookup.
    unfold year_before. rewrite Hy.
    destruct (y <? getFullYear now - 1) eqn:E; [|reflexivity].
    apply Z.ltb_lt in E. lia.
  - intros now data y rest Hy.
    rewrite pruneOldHistory_lookup, year_before_toString by exact Hy. reflexivity.
  - intros goalOf now data y rest Hne Hy. split.
    + intros Hlt. rewrite rollover_lookup by exact Hne.
      rewrite year_before_toString by exact Hy.
      apply Z.ltb_lt in Hlt. rewrite Hlt. reflexivity.
    + intros Hle Hkey. rewrite rollover_lookup by exact Hne.
      rewrite year_before_toString by exact Hy.
      apply Z.ltb_ge in Hle. rewrite Hle.
      apply String.eqb_neq in Hkey. rewrite Hkey, andb_false_r. reflexivity.
  - intros now imported data data' y rest Himp Hy Hlt.
    destruct (import_lookup now imported data data' (JS.toString y +:+ String "-" rest) Himp)
      as (c & _ & ->).
    rewrite year_before_toString by exact Hy.
    apply Z.ltb_lt in Hlt. rewrite Hlt. reflexivity.
Qed.

(** A ledger left in February 2024 with archives of December 2021 and
    of May 2023, opened in March 2024: the rollover removes "2021-12"
    and keeps "2023-05" with its bucket. *)
Lemma C5_witness :
  let now := first_of_month 2024 2 in
  let data := {| version := 1; settings := {| annualBudget := 12000 |};
                 currentMonth := "2024-02"; transactions := [];
                 history := {[ "2021-12"%string := MonthBucket.mk 900 [];
                               "2023-05"%string := MonthBucket.mk 1000 [] ]} |} in
  history (YearToDate.checkMonthlyReset now data) !! "2021-12"%string = None
  ∧ history (YearToDate.checkMonthlyReset now data) !! "2023-05"%string
    = Some (MonthBucket.mk 1000 []).
Proof.
  intros now data.
  destruct (proj1 (proj2 (proj2 (proj2 (proj2 (proj2 C5_history_pruned_to_window)))))
              YearToDate.calcDynamicMonthlyGoal now data 2021 "12"%string
              ltac:(discriminate) ltac:(lia)) as [Hgone _].
  destruct (proj1 (proj2 (proj2 (proj2 (proj2 (proj2 C5_history_pruned_to_window)))))
              YearToDate.calcDynamicMonthlyGoal now data 2023 "05"%string
              ltac:(discriminate) ltac:(lia)) as [_ Hkept].
  split.
  - apply Hgone. vm_compute. reflexivity.
  - change (JS.toString 2023 +:+ String "-" "05") with "2023-05"%string in Hkept.
    unfold YearToDate.checkMonthlyReset.
    rewrite Hkept; [vm_compute; reflexivity | vm_compute; discriminate | discriminate].
Defined.

(** ** C8, C9: deleting *)

Section Delete.

Lemma ids_remove_tx id txs x :
  x ∈ ids (remove_tx id txs) ↔ x ∈ ids txs ∧ x ≠ id.
Proof.
  unfold ids, remove_tx. induction txs as [|t txs IH]; simpl.
  - rewrite elem_of_nil. tauto.
  - destruct (String.eqb (Transaction.id t) id) eqn:E; simpl.
    + apply String.eqb_eq in E. rewrite IH, elem_of_cons.
      split; [tauto | intros [[->|H] Hne]; [congruence | tauto]].
    + apply String.eqb_neq in E. rewrite !elem_of_cons, IH.
      split; [intros [->|[H Hne]]; auto | tauto].
Qed.

Lemma remove_tx_absent id txs : id ∉ ids txs → remove_tx id txs = txs.
Proof.
  unfold ids, remove_tx. induction txs as [|t txs IH]; simpl; [reflexivity|].
  rewrite not_elem_of_cons. intros [Hne Hnin].
  destruct (String.eqb (Transaction.id t) id) eqn:E; simpl.
  - apply String.eqb_eq in E. congruence.
  - rewrite IH by exact Hnin. reflexivity.
Qed.

Lemma remove_tx_idem id txs : remove_tx id (remove_tx id txs) = remove_tx id txs.
Proof.
  apply remove_tx_absent. rewrite ids_remove_tx. tauto.
Qed.

Lemma with_history_same data : with_history (history data) data = data.
Proof. destruct data; reflexivity. Qed.

Lemma with_transactions_same data : with_transactions (transactions data) data = data.
Proof. destruct data; reflexivity. Qed.

Lemma bucket_at_Some monthKey h b :
  bucket_at monthKey h = Some b ↔
  ∃ k, monthKey = Some k ∧ JS.truthy k = true ∧ h !! k = Some b.
Proof.
  unfold bucket_at, truthy_key, key_or. destruct monthKey as [k|].
  - destruct (JS.truthy k) eqn:Hk.
    + split.
      * intros H. exists k. auto.
      * intros (k' & Hk' & Ht & H). congruence.
    + split; [discriminate|].
      intros (k' & Hk' & Ht & H). congruence.
  - split; [discriminate|]. intros (k' & Hk' & _). discriminate Hk'.
Qed.

Lemma deleteTransaction_bucket id key b data :
  JS.truthy key = true → history data !! key = Some b →
  PriorMonths.deleteTransaction id (Some key) data
  = with_history (<[key := map_bucket (remove_tx id) b]> (history data)) data.
Proof.
  intros Hk Hb. unfold PriorMonths.deleteTransaction, bucket_at, truthy_key, key_or.
  rewrite Hk, Hb. reflexivity.
Qed.

Lemma deleteTransaction_current id monthKey data :
  bucket_at monthKey (history data) = None →
  PriorMonths.inherited_key monthKey (history data) = false →
  PriorMonths.deleteTransaction id monthKey data
  = with_transactions (remove_tx id (transactions data)) data.
Proof.
  intros E Hown. unfold PriorMonths.deleteTransaction. rewrite E, Hown. reflexivity.
Qed.

(** At a name of [Object.prototype] the call throws and [data] is as
    before. *)
Lemma deleteTransaction_thrown id monthKey data :
  PriorMonths.inherited_key monthKey (history data) = true →
  PriorMonths.deleteTransaction id monthKey data = data.
Proof.
  intros Hin. unfold PriorMonths.deleteTransaction.
  unfold PriorMonths.inherited_key in Hin.
  destruct (bucket_at monthKey (history data)) eqn:E; [discriminate Hin|].
  unfold PriorMonths.inherited_key. rewrite E.
  destruct monthKey; [rewrite Hin; reflexivity | discriminate Hin].
Qed.

Lemma inherited_key_bucket monthKey h b :
  bucket_at monthKey h = Some b → PriorMonths.inherited_key monthKey h = false.
Proof. intros E. unfold PriorMonths.inherited_key. rewrite E. reflexivity. Qed.

(** What the filter keeps, in the words of the list library. *)
Lemma remove_tx_filter id txs :
  remove_tx id txs = filter (λ t, Transaction.id t ≠ id) txs.
Proof.
  unfold remove_tx. induction txs as [|t txs IH]; [reflexivity|].
  rewrite filter_cons. simpl.
  destruct (String.eqb (Transaction.id t) id) eqn:E; simpl.
  - apply String.eqb_eq in E.
    destruct (decide (Transaction.id t ≠ id)) as [Hne|_]; [contradiction | exact IH].
  - apply String.eqb_neq in E.
    destruct (decide (Transaction.id t ≠ id)) as [_|Hn]; [|contradiction].
    rewrite IH. reflexivity.
Qed.

(** A text that begins with a digit is no name of [Object.prototype]. *)
Lemma digit_first_not_inherited c r :
  JS.is_digit c = true → JS.inherited (String c r) = false.
Proof.
  destruct c as [[] [] [] [] [] [] [] []]; intros H; try discriminate H; reflexivity.
Qed.

Lemma year_keyed_not_inherited key : year_keyed key = true → JS.inherited key = false.
Proof.
  unfold year_keyed. intros Hk.
  destruct (yearOf key) as [y|]; [|discriminate Hk].
  apply andb_prop in Hk as [[Hlo Hhi]%andb_prop Hpre].
  apply Z.leb_le in Hlo, Hhi.
  apply prefix_app_inv in Hpre as [rest ->].
  pose proof (toString_length4 y (conj Hlo Hhi)) as Hlen.
  pose proof (toString_digits y ltac:(lia)) as Hdig.
  destruct (JS.toString y) as [|c r]; [discriminate Hlen|].
  simpl in Hdig. apply andb_prop in Hdig as [Hc _].
  apply digit_first_not_inherited. exact Hc.
Qed.

Lemma iso_date_not_inherited d n :
  JS.iso_date d = true → JS.inherited (JS.slice0 (S n) d) = false.
Proof.
  destruct d as [|c r]; [discriminate|]. intros H. simpl.
  apply digit_first_not_inherited.
  unfold JS.iso_date in H.
  repeat (match type of H with
          | context [match ?x with EmptyString => _ | String _ _ => _ end] =>
              destruct x; try discriminate H
          end).
  repeat (apply andb_prop in H as [H _]). exact H.
Qed.

(** Deleting is idempotent. *)
Lemma deleteTransaction_idem id monthKey data :
  PriorMonths.deleteTransaction id monthKey (PriorMonths.deleteTransaction id monthKey data)
  = PriorMonths.deleteTransaction id monthKey data.
Proof.
  destruct (bucket_at monthKey (history data)) as [b|] eqn:E.
  - apply bucket_at_Some in E as [k [-> [Hk Hb]]].
    rewrite (deleteTransaction_bucket id k b data Hk Hb).
    rewrite (deleteTransaction_bucket id k (map_bucket (remove_tx id) b))
      by (try exact Hk; apply lookup_insert_eq).
    unfold with_history, map_bucket.
    cbn [version settings currentMonth transactions history
         MonthBucket.goal MonthBucket.transactions].
    rewrite insert_insert_eq, remove_tx_idem. reflexivity.
  - destruct (PriorMonths.inherited_key monthKey (history data)) eqn:Hin.
    { rewrite !(deleteTransaction_thrown id monthKey data Hin). reflexivity. }
    rewrite (deleteTransaction_current id monthKey data E Hin).
    rewrite deleteTransaction_current by assumption.
    unfold with_transactions.
    cbn [version settings currentMonth transactions history].
    rewrite remove_tx_idem. reflexivity.
Qed.

(** C8 as stated fails where the named history bucket does not exist:
    the id is absent from that bucket, yet the call removes the
    transaction of that id from the current month. *)
Lemma C8_counterexample :
  let id := "lt9x0k2ab3f7"%string in
  ¬ holds scenarioB (Some "1999-01"%string) id
  ∧ PriorMonths.deleteTransaction id (Some "1999-01"%string) scenarioB ≠ scenarioB
  ∧ transactions (PriorMonths.deleteTransaction id (Some "1999-01"%string) scenarioB) = [].
Proof.
  intros id. split; [|split].
  - unfold holds. cbn. rewrite lookup_empty. apply not_elem_of_nil.
  - intros H. apply (f_equal transactions) in H. discriminate H.
  - reflexivity.
Qed.

(** C8, amended: for every state and every id, deleteTransaction(id,
    bucket) applied twice yields the same end state as applied once;
    and applying it when the id is absent from the specified bucket is a
    no-op when that bucket is the current month or a history bucket that
    exists. *)
Theorem C8_delete_idempotent_and_noop :
  (∀ id monthKey data,
      PriorMonths.deleteTransaction id monthKey
        (PriorMonths.deleteTransaction id monthKey data)
      = PriorMonths.deleteTransaction id monthKey data)
  ∧ (∀ id data,
      ¬ holds data None id →
      PriorMonths.deleteTransaction id None data = data)
  ∧ (∀ id key data,
      JS.truthy key = true →
      is_Some (history data !! key) →
      ¬ holds data (Some key) id →
      PriorMonths.deleteTransaction id (Some key) data = data).
Proof.
  split; [exact deleteTransaction_idem|]. split.
  - intros id data Hn. unfold PriorMonths.deleteTransaction. cbn.
    unfold holds in Hn. cbn in Hn. rewrite remove_tx_absent by exact Hn.
    apply with_transactions_same.
  - intros id key data Hk [b Hb] Hn.
    unfold PriorMonths.deleteTransaction, bucket_at, truthy_key, key_or.
    rewrite Hk, Hb. unfold holds, bucket_txs in Hn. rewrite Hb in Hn.
    unfold map_bucket. rewrite remove_tx_absent by exact Hn.
    destruct b as [g txs]; cbn. rewrite insert_id by exact Hb.
    apply with_history_same.
Qed.

(** Deleting from the archive of February an id it does not hold. *)
Lemma C8_witness :
  let data := pruneOldHistory (first_of_month 2024 2)
                (assign_imported (first_of_month 2024 2) candidate_twice) in
  PriorMonths.deleteTransaction "absent" (Some "2024-02"%string) data = data.
Proof.
  intros data.
  apply (proj2 (proj2 C8_delete_idempotent_and_noop) "absent"%string "2024-02"%string data).
  - reflexivity.
  - vm_compute. eexists. reflexivity.
  - unfold holds. vm_compute. intros H.
    apply list_elem_of_In in H. simpl in H. destruct H as [H|[]]. discriminate H.
Defined.

(** C9: called with a month key that has no history bucket, a key that
    is no name of [Object.prototype] as no month key is, deleteTransaction
    does not no-op: it removes the transactions of that id from the
    current-month list, keeps the others in their order and leaves the
    history as it is.  Under a name of [Object.prototype] the test
    [data.history[monthKey]] finds the inherited member, the call throws
    and nothing is removed. *)
Theorem C9_delete_falls_through_to_current :
  (∀ id key data,
      history data !! key = None →
      JS.inherited key = false →
      let data' := PriorMonths.deleteTransaction id (Some key) data in
      data' = with_transactions (remove_tx id (transactions data)) data
      ∧ transactions data' = filter (λ t, Transaction.id t ≠ id) (transactions data)
      ∧ ¬ holds data' None id
      ∧ (∀ x, x ≠ id → holds data' None x ↔ holds data None x)
      ∧ history data' = history data
      ∧ (holds data None id → data' ≠ data)
      ∧ PriorMonths.deleteTransaction_throws (Some key) data = false)
  ∧ (∀ key, year_keyed key = true → JS.inherited key = false)
  ∧ (∀ id key data,
      history data !! key = None →
      JS.inherited key = true →
      PriorMonths.deleteTransaction id (Some key) data = data
      ∧ PriorMonths.deleteTransaction_throws (Some key) data = true).
Proof.
  split; [|split; [exact year_keyed_not_inherited|]].
  - intros id key data Hnone Hown data'. subst data'.
    assert (Hb : bucket_at (Some key) (history data) = None).
    { unfold bucket_at, truthy_key, key_or. destruct (JS.truthy key); [exact Hnone|reflexivity]. }
    assert (Hin : PriorMonths.inherited_key (Some key) (history data) = false).
    { unfold PriorMonths.inherited_key. rewrite Hb. exact Hown. }
    rewrite (deleteTransaction_current id (Some key) data Hb Hin).
    split; [reflexivity|]. split; [apply remove_tx_filter|]. split; [|split; [|split; [|split]]].
    + unfold holds. cbn. rewrite ids_remove_tx. tauto.
    + intros x Hx. unfold holds. cbn. rewrite ids_remove_tx. tauto.
    + reflexivity.
    + intros Hheld Heq. apply (f_equal transactions) in Heq. cbn in Heq.
      unfold holds in Hheld. cbn in Hheld. rewrite <- Heq in Hheld.
      apply ids_remove_tx in Hheld. tauto.
    + exact Hin.
  - intros id key data Hnone Hinh.
    assert (Hb : bucket_at (Some key) (history data) = None).
    { unfold bucket_at, truthy_key, key_or. destruct (JS.truthy key); [exact Hnone|reflexivity]. }
    assert (Hin : PriorMonths.inherited_key (Some key) (history data) = true).
    { unfold PriorMonths.inherited_key. rewrite Hb. exact Hinh. }
    split; [apply deleteTransaction_thrown; exact Hin | exact Hin].
Qed.

(** C9 at scenario B, with the key of a month that was never archived. *)
Lemma C9_witness :
  transactions (PriorMonths.deleteTransaction "lt9x0k2ab3f7" (Some "1999-01"%string) scenarioB)
  = []
  ∧ ¬ holds (PriorMonths.deleteTransaction "lt9x0k2ab3f7" (Some "1999-01"%string) scenarioB)
            None "lt9x0k2ab3f7".
Proof.
  destruct (proj1 C9_delete_falls_through_to_current
              "lt9x0k2ab3f7"%string "1999-01"%string scenarioB (lookup_empty _) eq_refl)
    as (_ & Hkept & Hgone & _).
  split; [rewrite Hkept; reflexivity | exact Hgone].
Defined.

End Delete.

(** ** C7, C10: import *)

Section ImportDocument.

Lemma prune_empty now data :
  history data = ∅ → history (pruneOldHistory now data) = ∅.
Proof.
  intros E. apply map_eq. intros key.
  rewrite pruneOldHistory_lookup, E, lookup_empty.
  destruct (year_before key (getFullYear now - 1)); reflexivity.
Qed.

(** The validation of the import: what it rejects, exactly. *)
Lemma importData_rejects now imported confirmed data :
  negb (is_truthy (c_settings imported)) || is_undefined (c_transactions imported) = true →
  importData now (Some imported) confirmed data = (data, Some ToastInvalidFile).
Proof. intros H. unfold importData. rewrite H. reflexivity. Qed.

Lemma importData_accepts now imported data :
  is_truthy (c_settings imported) = true →
  is_undefined (c_transactions imported) = false →
  importData now (Some imported) true data
  = (pruneOldHistory now (assign_imported now imported), Some ToastImported).
Proof. intros Hs Ht. unfold importData. rewrite Hs, Ht. reflexivity. Qed.

(** Whatever does not end in the replacement leaves [data] as it was. *)
Lemma importData_unchanged now imported confirmed data :
  snd (importData now imported confirmed data) ≠ Some ToastImported →
  fst (importData now imported confirmed data) = data.
Proof.
  unfold importData. destruct imported as [c|]; [|reflexivity].
  destruct (negb (is_truthy (c_settings c)) || is_undefined (c_transactions c));
    [reflexivity|].
  destruct confirmed; [|reflexivity]. intros H. contradiction H. reflexivity.
Qed.

(** C7 as stated fails: a candidate whose [settings] is the number 5
    lacks a settings object, and is accepted. *)
Lemma C7_counterexample :
  let now := first_of_month 2024 2 in
  (∀ s, c_settings candidate_scalar_settings ≠ Shaped s)
  ∧ snd (importData now (Some candidate_scalar_settings) true scenarioB) = Some ToastImported
  ∧ fst (importData now (Some candidate_scalar_settings) true scenarioB) ≠ scenarioB.
Proof.
  intros now. split; [|split].
  - intros s. discriminate.
  - reflexivity.
  - intros H. apply (f_equal transactions) in H. discriminate H.
Qed.

(** C7, amended: import rejects any candidate whose [settings] is
    absent or falsy (null, false, 0, the empty string) or whose
    [transactions] field is absent, and no rejection (nor a parse failure
    or a cancelled confirmation) changes the prior state; on acceptance
    and confirmation every field of the state is replaced by the
    document's (by the default of a fresh state where the document has
    none), and the history is then pruned. *)
Theorem C7_import_validation :
  (∀ now imported confirmed data,
      is_truthy (c_settings imported) = false ∨ c_transactions imported = Undefined →
      importData now (Some imported) confirmed data = (data, Some ToastInvalidFile))
  ∧ (∀ now imported confirmed data,
      snd (importData now imported confirmed data) ≠ Some ToastImported →
      fst (importData now imported confirmed data) = data)
  ∧ (∀ now imported data,
      is_truthy (c_settings imported) = true →
      c_transactions imported ≠ Undefined →
      importData now (Some imported) true data
      = (pruneOldHistory now (assign_imported now imported), Some ToastImported))
  ∧ (∀ now v s k txs h,
      assign_imported now
        {| c_version := Some v; c_settings := Shaped s; c_currentMonth := Some k;
           c_transactions := Shaped txs; c_history := Object h |}
      = {| version := v; settings := s; currentMonth := k;
           transactions := txs; history := h |}).
Proof.
  split; [|split; [|split]].
  - intros now imported confirmed data [Hs|Ht]; apply importData_rejects.
    + rewrite Hs. reflexivity.
    + rewrite Ht. apply orb_true_r.
  - exact importData_unchanged.
  - intros now imported data Hs Ht. apply importData_accepts; [exact Hs|].
    destruct (c_transactions imported); try reflexivity. contradiction Ht. reflexivity.
  - reflexivity.
Qed.

(** A document without [settings] is rejected and scenario B stays. *)
Lemma C7_witness :
  let imported := {| c_version := Some 1; c_settings := Undefined;
                     c_currentMonth := Some "2024-03"%string;
                     c_transactions := Shaped []; c_history := Object ∅ |} in
  importData (first_of_month 2024 2) (Some imported) true scenarioB
  = (scenarioB, Some ToastInvalidFile).
Proof.
  intros imported.
  apply (proj1 C7_import_validation (first_of_month 2024 2) imported true scenarioB).
  left. reflexivity.
Defined.

(** C10: the import only asks that [transactions] be present: with a
    truthy [settings], a [transactions] field that is present and not an
    array is accepted, and the state then has the empty list; a history
    that is absent (or null) becomes the empty map. *)
Theorem C10_import_coerces_transactions now imported data :
  is_truthy (c_settings imported) = true →
  c_transactions imported ≠ Undefined →
  is_array (c_transactions imported) = false →
  let result := importData now (Some imported) true data in
  snd result = Some ToastImported
  ∧ transactions (fst result) = []
  ∧ (c_history imported = NoProperty ∨ c_history imported = NullProperty →
     history (fst result) = ∅).
Proof.
  intros Hs Hpresent Harr result. subst result.
  rewrite importData_accepts;
    [|exact Hs|destruct (c_transactions imported); try reflexivity; contradiction Hpresent; reflexivity].
  split; [reflexivity|]. split.
  - cbn. destruct (c_transactions imported); try reflexivity. discriminate Harr.
  - intros Hh. apply prune_empty. cbn. destruct Hh as [-> | ->]; reflexivity.
Qed.

(** The text "none" where the transactions should be. *)
Lemma C10_witness :
  transactions (fst (importData (first_of_month 2024 2)
                       (Some candidate_text_transactions) true scenarioB)) = [].
Proof.
  apply (C10_import_coerces_transactions (first_of_month 2024 2)
           candidate_text_transactions scenarioB).
  - reflexivity.
  - discriminate.
  - reflexivity.
Defined.

End ImportDocument.

(** ** C6: an edit that changes the month *)

Section StableSort.
Context {A K : Type} `{EqDecision K} (cmp : A → A → comparison) (key : A → K).

(** What the engine's comparator gives: a total preorder whose ties are
    the elements of one key. *)
Hypothesis cmp_asym : ∀ x y, cmp x y = Gt → cmp y x ≠ Gt.
Hypothesis cmp_trans : ∀ x y z, cmp x y ≠ Gt → cmp y z ≠ Gt → cmp x z ≠ Gt.
Hypothesis cmp_key : ∀ x y, cmp x y = Gt → key x ≠ key y.

Lemma insert_sorted_perm x l : JS.insert_sorted cmp x l ≡ₚ x :: l.
Proof.
  induction l as [|y l IH]; simpl; [reflexivity|].
  destruct (cmp x y); try reflexivity.
  rewrite IH. apply Permutation_swap.
Qed.

Lemma sort_perm l : JS.sort cmp l ≡ₚ l.
Proof.
  induction l as [|x l IH]; simpl; [reflexivity|].
  rewrite insert_sorted_perm, IH. reflexivity.
Qed.

Lemma insert_sorted_sorted x l :
  StronglySorted (λ a b, cmp a b ≠ Gt) l →
  StronglySorted (λ a b, cmp a b ≠ Gt) (JS.insert_sorted cmp x l).
Proof.
  induction 1 as [|y l Hl IH Hy]; simpl.
  - repeat constructor.
  - destruct (cmp x y) eqn:E.
    + constructor; [constructor; assumption|].
      constructor; [congruence|].
      eapply Forall_impl; [exact Hy|]. intros z Hz. cbv beta.
      apply (cmp_trans x y z); [congruence | exact Hz].
    + constructor; [constructor; assumption|].
      constructor; [congruence|].
      eapply Forall_impl; [exact Hy|]. intros z Hz. cbv beta.
      apply (cmp_trans x y z); [congruence | exact Hz].
    + constructor; [exact IH|].
      rewrite insert_sorted_perm. constructor; [|exact Hy].
      apply cmp_asym. exact E.
Qed.

Lemma sort_sorted l : StronglySorted (λ a b, cmp a b ≠ Gt) (JS.sort cmp l).
Proof.
  induction l as [|x l IH]; simpl; [constructor|].
  apply insert_sorted_sorted. exact IH.
Qed.

Lemma insert_sorted_stable k x l :
  filter (λ a, key a = k) (JS.insert_sorted cmp x l)
  = filter (λ a, key a = k) (x :: l).
Proof.
  induction l as [|y l IH]; simpl; [reflexivity|].
  destruct (cmp x y) eqn:E; try reflexivity.
  rewrite filter_cons, IH, !filter_cons.
  pose proof (cmp_key x y E) as Hne.
  destruct (decide (key y = k)), (decide (key x = k)); try reflexivity.
  congruence.
Qed.

(** Ties keep their relative order. *)
Lemma sort_stable k l :
  filter (λ a, key a = k) (JS.sort cmp l) = filter (λ a, key a = k) l.
Proof.
  induction l as [|x l IH]; simpl; [reflexivity|].
  rewrite insert_sorted_stable, !filter_cons, IH. reflexivity.
Qed.

Hypothesis cmp_tie : ∀ x y, cmp x y ≠ Gt → cmp y x ≠ Gt → key x = key y.

(** Two sorted lists with the same elements of each key, in the same
    order, are one list. *)
Lemma sorted_stable_unique l1 : ∀ l2,
  StronglySorted (λ a b, cmp a b ≠ Gt) l1 →
  StronglySorted (λ a b, cmp a b ≠ Gt) l2 →
  (∀ k, filter (λ a, key a = k) l1 = filter (λ a, key a = k) l2) →
  l1 = l2.
Proof.
  induction l1 as [|x l1 IH]; intros [|y l2] S1 S2 H.
  - reflexivity.
  - specialize (H (key y)). rewrite filter_cons in H.
    destruct (decide (key y = key y)); [discriminate H|contradiction].
  - specialize (H (key x)). rewrite filter_cons in H.
    destruct (decide (key x = key x)); [discriminate H|contradiction].
  - apply StronglySorted_inv in S1 as [S1 F1]. apply StronglySorted_inv in S2 as [S2 F2].
    assert (Hx : x ∈ y :: l2).
    { pose proof (H (key x)) as Hk. rewrite filter_cons in Hk.
      destruct (decide (key x = key x)); [|contradiction].
      assert (Hin : x ∈ filter (λ a, key a = key x) (y :: l2))
        by (rewrite <- Hk; apply list_elem_of_here).
      apply list_elem_of_filter in Hin as [_ Hin]. exact Hin. }
    assert (Hy : y ∈ x :: l1).
    { pose proof (H (key y)) as Hk. rewrite (filter_cons _ y) in Hk.
      destruct (decide (key y = key y)); [|contradiction].
      assert (Hin : y ∈ filter (λ a, key a = key y) (x :: l1))
        by (rewrite Hk; apply list_elem_of_here).
      apply list_elem_of_filter in Hin as [_ Hin]. exact Hin. }
    assert (Hkey : key x = key y).
    { apply elem_of_cons in Hx as [->|Hx]; [reflexivity|].
      apply elem_of_cons in Hy as [->|Hy]; [reflexivity|].
      rewrite Forall_forall in F1, F2.
      apply cmp_tie; [apply F1; exact Hy | apply F2; exact Hx]. }
    assert (Hhead : x = y).
    { pose proof (H (key x)) as Hk. rewrite !filter_cons in Hk.
      destruct (decide (key x = key x)); [|contradiction].
      destruct (decide (key y = key x)); [|congruence].
      congruence. }
    subst y. f_equal. apply IH; [exact S1 | exact S2 |].
    intros k. specialize (H k). rewrite !filter_cons in H.
    destruct (decide (key x = k)); congruence.
Qed.

(** So the list that is sorted and keeps the order of the ties is the
    result of [sort], whatever the algorithm. *)
Lemma sort_unique l l' :
  StronglySorted (λ a b, cmp a b ≠ Gt) l' →
  (∀ k, filter (λ a, key a = k) l' = filter (λ a, key a = k) l) →
  l' = JS.sort cmp l.
Proof.
  intros S H. apply sorted_stable_unique; [exact S | apply sort_sorted |].
  intros k. rewrite H, sort_stable. reflexivity.
Qed.

End StableSort.

Section DateOrder.

Lemma compare_refl s : String.compare s s = Eq.
Proof. apply OrderedTypeEx.String_as_OT.cmp_eq. reflexivity. Qed.

Lemma compare_le_trans a b c :
  String.compare a b ≠ Gt → String.compare b c ≠ Gt → String.compare a c ≠ Gt.
Proof.
  intros Hab Hbc.
  destruct (String.compare a b) eqn:Eab; [| |contradiction].
  - apply String.compare_eq_iff in Eab as ->. exact Hbc.
  - destruct (String.compare b c) eqn:Ebc; [| |contradiction].
    + apply String.compare_eq_iff in Ebc as <-. rewrite Eab. discriminate.
    + apply OrderedTypeEx.String_as_OT.cmp_lt in Eab, Ebc.
      pose proof (OrderedTypeEx.String_as_OT.lt_trans _ _ _ Eab Ebc) as Hac.
      apply OrderedTypeEx.String_as_OT.cmp_lt in Hac.
      unfold OrderedTypeEx.String_as_OT.cmp in Hac. rewrite Hac. discriminate.
Qed.

Lemma code_units_desc_asym x y : code_units_desc x y = Gt → code_units_desc y x ≠ Gt.
Proof.
  unfold code_units_desc. intros H.
  rewrite String.compare_antisym, H. discriminate.
Qed.

Lemma code_units_desc_trans x y z :
  code_units_desc x y ≠ Gt → code_units_desc y z ≠ Gt → code_units_desc x z ≠ Gt.
Proof.
  unfold code_units_desc. intros Hxy Hyz.
  rewrite String.compare_antisym in Hxy, Hyz |- *.
  assert (Hxy' : String.compare (Transaction.date x) (Transaction.date y) ≠ Lt)
    by (destruct (String.compare (Transaction.date x) (Transaction.date y));
        simpl in Hxy; congruence).
  assert (Hyz' : String.compare (Transaction.date y) (Transaction.date z) ≠ Lt)
    by (destruct (String.compare (Transaction.date y) (Transaction.date z));
        simpl in Hyz; congruence).
  destruct (String.compare (Transaction.date x) (Transaction.date z)) eqn:E;
    simpl; try discriminate.
  exfalso.
  (* x < z while x >= y >= z *)
  assert (Hzy : String.compare (Transaction.date z) (Transaction.date y) ≠ Gt).
  { rewrite String.compare_antisym.
    destruct (String.compare (Transaction.date y) (Transaction.date z)); simpl; congruence. }
  assert (Hyx : String.compare (Transaction.date y) (Transaction.date x) ≠ Gt).
  { rewrite String.compare_antisym.
    destruct (String.compare (Transaction.date x) (Transaction.date y)); simpl; congruence. }
  pose proof (compare_le_trans _ _ _ Hzy Hyx) as Hzx.
  rewrite String.compare_antisym, E in Hzx. simpl in Hzx. congruence.
Qed.

Lemma code_units_desc_key x y :
  code_units_desc x y = Gt → Transaction.date x ≠ Transaction.date y.
Proof.
  unfold code_units_desc. intros H E.
  rewrite E, compare_refl in H. discriminate H.
Qed.

Lemma code_units_desc_tie x y :
  code_units_desc x y ≠ Gt → code_units_desc y x ≠ Gt →
  Transaction.date x = Transaction.date y.
Proof.
  unfold code_units_desc. intros Hxy Hyx.
  apply String.leb_antisym; unfold String.leb.
  - destruct (String.compare (Transaction.date x) (Transaction.date y));
      [reflexivity | reflexivity | contradiction].
  - destruct (String.compare (Transaction.date y) (Transaction.date x));
      [reflexivity | reflexivity | contradiction].
Qed.

(** *** Dates of the shape YYYY-MM-DD *)

Lemma digit_value_bounds c : JS.is_digit c = true → 0 <= digit_value c <= 9.
Proof.
  destruct c as [[] [] [] [] [] [] [] []]; intros H; try discriminate H;
    vm_compute; split; discriminate.
Qed.

Lemma digit_compare c1 c2 :
  Ascii.compare c1 c2 = (digit_value c1 ?= digit_value c2).
Proof.
  unfold Ascii.compare, digit_value. rewrite <- N2Z.inj_compare.
  destruct (Z.compare_spec (Z.of_N (N_of_ascii c1)) (Z.of_N (N_of_ascii c2)));
    symmetry; [apply Z.compare_eq_iff | apply Z.compare_lt_iff | apply Z.compare_gt_iff]; lia.
Qed.

(** What an ISO date is made of. *)
Lemma iso_date_inv s :
  JS.iso_date s = true →
  ∃ y1 y2 y3 y4 m1 m2 d1 d2,
    s = String y1 (String y2 (String y3 (String y4 (String "-" (String m1 (String m2
          (String "-" (String d1 (String d2 EmptyString)))))))))
    ∧ Forall (λ c, JS.is_digit c = true) [y1; y2; y3; y4; m1; m2; d1; d2].
Proof.
  intros H. unfold JS.iso_date in H.
  repeat (match type of H with
          | context [match ?x with EmptyString => _ | String _ _ => _ end] =>
              destruct x; try discriminate H
          end).
  repeat (match type of H with
          | (_ && _) = true => apply andb_prop in H; destruct H as [H ?]
          end).
  repeat (match goal with
          | E : Ascii.eqb _ _ = true |- _ => apply Ascii.eqb_eq in E; subst
          end).
  eexists _, _, _, _, _, _, _, _. split; [reflexivity|].
  repeat constructor; assumption.
Qed.

Lemma date_number_iso y1 y2 y3 y4 m1 m2 d1 d2 :
  Forall (λ c, JS.is_digit c = true) [y1; y2; y3; y4; m1; m2; d1; d2] →
  date_number (String y1 (String y2 (String y3 (String y4 (String "-" (String m1 (String m2
                 (String "-" (String d1 (String d2 EmptyString))))))))))
  = ((((((digit_value y1 * 10 + digit_value y2) * 10 + digit_value y3) * 10
        + digit_value y4) * 10 + digit_value m1) * 10 + digit_value m2) * 10
     + digit_value d1) * 10 + digit_value d2.
Proof.
  intros H.
  repeat (match goal with
          | F : Forall _ (_ :: _) |- _ => apply Forall_cons in F; destruct F as [? F]
          end).
  unfold date_number. cbn [digits_number].
  repeat (match goal with E : JS.is_digit ?c = true |- _ => rewrite E; clear E end).
  change (JS.is_digit "-") with false. cbv iota. lia.
Qed.

(** On such dates the order of code units is the order of the days. *)
Lemma iso_compare s t :
  JS.iso_date s = true → JS.iso_date t = true →
  String.compare s t = (date_number s ?= date_number t).
Proof.
  intros Hs Ht.
  destruct (iso_date_inv s Hs) as (a1 & a2 & a3 & a4 & a5 & a6 & a7 & a8 & -> & Fa).
  destruct (iso_date_inv t Ht) as (b1 & b2 & b3 & b4 & b5 & b6 & b7 & b8 & -> & Fb).
  rewrite !date_number_iso by assumption.
  repeat (match goal with
          | F : Forall _ (_ :: _) |- _ => apply Forall_cons in F; destruct F as [? F]
          end).
  repeat (match goal with
          | E : JS.is_digit ?c = true |- _ => apply digit_value_bounds in E
          end).
  cbn [String.compare]. rewrite !digit_compare.
  change (digit_value "-" ?= digit_value "-") with Eq. cbv iota.
  repeat (match goal with
          | |- match (?x ?= ?y) with _ => _ end = _ =>
              destruct (Z.compare_spec x y);
              [ | symmetry; apply Z.compare_lt_iff; lia
                | symmetry; apply Z.compare_gt_iff; lia ]
          end).
  symmetry. apply Z.compare_eq_iff. lia.
Qed.

Lemma iso_dated_forall txs :
  iso_dated txs = true ↔ ∀ t, t ∈ txs → JS.iso_date (Transaction.date t) = true.
Proof.
  unfold iso_dated. rewrite forallb_forall.
  split; intros H t Ht; apply H; apply list_elem_of_In; exact Ht.
Qed.

Lemma compare_dates_iso a b :
  JS.iso_date (Transaction.date a) = true → JS.iso_date (Transaction.date b) = true →
  compare_dates a b = code_units_desc a b.
Proof.
  intros Ha Hb. unfold compare_dates, by_date_desc, JS.localeCompare, code_units_desc.
  rewrite Ha, Hb. reflexivity.
Qed.

(** On such dates the comparator lets [a] stand before [b] exactly when
    the day of [b] is not the later one. *)
Lemma code_units_desc_not_after a b :
  JS.iso_date (Transaction.date a) = true → JS.iso_date (Transaction.date b) = true →
  code_units_desc a b ≠ Gt ↔ not_after a b.
Proof.
  intros Ha Hb. unfold code_units_desc, not_after.
  rewrite (iso_compare _ _ Hb Ha). reflexivity.
Qed.

Lemma insert_sorted_ext {A} (cmp1 cmp2 : A → A → comparison) x l :
  (∀ y, y ∈ l → cmp1 x y = cmp2 x y) →
  JS.insert_sorted cmp1 x l = JS.insert_sorted cmp2 x l.
Proof.
  induction l as [|y l IH]; intros H; simpl; [reflexivity|].
  rewrite (H y) by apply list_elem_of_here.
  rewrite IH by (intros z Hz; apply H; apply list_elem_of_further; exact Hz).
  reflexivity.
Qed.

Lemma sort_ext {A} (cmp1 cmp2 : A → A → comparison) l :
  (∀ x y, x ∈ l → y ∈ l → cmp1 x y = cmp2 x y) →
  JS.sort cmp1 l = JS.sort cmp2 l.
Proof.
  induction l as [|x l IH]; intros H; simpl; [reflexivity|].
  rewrite IH
    by (intros a b Ha Hb; apply H; apply list_elem_of_further; assumption).
  apply insert_sorted_ext. intros y Hy. apply H; [apply list_elem_of_here|].
  apply list_elem_of_further.
  assert (Hp : JS.sort cmp2 l ≡ₚ l).
  { clear. induction l as [|x l IH]; simpl; [reflexivity|].
    etransitivity; [|apply Permutation_cons; [reflexivity | exact IH]].
    generalize (JS.sort cmp2 l). intros m.
    induction m as [|z m IHm]; simpl; [reflexivity|].
    destruct (cmp2 x z); try reflexivity.
    rewrite IHm. apply Permutation_swap. }
  rewrite <- Hp. exact Hy.
Qed.

Lemma StronglySorted_on {A} (R R' : A → A → Prop) l :
  (∀ a b, a ∈ l → b ∈ l → R a b → R' a b) →
  StronglySorted R l → StronglySorted R' l.
Proof.
  intros H S. induction S as [|x l S IH F]; constructor.
  - apply IH. intros a b Ha Hb. apply H; apply list_elem_of_further; assumption.
  - rewrite Forall_forall in F |- *. intros y Hy.
    apply H; [apply list_elem_of_here | apply list_elem_of_further; exact Hy | apply F; exact Hy].
Qed.

(** The list after [unshift] and [sort], when the model has it: the same
    transactions, those of one date in the order they had, and, on dates
    of the shape YYYY-MM-DD, the later day first; it is the one list
    with these properties. *)
Lemma unshift_sorted_spec tx txs l :
  unshift_sorted tx txs = Some l →
  l ≡ₚ tx :: txs
  ∧ (∀ d, of_date d l = of_date d (tx :: txs))
  ∧ (iso_dated (tx :: txs) = true →
     l = JS.sort code_units_desc (tx :: txs)
     ∧ StronglySorted not_after l
     ∧ ∀ l', StronglySorted not_after l' →
             (∀ d, of_date d l' = of_date d (tx :: txs)) → l' = l).
Proof.
  intros Hl.
  assert (Hiso : iso_dated (tx :: txs) = true →
                 l = JS.sort code_units_desc (tx :: txs)).
  { intros Hi. unfold unshift_sorted in Hl. destruct txs as [|t txs].
    - injection Hl as <-. reflexivity.
    - rewrite Hi in Hl. injection Hl as <-.
      apply (sort_ext compare_dates code_units_desc (tx :: t :: txs)). intros x y Hx Hy.
      apply compare_dates_iso; apply (proj1 (iso_dated_forall _) Hi); assumption. }
  assert (Hperm : l ≡ₚ tx :: txs).
  { unfold unshift_sorted in Hl. destruct txs as [|t txs].
    - injection Hl as <-. reflexivity.
    - destruct (iso_dated (tx :: t :: txs)); [|discriminate Hl].
      injection Hl as <-. apply (sort_perm compare_dates (tx :: t :: txs)). }
  assert (Hstable : ∀ d, of_date d l = of_date d (tx :: txs)).
  { intros d. unfold unshift_sorted in Hl. destruct txs as [|t txs].
    - injection Hl as <-. reflexivity.
    - destruct (iso_dated (tx :: t :: txs)) eqn:Hi; [|discriminate Hl].
      rewrite (Hiso eq_refl). unfold of_date.
      apply (sort_stable code_units_desc Transaction.date code_units_desc_key). }
  split; [exact Hperm|]. split; [exact Hstable|].
  intros Hi. pose proof (proj1 (iso_dated_forall _) Hi) as Hall.
  split; [exact (Hiso Hi)|].
  assert (Hsorted : StronglySorted not_after l).
  { rewrite (Hiso Hi).
    apply (StronglySorted_on (λ a b, code_units_desc a b ≠ Gt)).
    - intros a b Ha Hb. rewrite sort_perm in Ha, Hb.
      apply code_units_desc_not_after; apply Hall; assumption.
    - apply sort_sorted; [exact code_units_desc_asym | exact code_units_desc_trans]. }
  split; [exact Hsorted|].
  intros l' S' H'.
  assert (Hin : ∀ x, x ∈ l' → x ∈ tx :: txs).
  { intros x Hx.
    assert (Hf : x ∈ of_date (Transaction.date x) l').
    { unfold of_date. apply list_elem_of_filter. split; [reflexivity | exact Hx]. }
    rewrite H' in Hf. unfold of_date in Hf. apply list_elem_of_filter in Hf as [_ Hf].
    exact Hf. }
  rewrite (Hiso Hi).
  apply (sort_unique code_units_desc Transaction.date
           code_units_desc_asym code_units_desc_trans code_units_desc_key
           code_units_desc_tie).
  - apply (StronglySorted_on not_after); [|exact S'].
    intros a b Ha Hb. apply code_units_desc_not_after; apply Hall, Hin; assumption.
  - exact H'.
Qed.

(** The model has the list when it holds one transaction or dates of
    the shape YYYY-MM-DD only. *)
Lemma unshift_sorted_Some tx txs :
  txs = [] ∨ iso_dated (tx :: txs) = true → is_Some (unshift_sorted tx txs).
Proof.
  unfold unshift_sorted. intros [->|Hi]; [eexists; reflexivity|].
  destruct txs; [eexists; reflexivity|]. rewrite Hi. eexists; reflexivity.
Qed.

End DateOrder.

Section Edit.

Lemma find_tx_Some id txs t :
  find_tx id txs = Some t → Transaction.id t = id ∧ t ∈ txs.
Proof.
  unfold find_tx. induction txs as [|x txs IH]; simpl; [discriminate|].
  destruct (String.eqb (Transaction.id x) id) eqn:E.
  - intros [= <-]. apply String.eqb_eq in E. split; [exact E | apply list_elem_of_here].
  - intros H. destruct (IH H) as [Hid Hin]. split; [exact Hid|].
    apply list_elem_of_further. exact Hin.
Qed.


Lemma src_bucket_cases src :
  (truthy_key src = true ∧ ∃ k, src = Some k ∧ JS.truthy k = true
                               ∧ src_bucket src = Some k ∧ ∀ d, key_or src d = k)
  ∨ (truthy_key src = false ∧ src_bucket src = None ∧ ∀ d, key_or src d = d).
Proof.
  unfold src_bucket, truthy_key, key_or. destruct src as [k|].
  - destruct (JS.truthy k) eqn:Hk.
    + left. split; [reflexivity|]. exists k. repeat split; auto.
    + right. repeat split; auto.
  - right. repeat split; auto.
Qed.

(** The lists of the buckets after "Remove from source". *)
Lemma bucket_txs_remove_from_source src id data b :
  bucket_txs b (PriorMonths.remove_from_source src id data)
  = if decide (b = src_bucket src) then remove_tx id (bucket_txs b data)
    else bucket_txs b data.
Proof.
  unfold PriorMonths.remove_from_source.
  destruct (src_bucket_cases src) as [[Ht [k [-> [Hk [Hs Hkey]]]]] | [Ht [Hs Hkey]]];
    rewrite Ht, Hs.
  - rewrite Hkey. destruct b as [k'|]; cbn [bucket_txs history with_history transactions].
    + destruct (decide (Some k' = Some k)) as [[= ->]|Hne].
      * rewrite lookup_alter_eq. destruct (history data !! k); reflexivity.
      * rewrite lookup_alter_ne by congruence. reflexivity.
    + destruct (decide (None = Some k)); [discriminate|reflexivity].
  - destruct b as [k'|]; cbn [bucket_txs history with_transactions transactions].
    + destruct (decide (Some k' = None)); [discriminate|reflexivity].
    + destruct (decide (@None string = None)); [reflexivity|contradiction].
Qed.

(** The history after "Add to destination", key by key. *)
Lemma add_to_destination_Some dest u data data' :
  PriorMonths.add_to_destination dest u data = Some data' →
  PriorMonths.destination_throws dest data = false →
  ∃ sorted,
    unshift_sorted u (bucket_txs (dest_bucket dest data) data) = Some sorted
    ∧ transactions data'
      = (if String.eqb dest (currentMonth data) then sorted else transactions data)
    ∧ (∀ key, history data' !! key
              = if decide (dest_bucket dest data = Some key)
                then Some (MonthBucket.mk
                             (default 0%Q (MonthBucket.goal <$> history data !! key)) sorted)
                else history data !! key)
    ∧ currentMonth data' = currentMonth data
    ∧ settings data' = settings data
    ∧ version data' = version data.
Proof.
  unfold PriorMonths.add_to_destination, PriorMonths.destination_throws, dest_bucket.
  destruct (String.eqb dest (currentMonth data)) eqn:E; cbn [negb andb].
  - intros H _. cbn [bucket_txs].
    destruct (unshift_sorted u (transactions data)) as [sorted|]; [|discriminate H].
    injection H as <-. exists sorted. split; [reflexivity|].
    split; [reflexivity|]. split; [|repeat split].
    intros key. destruct (decide (None = Some key)); [discriminate | reflexivity].
  - intros H Hthrow. cbn [bucket_txs].
    unfold unshift_throws in Hthrow. unfold unshift_in_history, ensure_bucket in H.
    destruct (history data !! dest) as [b|] eqn:Eb.
    + rewrite Eb in H.
      destruct (unshift_sorted u (MonthBucket.transactions b)) as [sorted|];
        [|discriminate H].
      injection H as <-. exists sorted. split; [reflexivity|].
      split; [reflexivity|]. split; [|repeat split].
      intros key. cbn [history with_history].
      destruct (decide (Some dest = Some key)) as [[= <-]|Hne].
      * rewrite lookup_insert_eq, Eb. reflexivity.
      * rewrite lookup_insert_ne by congruence. reflexivity.
    + rewrite Hthrow in H. rewrite lookup_insert_eq in H. cbn in H.
      exists [u]. split; [reflexivity|]. injection H as <-.
      split; [reflexivity|]. split; [|repeat split].
      intros key. cbn [history with_history].
      destruct (decide (Some dest = Some key)) as [[= <-]|Hne].
      * rewrite lookup_insert_eq, Eb. reflexivity.
      * rewrite !lookup_insert_ne by congruence. reflexivity.
Qed.

(** The lists of the buckets after "Add to destination". *)
Lemma bucket_txs_add_to_destination dest u data data' b :
  PriorMonths.add_to_destination dest u data = Some data' →
  PriorMonths.destination_throws dest data = false →
  ∃ sorted,
    unshift_sorted u (bucket_txs (dest_bucket dest data) data) = Some sorted
    ∧ bucket_txs b data'
      = if decide (b = dest_bucket dest data) then sorted else bucket_txs b data.
Proof.
  intros H Hthrow.
  destruct (add_to_destination_Some dest u data data' H Hthrow)
    as (sorted & Hs & Htxs & Hh & _).
  exists sorted. split; [exact Hs|].
  unfold dest_bucket in *. destruct b as [key|]; cbn [bucket_txs].
  - rewrite Hh.
    destruct (String.eqb dest (currentMonth data)).
    + destruct (decide (None = Some key)); [discriminate|].
      destruct (decide (Some key = None)); [discriminate | reflexivity].
    + destruct (decide (Some dest = Some key)) as [[= <-]|Hne].
      * destruct (decide (Some dest = Some dest)); [reflexivity | contradiction].
      * destruct (decide (Some key = Some dest)) as [[= ->]|_]; [contradiction | reflexivity].
  - rewrite Htxs. destruct (String.eqb dest (currentMonth data)).
    + destruct (decide (@None string = None)); [reflexivity | contradiction].
    + destruct (decide (None = Some dest)); [discriminate | reflexivity].
Qed.

(** The model has the state after "Add to destination" when the list
    it sorts is one transaction long or holds dates of the shape
    YYYY-MM-DD only. *)
Lemma add_to_destination_is_Some dest u data :
  PriorMonths.destination_throws dest data = false →
  bucket_txs (dest_bucket dest data) data = []
  ∨ iso_dated (u :: bucket_txs (dest_bucket dest data) data) = true →
  is_Some (PriorMonths.add_to_destination dest u data).
Proof.
  unfold PriorMonths.add_to_destination, PriorMonths.destination_throws, dest_bucket.
  destruct (String.eqb dest (currentMonth data)); cbn [negb andb bucket_txs].
  - intros _ H. destruct (unshift_sorted_Some u _ H) as [l ->]. eexists; reflexivity.
  - intros Hthrow H. unfold unshift_throws in Hthrow.
    unfold unshift_in_history, ensure_bucket.
    destruct (history data !! dest) as [b|] eqn:Eb.
    + rewrite Eb. destruct (unshift_sorted_Some u _ H) as [l ->]. eexists; reflexivity.
    + rewrite Hthrow, lookup_insert_eq. cbn. eexists; reflexivity.
Qed.

Lemma ids_update_found id u txs :
  Transaction.id u = id → ids (update_found id (λ _, u) txs) = ids txs.
Proof.
  intros Hu. unfold ids. induction txs as [|t txs IH]; simpl; [reflexivity|].
  destruct (String.eqb (Transaction.id t) id) eqn:E; simpl.
  - apply String.eqb_eq in E. f_equal. congruence.
  - f_equal. exact IH.
Qed.

(** The ids of the buckets after "update in place". *)
Lemma ids_assign_in_source src id u data b :
  Transaction.id u = id →
  ids (bucket_txs b (PriorMonths.assign_in_source src id u data)) = ids (bucket_txs b data).
Proof.
  intros Hu. unfold PriorMonths.assign_in_source.
  destruct (src_bucket_cases src) as [[Ht [k [-> [Hk [Hs Hkey]]]]] | [Ht [Hs Hkey]]];
    rewrite Ht.
  - rewrite Hkey. destruct b as [k'|]; cbn [bucket_txs history with_history transactions];
      [|reflexivity].
    destruct (decide (k' = k)) as [->|Hne].
    + rewrite lookup_alter_eq. destruct (history data !! k); [|reflexivity].
      cbn. apply ids_update_found. exact Hu.
    + rewrite lookup_alter_ne by congruence. reflexivity.
  - destruct b as [k'|]; cbn [bucket_txs history with_transactions transactions];
      [reflexivity|].
    apply ids_update_found. exact Hu.
Qed.

Lemma slice0_truthy n s : JS.truthy s = true → JS.truthy (JS.slice0 (S n) s) = true.
Proof. destruct s; [discriminate|reflexivity]. Qed.

(** The source that the edit searches is the list of [src_bucket]. *)
Lemma edit_source src id data :
  (if truthy_key src
   then find_tx id (match bucket_at src (history data) with
                    | Some bucket => MonthBucket.transactions bucket
                    | None => []
                    end)
   else find_tx id (transactions data))
  = find_tx id (bucket_txs (src_bucket src) data).
Proof.
  unfold bucket_at.
  destruct (src_bucket_cases src) as [[Ht [k [-> [Hk [Hs Hkey]]]]] | [Ht [Hs Hkey]]];
    rewrite Ht, Hs; [|reflexivity].
  rewrite Hkey. reflexivity.
Qed.

(** Source and destination of a move are two buckets. *)
Lemma src_dest_differ src dest data :
  dest ≠ key_or src (currentMonth data) →
  src_bucket src ≠ dest_bucket dest data.
Proof.
  intros Hne. unfold dest_bucket.
  destruct (src_bucket_cases src) as [[Ht [k [-> [Hk [Hs Hkey]]]]] | [Ht [Hs Hkey]]];
    rewrite Hs; rewrite Hkey in Hne.
  - destruct (String.eqb dest (currentMonth data)); [discriminate|congruence].
  - apply String.eqb_neq in Hne. rewrite Hne. discriminate.
Qed.

Lemma positive_not_refused raw : (0 < raw)%Q → JS.refused (JS.Finite raw) = false.
Proof.
  intros Hpos. cbn. apply not_true_is_false. intros H%Qle_bool_iff.
  exact (Qlt_not_le _ _ Hpos H).
Qed.

Lemma or_else_empty s : JS.or_else s "" = s.
Proof. destruct s; reflexivity. Qed.

(** The object literal [updatedTx], field by field. *)
Lemma updatedTx_of_fields srcTx form raw :
  JS.truthy (editDate form) = true →
  updatedTx_of srcTx (editDate form) (edit_amount form raw) (edit_description form)
  = Transaction.mk (Transaction.id srcTx) (editDate form) (Transaction.time srcTx)
      (if editIsIncome form then JS.toFixed2 raw else - JS.toFixed2 raw)%Q
      (JS.or_else (JS.trim (editDescription form))
                  (if editIsIncome form then "Income" else "Expense")).
Proof.
  intros Hdate. unfold updatedTx_of, edit_amount, edit_description.
  rewrite or_else_empty. unfold JS.or_else at 1. rewrite Hdate. reflexivity.
Qed.

(** The moving branch of the edit. *)
Lemma saveEditTx_moving form src data id raw srcTx :
  editingTxId form = Some id → JS.truthy id = true →
  editAmount form = JS.Finite raw → (0 < raw)%Q →
  find_tx id (bucket_txs (src_bucket src) data) = Some srcTx →
  JS.truthy (editDate form) = true →
  JS.slice0 7 (editDate form) ≠ key_or src (currentMonth data) →
  PriorMonths.destination_throws (JS.slice0 7 (editDate form))
    (PriorMonths.remove_from_source src id data) = false →
  PriorMonths.saveEditTx form src data
  = match PriorMonths.add_to_destination (JS.slice0 7 (editDate form))
            (updatedTx_of srcTx (editDate form) (edit_amount form raw)
                          (edit_description form))
            (PriorMonths.remove_from_source src id data) with
    | Some data' => Some (data', Some (ToastMoved (JS.slice0 7 (editDate form))))
    | None => None
    end.
Proof.
  intros Hid Htid Hraw Hpos Hfind Hdate Hmove Hthrow.
  unfold PriorMonths.saveEditTx. rewrite Hid. cbn [falsy_id default]. rewrite Htid.
  cbn [negb]. unfold Datatypes.id. rewrite Hraw.
  rewrite (positive_not_refused raw Hpos). cbv zeta. rewrite edit_source, Hfind, Hdate.
  apply String.eqb_neq in Hmove. rewrite Hmove. cbn [negb JS.finite].
  rewrite Hthrow. reflexivity.
Qed.

(** The same branch when "Add to destination" throws: the source has
    lost the transaction and nothing else is done. *)
Lemma saveEditTx_thrown form src data id srcTx :
  editingTxId form = Some id → JS.truthy id = true →
  JS.refused (editAmount form) = false →
  find_tx id (bucket_txs (src_bucket src) data) = Some srcTx →
  JS.truthy (editDate form) = true →
  JS.slice0 7 (editDate form) ≠ key_or src (currentMonth data) →
  PriorMonths.destination_throws (JS.slice0 7 (editDate form))
    (PriorMonths.remove_from_source src id data) = true →
  PriorMonths.saveEditTx form src data
  = Some (PriorMonths.remove_from_source src id data, None).
Proof.
  intros Hid Htid Hraw Hfind Hdate Hmove Hthrow.
  unfold PriorMonths.saveEditTx. rewrite Hid. cbn [falsy_id default]. rewrite Htid.
  cbn [negb]. unfold Datatypes.id. rewrite Hraw.
  cbv zeta. rewrite edit_source, Hfind, Hdate.
  apply String.eqb_neq in Hmove. rewrite Hmove. cbn [negb].
  rewrite Hthrow. reflexivity.
Qed.

Lemma remove_from_source_fields src id data :
  currentMonth (PriorMonths.remove_from_source src id data) = currentMonth data
  ∧ settings (PriorMonths.remove_from_source src id data) = settings data
  ∧ ∀ key, history (PriorMonths.remove_from_source src id data) !! key
           = if decide (src_bucket src = Some key)
             then map_bucket (remove_tx id) <$> history data !! key
             else history data !! key.
Proof.
  unfold PriorMonths.remove_from_source.
  destruct (src_bucket_cases src) as [[Ht [k [-> [Hk [Hs Hkey]]]]] | [Ht [Hs Hkey]]];
    rewrite Ht, Hs.
  - split; [reflexivity|]. split; [reflexivity|].
    intros key. rewrite Hkey. cbn [history with_history].
    destruct (decide (Some k = Some key)) as [[= ->]|Hne].
    + apply lookup_alter_eq.
    + apply lookup_alter_ne. congruence.
  - split; [reflexivity|]. split; [reflexivity|].
    intros key. destruct (decide (None = Some key)); [discriminate|reflexivity].
Qed.

(** Where the key is no name of [Object.prototype], or has a bucket, or
    is the current month, "Add to destination" does not throw. *)
Lemma destination_throws_false src id dest data :
  JS.inherited dest = false →
  PriorMonths.destination_throws dest (PriorMonths.remove_from_source src id data) = false.
Proof.
  intros Hown. unfold PriorMonths.destination_throws, unshift_throws.
  destruct (negb _); [|reflexivity]. cbn [andb].
  destruct (history _ !! dest); [reflexivity | exact Hown].
Qed.

End Edit.

Section EditAcrossMonths.

Lemma update_found_ext id f g txs t :
  find_tx id txs = Some t → f t = g t →
  update_found id f txs = update_found id g txs.
Proof.
  unfold find_tx. induction txs as [|x txs IH]; simpl; [discriminate|].
  destruct (String.eqb (Transaction.id x) id).
  - intros [= <-] E. rewrite E. reflexivity.
  - intros H E. rewrite (IH H E). reflexivity.
Qed.

Lemma unshift_throws_ensure key (h : gmap string MonthBucket.t) :
  unshift_throws key (ensure_bucket key h) = unshift_throws key h.
Proof.
  unfold unshift_throws, ensure_bucket.
  destruct (h !! key) as [b|] eqn:E; [rewrite E; reflexivity|].
  destruct (JS.inherited key) eqn:Ei; [rewrite E; reflexivity|].
  rewrite lookup_insert_eq. reflexivity.
Qed.

(** The script that edits the current month only is the other script
    with [editingTxMonth = null]. *)
Lemma YearToDate_saveEditTx form data :
  YearToDate.saveEditTx form data = PriorMonths.saveEditTx form None data.
Proof.
  unfold YearToDate.saveEditTx, PriorMonths.saveEditTx.
  destruct (falsy_id (editingTxId form)); [reflexivity|].
  cbv zeta.
  destruct (JS.refused (editAmount form)); [reflexivity|].
  cbn [truthy_key key_or].
  destruct (find_tx (default ""%string (editingTxId form)) (transactions data))
    as [tx|] eqn:Hfind; [|reflexivity].
  assert (Hsame : ∀ raw,
    update_found (default ""%string (editingTxId form))
      (λ tx0, Transaction.mk (Transaction.id tx0)
                (if JS.truthy (editDate form) then editDate form else Transaction.date tx0)
                (Transaction.time tx0) (edit_amount form raw) (edit_description form))
      (transactions data)
    = update_found (default ""%string (editingTxId form))
        (λ _, updatedTx_of tx (editDate form) (edit_amount form raw) (edit_description form))
        (transactions data)).
  { intros raw. apply (update_found_ext _ _ _ _ tx Hfind).
    unfold updatedTx_of. rewrite or_else_empty. reflexivity. }
  destruct (JS.truthy (editDate form)) eqn:Hdate.
  - destruct (String.eqb (JS.slice0 7 (editDate form)) (currentMonth data)) eqn:E;
      cbn [negb].
    + destruct (JS.finite (editAmount form)) as [raw|]; [|reflexivity].
      unfold PriorMonths.assign_in_source. cbn [truthy_key].
      rewrite Hsame. reflexivity.
    + unfold PriorMonths.destination_throws, PriorMonths.add_to_destination,
        PriorMonths.remove_from_source.
      cbn [truthy_key currentMonth with_transactions history]. rewrite E. cbn [negb andb].
      rewrite unshift_throws_ensure.
      destruct (unshift_throws (JS.slice0 7 (editDate form)) (history data));
        [reflexivity|].
      destruct (JS.finite (editAmount form)) as [raw|]; [|reflexivity].
      unfold updatedTx_of, JS.or_else at 2. rewrite Hdate.
      destruct (unshift_in_history _ _ _); reflexivity.
  - rewrite String.eqb_refl. cbn [negb].
    destruct (JS.finite (editAmount form)) as [raw|]; [|reflexivity].
    unfold PriorMonths.assign_in_source. cbn [truthy_key].
    rewrite Hsame. reflexivity.
Qed.

(** C6: an edit that changes the month of a transaction (destination
    bucket other than the source bucket, under a month key, which is no
    name of [Object.prototype]) removes it from the source bucket and
    keeps the others there, makes the destination history bucket with
    goal 0 when the key had none (an existing goal stays, no goal is
    recomputed), puts the updated transaction in, and leaves the
    destination list sorted by date descending, the later day first,
    transactions of one date keeping their order (the result is the one
    list that does); no other bucket changes.  The script that edits the
    current month only is the same edit with the current month as source.
    Under a name of [Object.prototype] no bucket is made and the call
    throws after the removal. *)
Theorem C6_edit_across_months :
  (∀ form src data id raw srcTx,
      editingTxId form = Some id → JS.truthy id = true →
      editAmount form = JS.Finite raw → (0 < raw)%Q →
      find_tx id (bucket_txs (src_bucket src) data) = Some srcTx →
      JS.truthy (editDate form) = true →
      let dest := JS.slice0 7 (editDate form) in
      dest ≠ key_or src (currentMonth data) →
      JS.inherited dest = false →
      let updatedTx :=
        Transaction.mk (Transaction.id srcTx) (editDate form) (Transaction.time srcTx)
          (if editIsIncome form then JS.toFixed2 raw else - JS.toFixed2 raw)%Q
          (JS.or_else (JS.trim (editDescription form))
                      (if editIsIncome form then "Income" else "Expense")) in
      let before := bucket_txs (dest_bucket dest data) data in
      before = [] ∨ iso_dated (updatedTx :: before) = true →
      ∃ data',
        PriorMonths.saveEditTx form src data = Some (data', Some (ToastMoved dest))
        ∧ src_bucket src ≠ dest_bucket dest data
        ∧ bucket_txs (src_bucket src) data'
          = filter (λ t, Transaction.id t ≠ id) (bucket_txs (src_bucket src) data)
        ∧ ¬ holds data' (src_bucket src) id
        ∧ holds data' (dest_bucket dest data) id
        ∧ bucket_txs (dest_bucket dest data) data' ≡ₚ updatedTx :: before
        ∧ (∀ d, of_date d (bucket_txs (dest_bucket dest data) data')
                = of_date d (updatedTx :: before))
        ∧ (iso_dated (updatedTx :: before) = true →
           StronglySorted not_after (bucket_txs (dest_bucket dest data) data')
           ∧ ∀ l, StronglySorted not_after l →
                  (∀ d, of_date d l = of_date d (updatedTx :: before)) →
                  l = bucket_txs (dest_bucket dest data) data')
        ∧ (∀ b, b ≠ src_bucket src → b ≠ dest_bucket dest data →
                bucket_txs b data' = bucket_txs b data)
        ∧ (dest ≠ currentMonth data → history data !! dest = None →
           history data' !! dest = Some (MonthBucket.mk 0 [updatedTx]))
        ∧ (∀ key, is_Some (history data !! key) → goal_at key data' = goal_at key data)
        ∧ (∀ key, is_Some (history data' !! key) ↔
                  is_Some (history data !! key) ∨ dest_bucket dest data = Some key)
        ∧ currentMonth data' = currentMonth data
        ∧ settings data' = settings data)
  ∧ (∀ form data, YearToDate.saveEditTx form data = PriorMonths.saveEditTx form None data)
  ∧ (∀ form src data id srcTx,
      editingTxId form = Some id → JS.truthy id = true →
      JS.refused (editAmount form) = false →
      find_tx id (bucket_txs (src_bucket src) data) = Some srcTx →
      JS.truthy (editDate form) = true →
      let dest := JS.slice0 7 (editDate form) in
      dest ≠ key_or src (currentMonth data) →
      dest ≠ currentMonth data →
      history data !! dest = None →
      JS.inherited dest = true →
      ∃ data',
        PriorMonths.saveEditTx form src data = Some (data', None)
        ∧ bucket_txs (src_bucket src) data'
          = filter (λ t, Transaction.id t ≠ id) (bucket_txs (src_bucket src) data)
        ∧ (∀ b, b ≠ src_bucket src → bucket_txs b data' = bucket_txs b data)
        ∧ history data' !! dest = None).
Proof.
  split; [|split; [exact YearToDate_saveEditTx|]].
  - intros form src data id raw srcTx Hid Htid Hraw Hpos Hfind Hdate dest Hmove Hown
           updatedTx before Hsortable.
    set (removed := PriorMonths.remove_from_source src id data).
    assert (Hdiff : src_bucket src ≠ dest_bucket dest data)
      by (apply src_dest_differ; exact Hmove).
    destruct (remove_from_source_fields src id data) as (Hcur & Hset & Hsrc).
    fold removed in Hcur, Hset, Hsrc.
    assert (Hdest : dest_bucket dest removed = dest_bucket dest data)
      by (unfold dest_bucket; rewrite Hcur; reflexivity).
    assert (Hthrow : PriorMonths.destination_throws dest removed = false)
      by (apply destination_throws_false; exact Hown).
    assert (Hu : updatedTx_of srcTx (editDate form) (edit_amount form raw)
                              (edit_description form) = updatedTx)
      by (apply updatedTx_of_fields; exact Hdate).
    assert (Hbefore : bucket_txs (dest_bucket dest removed) removed = before).
    { rewrite Hdest. unfold removed. rewrite bucket_txs_remove_from_source.
      destruct (decide (dest_bucket dest data = src_bucket src)); [congruence|reflexivity]. }
    pose proof (saveEditTx_moving form src data id raw srcTx
                  Hid Htid Hraw Hpos Hfind Hdate Hmove Hthrow) as Hres.
    fold removed in Hres. fold dest in Hres. rewrite Hu in Hres.
    destruct (add_to_destination_is_Some dest updatedTx removed Hthrow) as [data' Hadd].
    { rewrite Hbefore. exact Hsortable. }
    rewrite Hadd in Hres.
    destruct (add_to_destination_Some dest updatedTx removed data' Hadd Hthrow)
      as (sorted & Hsorted & Htxs' & Hh & Hcur' & Hset' & _).
    rewrite Hbefore in Hsorted. rewrite Hdest in Hh.
    assert (Hbuckets : ∀ b, bucket_txs b data'
                            = if decide (b = dest_bucket dest data) then sorted
                              else if decide (b = src_bucket src)
                                   then remove_tx id (bucket_txs b data)
                                   else bucket_txs b data).
    { intros b.
      destruct (bucket_txs_add_to_destination dest updatedTx removed data' b Hadd Hthrow)
        as (sorted' & Hs' & Hb).
      rewrite Hbefore, Hsorted in Hs'. injection Hs' as <-.
      rewrite Hb, Hdest. destruct (decide (b = dest_bucket dest data)); [reflexivity|].
      unfold removed. apply bucket_txs_remove_from_source. }
    assert (Hafter : bucket_txs (dest_bucket dest data) data' = sorted).
    { rewrite Hbuckets.
      destruct (decide (dest_bucket dest data = dest_bucket dest data));
        [reflexivity | contradiction]. }
    assert (Hsource : bucket_txs (src_bucket src) data'
                      = remove_tx id (bucket_txs (src_bucket src) data)).
    { rewrite Hbuckets.
      destruct (decide (src_bucket src = dest_bucket dest data)); [contradiction|].
      destruct (decide (src_bucket src = src_bucket src)); [reflexivity|contradiction]. }
    destruct (unshift_sorted_spec updatedTx before sorted Hsorted)
      as (Hperm & Hstable & Hiso).
    exists data'. split; [exact Hres|]. split; [exact Hdiff|].
    split; [rewrite Hsource; apply remove_tx_filter|].
    split; [unfold holds; rewrite Hsource, ids_remove_tx; tauto|].
    split.
    { unfold holds. rewrite Hafter. unfold ids. rewrite Hperm, fmap_cons.
      apply elem_of_cons. left.
      destruct (find_tx_Some _ _ _ Hfind) as [Hsid _]. symmetry. exact Hsid. }
    rewrite Hafter.
    split; [exact Hperm|]. split; [exact Hstable|].
    split; [intros Hi; destruct (Hiso Hi) as (_ & S & U); split; assumption|].
    split.
    { intros b Hb1 Hb2. rewrite Hbuckets.
      destruct (decide (b = dest_bucket dest data)); [contradiction|].
      destruct (decide (b = src_bucket src)); [contradiction|reflexivity]. }
    split.
    { intros Hnc Hnone. rewrite Hh. unfold dest_bucket.
      apply String.eqb_neq in Hnc. rewrite Hnc.
      destruct (decide (Some dest = Some dest)); [|contradiction].
      rewrite Hsrc.
      destruct (decide (src_bucket src = Some dest)); rewrite Hnone; cbn.
      - destruct Hsortable as [Hb|Hi].
        + revert Hsorted. rewrite Hb. cbn. intros [= <-]. reflexivity.
        + exfalso. apply Hdiff. unfold dest_bucket. rewrite Hnc. assumption.
      - assert (Hb : before = []).
        { unfold before, dest_bucket. rewrite Hnc. unfold bucket_txs.
          rewrite Hnone. reflexivity. }
        revert Hsorted. rewrite Hb. cbn. intros [= <-]. reflexivity. }
    split.
    { intros key [b Hb]. unfold goal_at. rewrite Hh, Hsrc.
      destruct (decide (dest_bucket dest data = Some key));
        destruct (decide (src_bucket src = Some key)); rewrite Hb; reflexivity. }
    split.
    { intros key. rewrite Hh, Hsrc.
      destruct (decide (dest_bucket dest data = Some key)) as [Hd|Hd].
      - split; [intros _; right; exact Hd | intros _; eexists; reflexivity].
      - destruct (decide (src_bucket src = Some key)).
        + rewrite fmap_is_Some. split; [auto | intros [H|H]; [exact H | contradiction]].
        + split; [auto | intros [H|H]; [exact H | contradiction]]. }
    split; [rewrite Hcur'; exact Hcur | rewrite Hset'; exact Hset].
  - intros form src data id srcTx Hid Htid Hraw Hfind Hdate dest Hmove Hnc Hnone Hinh.
    set (removed := PriorMonths.remove_from_source src id data).
    destruct (remove_from_source_fields src id data) as (Hcur & Hset & Hsrc).
    fold removed in Hcur, Hset, Hsrc.
    assert (Hlookup : history removed !! dest = None).
    { rewrite Hsrc. destruct (decide (src_bucket src = Some dest)); rewrite Hnone; reflexivity. }
    assert (Hthrow : PriorMonths.destination_throws dest removed = true).
    { unfold PriorMonths.destination_throws, unshift_throws. rewrite Hcur, Hlookup, Hinh.
      apply String.eqb_neq in Hnc. rewrite Hnc. reflexivity. }
    exists removed. split.
    { apply (saveEditTx_thrown form src data id srcTx); assumption. }
    split.
    { unfold removed. rewrite bucket_txs_remove_from_source.
      destruct (decide (src_bucket src = src_bucket src)); [|contradiction].
      apply remove_tx_filter. }
    split; [|exact Hlookup].
    intros b Hb. unfold removed. rewrite bucket_txs_remove_from_source.
    destruct (decide (b = src_bucket src)); [contradiction | reflexivity].
Qed.

End EditAcrossMonths.

(** The March archive after the first April transaction is dated March
    11th: the moved transaction stands after the one of the 20th and
    before the one that already had its date; the other April
    transaction stays where it was. *)
Lemma edit_to_March :
  ∀ data',
    PriorMonths.saveEditTx editToMarch None aprilLedger
    = Some (data', Some (ToastMoved "2024-03")) →
    bucket_txs (Some "2024-03"%string) data'
    = [Transaction.mk "lt9aa01bb2c3" "2024-03-20" "12:00" (-(40)) "Lunch";
       Transaction.mk "lu7mm20nn3p4" "2024-03-11" "10:20" (-(2599 # 20)) "Boots";
       Transaction.mk "lt8zz99yy8x7" "2024-03-11" "08:15" (-(75)) "Fuel";
       Transaction.mk "lt7kk55jj4h3" "2024-03-02" "19:40" (2000) "Salary"]
    ∧ transactions data'
      = [Transaction.mk "lu6qq11rr2s3" "2024-04-01" "09:00" (-(30)) "Bread"].
Proof.
  intros data' H. vm_compute in H. injection H as <-. split; vm_compute; reflexivity.
Qed.

(** C6 at the April ledger, the first of its two transactions dated to
    March 11th, into an archive of three. *)
Lemma C6_witness :
  ∃ data',
    PriorMonths.saveEditTx editToMarch None aprilLedger
    = Some (data', Some (ToastMoved "2024-03"))
    ∧ bucket_txs None data'
      = [Transaction.mk "lu6qq11rr2s3" "2024-04-01" "09:00" (-(30)) "Bread"]
    ∧ StronglySorted not_after (bucket_txs (Some "2024-03"%string) data')
    ∧ bucket_txs (Some "2024-03"%string) data'
      = [Transaction.mk "lt9aa01bb2c3" "2024-03-20" "12:00" (-(40)) "Lunch";
         Transaction.mk "lu7mm20nn3p4" "2024-03-11" "10:20" (-(2599 # 20)) "Boots";
         Transaction.mk "lt8zz99yy8x7" "2024-03-11" "08:15" (-(75)) "Fuel";
         Transaction.mk "lt7kk55jj4h3" "2024-03-02" "19:40" (2000) "Salary"].
Proof.
  destruct (proj1 C6_edit_across_months editToMarch None aprilLedger
              "lu7mm20nn3p4"%string (2599 # 20)%Q
              (Transaction.mk "lu7mm20nn3p4" "2024-04-03" "10:20" (-(120)) "Shoes")
              eq_refl eq_refl eq_refl eq_refl eq_refl eq_refl
              ltac:(discriminate) eq_refl ltac:(right; reflexivity))
    as (data' & Hres & _ & Hsource & _ & _ & _ & _ & Hsorted & _).
  exists data'. split; [exact Hres|].
  split; [exact (eq_trans Hsource eq_refl)|].
  split; [exact (proj1 (Hsorted eq_refl))|].
  exact (proj1 (edit_to_March data' Hres)).
Defined.

(** ** C4: each id in at most one bucket *)

Section Invariant.

Lemma unique_buckets_mono data data' :
  (∀ b x, holds data' b x → holds data b x) →
  unique_buckets data → unique_buckets data'.
Proof.
  intros Hsub Hu x b1 b2 H1 H2. apply (Hu x); apply Hsub; assumption.
Qed.

Lemma holds_history_None data key x : history data !! key = None → ¬ holds data (Some key) x.
Proof.
  intros E. unfold holds, bucket_txs. rewrite E. apply not_elem_of_nil.
Qed.

Lemma unique_emptyData now : unique_buckets (emptyData now).
Proof.
  intros x b1 b2 H1 _. exfalso. unfold holds in H1.
  destruct b1 as [k|]; cbn in H1.
  - rewrite lookup_empty in H1. exact (not_elem_of_nil _ H1).
  - exact (not_elem_of_nil _ H1).
Qed.

Lemma unique_addTransaction now newId raw descriptionInput isIncomeMode data data' toast :
  addTransaction now newId raw descriptionInput isIncomeMode data = Some (data', toast) →
  (∀ key, ¬ holds data (Some key) newId) →
  unique_buckets data →
  unique_buckets data'.
Proof.
  intros Hres Hfresh Hu. unfold addTransaction in Hres.
  destruct (JS.refused raw); [injection Hres as <- _; exact Hu|].
  destruct (JS.finite raw) as [r|]; [|discriminate Hres].
  cbv zeta in Hres. injection Hres as <- _.
  set (tx := Transaction.mk newId _ _ _ _).
  assert (Hcur : ∀ x, holds (with_transactions (tx :: transactions data) data) None x
                      → x = newId ∨ holds data None x).
  { intros x H. unfold holds in H. cbn in H. apply elem_of_cons in H. exact H. }
  assert (Hold : ∀ k x, holds (with_transactions (tx :: transactions data) data) (Some k) x
                        → holds data (Some k) x)
    by (intros k x H; exact H).
  intros x [k1|] [k2|] H1 H2.
  - apply (Hu x); apply Hold; assumption.
  - apply Hold in H1. apply Hcur in H2 as [->|H2].
    + exfalso. exact (Hfresh k1 H1).
    + apply (Hu x); assumption.
  - apply Hold in H2. apply Hcur in H1 as [->|H1].
    + exfalso. exact (Hfresh k2 H2).
    + apply (Hu x); assumption.
  - reflexivity.
Qed.

Lemma unique_deleteTransaction id monthKey data :
  unique_buckets data → unique_buckets (PriorMonths.deleteTransaction id monthKey data).
Proof.
  destruct (PriorMonths.inherited_key monthKey (history data)) eqn:Hin.
  { rewrite (deleteTransaction_thrown id monthKey data Hin). auto. }
  apply unique_buckets_mono. intros b x.
  destruct (bucket_at monthKey (history data)) as [bk|] eqn:E.
  - apply bucket_at_Some in E as [k [-> [Hk Hb]]].
    rewrite (deleteTransaction_bucket id k bk data Hk Hb).
    unfold holds. destruct b as [k'|]; cbn [bucket_txs history with_history transactions];
      [|auto].
    destruct (decide (k' = k)) as [->|Hne].
    + rewrite lookup_insert_eq, Hb. cbn. rewrite ids_remove_tx. tauto.
    + rewrite lookup_insert_ne by congruence. auto.
  - rewrite (deleteTransaction_current id monthKey data E Hin).
    unfold holds. destruct b as [k'|]; cbn [bucket_txs history with_transactions transactions];
      [auto|].
    rewrite ids_remove_tx. tauto.
Qed.

Lemma holds_pruneOldHistory now data b x :
  holds (pruneOldHistory now data) b x → holds data b x.
Proof.
  unfold holds. destruct b as [k|]; [|auto].
  unfold bucket_txs. rewrite pruneOldHistory_lookup.
  destruct (year_before k (getFullYear now - 1)); [|auto].
  intros H. exfalso. exact (not_elem_of_nil _ H).
Qed.

Lemma unique_checkMonthlyReset goalOf now data :
  unique_buckets data → unique_buckets (checkMonthlyReset_with goalOf now data).
Proof.
  intros Hu.
  destruct (String.eqb (currentMonth data) (CURRENT_MONTH_KEY now)) eqn:E.
  { apply String.eqb_eq in E. rewrite checkMonthlyReset_current by exact E. exact Hu. }
  apply String.eqb_neq in E.
  destruct (checkMonthlyReset_rolls goalOf now data E) as [_ [Htxs Hhist]].
  set (data' := checkMonthlyReset_with goalOf now data) in *.
  assert (Hcur : ∀ x, ¬ holds data' None x).
  { intros x. unfold holds. cbn [bucket_txs]. rewrite Htxs. apply not_elem_of_nil. }
  assert (Hold : ∀ k x, holds data' (Some k) x →
                        (k = currentMonth data ∧ holds data None x)
                        ∨ (k ≠ currentMonth data ∧ holds data (Some k) x)
                        ∨ (JS.truthy (currentMonth data) = false ∧ holds data (Some k) x)).
  { intros k x. unfold holds at 1. cbn [bucket_txs]. rewrite Hhist.
    destruct (year_before k (getFullYear now - 1)).
    { intros H. exfalso. exact (not_elem_of_nil _ H). }
    destruct (JS.truthy (currentMonth data)) eqn:Ht; cbn [andb].
    - destruct (String.eqb k (currentMonth data)) eqn:Ek.
      + apply String.eqb_eq in Ek. intros H. left. split; [exact Ek | exact H].
      + apply String.eqb_neq in Ek. intros H. right. left. split; [exact Ek | exact H].
    - intros H. right. right. split; [reflexivity | exact H]. }
  intros x [k1|] [k2|] H1 H2; try (exfalso; eapply Hcur; eassumption).
  apply Hold in H1, H2.
  destruct H1 as [[-> H1]|[[Hn1 H1]|[Hf1 H1]]], H2 as [[-> H2]|[[Hn2 H2]|[Hf2 H2]]];
    try reflexivity;
    try (apply (Hu x); assumption);
    try (pose proof (Hu x _ _ H1 H2); discriminate);
    try (pose proof (Hu x _ _ H2 H1); discriminate).
Qed.

Lemma ids_unshift_sorted u txs l x :
  unshift_sorted u txs = Some l →
  x ∈ ids l ↔ x = Transaction.id u ∨ x ∈ ids txs.
Proof.
  intros Hl. unfold ids. destruct (unshift_sorted_spec u txs l Hl) as [Hperm _].
  rewrite Hperm. rewrite fmap_cons. apply elem_of_cons.
Qed.

Lemma holds_remove_from_source src id data b x :
  holds (PriorMonths.remove_from_source src id data) b x → holds data b x.
Proof.
  unfold holds. rewrite bucket_txs_remove_from_source.
  destruct (decide (b = src_bucket src)); [|auto].
  rewrite ids_remove_tx. tauto.
Qed.

(** The ids of the buckets after a move. *)
Lemma ids_moved src dest id u data data' b x :
  PriorMonths.add_to_destination dest u (PriorMonths.remove_from_source src id data)
  = Some data' →
  PriorMonths.destination_throws dest (PriorMonths.remove_from_source src id data) = false →
  src_bucket src ≠ dest_bucket dest data →
  holds data' b x ↔
  if decide (b = dest_bucket dest data)
  then x = Transaction.id u ∨ holds data b x
  else if decide (b = src_bucket src)
       then holds data b x ∧ x ≠ id
       else holds data b x.
Proof.
  intros Hadd Hthrow Hdiff.
  assert (Hdest : dest_bucket dest (PriorMonths.remove_from_source src id data)
                  = dest_bucket dest data).
  { unfold dest_bucket, PriorMonths.remove_from_source.
    destruct (truthy_key src); reflexivity. }
  destruct (bucket_txs_add_to_destination dest u _ data' b Hadd Hthrow)
    as (sorted & Hsorted & Hb).
  unfold holds. rewrite Hb, Hdest. rewrite Hdest in Hsorted.
  rewrite bucket_txs_remove_from_source in Hsorted.
  destruct (decide (dest_bucket dest data = src_bucket src)) as [E|_]; [congruence|].
  destruct (decide (b = dest_bucket dest data)) as [->|Hnd].
  - apply (ids_unshift_sorted _ _ _ _ Hsorted).
  - rewrite bucket_txs_remove_from_source.
    destruct (decide (b = src_bucket src)); [|reflexivity].
    apply ids_remove_tx.
Qed.

(** After a move the id is in the destination bucket and in no other,
    when it was in the source bucket and in no other. *)
Lemma holds_moved src dest id u data data' :
  PriorMonths.add_to_destination dest u (PriorMonths.remove_from_source src id data)
  = Some data' →
  PriorMonths.destination_throws dest (PriorMonths.remove_from_source src id data) = false →
  Transaction.id u = id →
  src_bucket src ≠ dest_bucket dest data →
  holds data (src_bucket src) id →
  unique_buckets data →
  (∀ b, holds data' b id ↔ b = dest_bucket dest data)
  ∧ (∀ b x, x ≠ id → holds data' b x ↔ holds data b x).
Proof.
  intros Hadd Hthrow Hu Hdiff Hsrc Huniq. split.
  - intros b. rewrite (ids_moved src dest id u data data' b id Hadd Hthrow Hdiff).
    destruct (decide (b = dest_bucket dest data)) as [->|Hnd].
    + split; [reflexivity | intros _; left; congruence].
    + destruct (decide (b = src_bucket src)) as [->|Hns].
      * split; [tauto | contradiction].
      * split; [|contradiction]. intros H. exfalso. apply Hns.
        exact (Huniq id _ _ H Hsrc).
  - intros b x Hx. rewrite (ids_moved src dest id u data data' b x Hadd Hthrow Hdiff).
    destruct (decide (b = dest_bucket dest data)) as [->|Hnd].
    + split; [intros [?|?]; [congruence|assumption] | auto].
    + destruct (decide (b = src_bucket src)) as [->|Hns]; [|reflexivity]. tauto.
Qed.

Lemma unique_moved src dest id u data data' :
  PriorMonths.add_to_destination dest u (PriorMonths.remove_from_source src id data)
  = Some data' →
  PriorMonths.destination_throws dest (PriorMonths.remove_from_source src id data) = false →
  Transaction.id u = id →
  src_bucket src ≠ dest_bucket dest data →
  holds data (src_bucket src) id →
  unique_buckets data →
  unique_buckets data'.
Proof.
  intros Hadd Hthrow Hu Hdiff Hsrc Huniq.
  destruct (holds_moved src dest id u data data' Hadd Hthrow Hu Hdiff Hsrc Huniq)
    as [Hid Hother].
  intros x b1 b2 H1 H2.
  destruct (decide (x = id)) as [->|Hne].
  - apply Hid in H1, H2. congruence.
  - apply (Hother _ _ Hne) in H1, H2. exact (Huniq x _ _ H1 H2).
Qed.

Lemma holds_find_tx id b data srcTx :
  find_tx id (bucket_txs b data) = Some srcTx → holds data b id.
Proof.
  intros H. unfold holds. destruct (find_tx_Some _ _ _ H) as [<- Hin].
  unfold ids. apply list_elem_of_fmap_2. exact Hin.
Qed.

(** What an edit does to the state: nothing, the removal alone where
    the destination throws, a move, or an update in place. *)
Lemma saveEditTx_cases form src data data' toast :
  PriorMonths.saveEditTx form src data = Some (data', toast) →
  data' = data
  ∨ (∃ id dest,
        PriorMonths.destination_throws dest (PriorMonths.remove_from_source src id data)
        = true
        ∧ toast = None
        ∧ data' = PriorMonths.remove_from_source src id data)
  ∨ (∃ id srcTx u dest,
        find_tx id (bucket_txs (src_bucket src) data) = Some srcTx
        ∧ Transaction.id u = id
        ∧ dest ≠ key_or src (currentMonth data)
        ∧ PriorMonths.destination_throws dest (PriorMonths.remove_from_source src id data)
          = false
        ∧ toast = Some (ToastMoved dest)
        ∧ PriorMonths.add_to_destination dest u
            (PriorMonths.remove_from_source src id data) = Some data')
  ∨ (∃ id srcTx u,
        find_tx id (bucket_txs (src_bucket src) data) = Some srcTx
        ∧ Transaction.id u = id
        ∧ toast = Some ToastUpdated
        ∧ data' = PriorMonths.assign_in_source src id u data).
Proof.
  unfold PriorMonths.saveEditTx.
  destruct (falsy_id (editingTxId form)); [intros [= <- _]; left; reflexivity|].
  cbv zeta.
  destruct (JS.refused (editAmount form)); [intros [= <- _]; left; reflexivity|].
  rewrite edit_source.
  set (id := default ""%string (editingTxId form)).
  destruct (find_tx id (bucket_txs (src_bucket src) data)) as [srcTx|] eqn:Hfind;
    [|intros [= <- _]; left; reflexivity].
  destruct (find_tx_Some _ _ _ Hfind) as [Hid _].
  match goal with |- context [negb (String.eqb ?d ?k)] =>
    set (dest := d); destruct (String.eqb dest k) eqn:E; cbn [negb] end.
  - destruct (JS.finite (editAmount form)) as [raw|]; [|discriminate].
    intros [= <- <-]. right. right. right.
    exists id, srcTx,
      (updatedTx_of srcTx (editDate form) (edit_amount form raw) (edit_description form)).
    split; [exact Hfind|]. split; [exact Hid|]. split; reflexivity.
  - destruct (PriorMonths.destination_throws dest
                (PriorMonths.remove_from_source src id data)) eqn:Hthrow.
    + intros [= <- <-]. right. left. exists id, dest.
      split; [exact Hthrow|]. split; reflexivity.
    + destruct (JS.finite (editAmount form)) as [raw|]; [|discriminate].
      destruct (PriorMonths.add_to_destination dest _ _) as [d|] eqn:Hadd; [|discriminate].
      intros [= <- <-]. right. right. left.
      exists id, srcTx,
        (updatedTx_of srcTx (editDate form) (edit_amount form raw) (edit_description form)),
        dest.
      split; [exact Hfind|]. split; [exact Hid|].
      split; [apply String.eqb_neq; exact E|].
      split; [exact Hthrow|]. split; [reflexivity | exact Hadd].
Qed.

Lemma unique_saveEditTx form src data data' toast :
  PriorMonths.saveEditTx form src data = Some (data', toast) →
  unique_buckets data → unique_buckets data'.
Proof.
  intros Hres Hu.
  destruct (saveEditTx_cases form src data data' toast Hres)
    as [-> | [(id & dest & _ & _ & ->)
            | [(id & srcTx & u & dest & Hfind & Hid & Hne & Hthrow & _ & Hadd)
            | (id & srcTx & u & Hfind & Hid & _ & ->)]]].
  - exact Hu.
  - apply (unique_buckets_mono data); [|exact Hu].
    intros b x. apply holds_remove_from_source.
  - apply (unique_moved src dest id u data data' Hadd Hthrow Hid);
      [apply src_dest_differ; exact Hne | | exact Hu].
    exact (holds_find_tx _ _ _ _ Hfind).
  - intros x b1 b2 H1 H2. unfold holds in H1, H2.
    rewrite ids_assign_in_source in H1, H2 by exact Hid.
    exact (Hu x _ _ H1 H2).
Qed.

Lemma unique_importData now imported confirmed data :
  (∀ c, imported = Some c → candidate_unique c) →
  unique_buckets data →
  unique_buckets (fst (importData now imported confirmed data)).
Proof.
  intros Hc Hu. unfold importData.
  destruct imported as [c|]; [|exact Hu].
  destruct (negb (is_truthy (c_settings c)) || is_undefined (c_transactions c)); [exact Hu|].
  destruct confirmed; [|exact Hu]. cbn [fst].
  apply (unique_buckets_mono (assign_imported now c)).
  - apply holds_pruneOldHistory.
  - apply (Hc c eq_refl).
Qed.

End Invariant.

(** C4 as stated fails: the import takes a document that has one id
    in the current month and in the archive of February. *)
Lemma C4_counterexample :
  let now := first_of_month 2024 2 in
  let data := fst (importData now (Some candidate_twice) true (emptyData now)) in
  reachable any_candidate unused_id data
  ∧ holds data None "lt9x0k2ab3f7"
  ∧ holds data (Some "2024-02"%string) "lt9x0k2ab3f7"
  ∧ ¬ unique_buckets data.
Proof.
  intros now data.
  assert (H1 : holds data None "lt9x0k2ab3f7").
  { unfold holds. vm_compute. apply list_elem_of_here. }
  assert (H2 : holds data (Some "2024-02"%string) "lt9x0k2ab3f7").
  { unfold holds. vm_compute. apply list_elem_of_here. }
  split; [|split; [exact H1|split; [exact H2|]]].
  - apply (reachable_step _ _ (emptyData now)); [apply reachable_empty|].
    apply step_import. intros c _. exact I.
  - intros Hu. pose proof (Hu _ _ _ H1 H2) as E. discriminate E.
Qed.

(** C4, amended: in every state reachable from the empty state via
    additions under an id that no archived month holds, edits, deletions,
    rollovers, and accepted imports of documents in which each id appears
    in at most one bucket (additions and edits that store a finite amount
    and sort lists of YYYY-MM-DD dates only), each transaction id appears
    in at most one bucket across the current-month list and all history
    buckets; a cross-bucket edit whose destination month key is no name
    of [Object.prototype], to a date YYYY-MM-DD into a bucket of such
    dates, is one transition, before which the id is in the source bucket
    only and after which it is in the destination bucket only. *)
Theorem C4_unique_buckets_invariant :
  (∀ data, reachable candidate_unique unused_id data → unique_buckets data)
  ∧ (∀ form src data id raw srcTx,
        reachable candidate_unique unused_id data →
        editingTxId form = Some id → JS.truthy id = true →
        editAmount form = JS.Finite raw → (0 < raw)%Q →
        find_tx id (bucket_txs (src_bucket src) data) = Some srcTx →
        JS.iso_date (editDate form) = true →
        let dest := JS.slice0 7 (editDate form) in
        dest ≠ key_or src (currentMonth data) →
        JS.inherited dest = false →
        iso_dated (bucket_txs (dest_bucket dest data) data) = true →
        ∃ data',
          PriorMonths.saveEditTx form src data = Some (data', Some (ToastMoved dest))
          ∧ (∀ b, holds data b id ↔ b = src_bucket src)
          ∧ (∀ b, holds data' b id ↔ b = dest_bucket dest data)
          ∧ src_bucket src ≠ dest_bucket dest data
          ∧ unique_buckets data').
Proof.
  assert (Inv : ∀ data, reachable candidate_unique unused_id data → unique_buckets data).
  { induction 1 as [now | data data' Hreach IH Hstep].
    - apply unique_emptyData.
    - destruct Hstep as [now newId raw descr inc data' toast Hfresh Hres
                        | form src data' toast Hres | id monthKey
                        | now | now imported confirmed Hacc].
      + exact (unique_addTransaction _ _ _ _ _ _ _ _ Hres Hfresh IH).
      + exact (unique_saveEditTx _ _ _ _ _ Hres IH).
      + apply unique_deleteTransaction. exact IH.
      + apply unique_checkMonthlyReset. exact IH.
      + apply unique_importData; assumption. }
  split; [exact Inv|].
  intros form src data id raw srcTx Hreach Hid Htid Hraw Hpos Hfind Hiso dest Hmove Hown
         Hbefore.
  pose proof (Inv data Hreach) as Hu.
  pose proof (holds_find_tx _ _ _ _ Hfind) as Hsrc.
  pose proof (src_dest_differ src dest data Hmove) as Hdiff.
  destruct (find_tx_Some _ _ _ Hfind) as [Hsid _].
  assert (Hdate : JS.truthy (editDate form) = true).
  { destruct (editDate form); [discriminate Hiso | reflexivity]. }
  set (removed := PriorMonths.remove_from_source src id data).
  set (u := updatedTx_of srcTx (editDate form) (edit_amount form raw)
              (edit_description form)).
  assert (Hthrow : PriorMonths.destination_throws dest removed = false)
    by (apply destination_throws_false; exact Hown).
  assert (Hdest : dest_bucket dest removed = dest_bucket dest data).
  { unfold dest_bucket, removed, PriorMonths.remove_from_source.
    destruct (truthy_key src); reflexivity. }
  assert (Hudate : Transaction.date u = editDate form).
  { unfold u, updatedTx_of, JS.or_else at 1. rewrite Hdate. reflexivity. }
  destruct (add_to_destination_is_Some dest u removed Hthrow) as [data' Hadd].
  { right. rewrite Hdest. unfold removed. rewrite bucket_txs_remove_from_source.
    destruct (decide (dest_bucket dest data = src_bucket src)); [congruence|].
    cbn [iso_dated forallb]. fold (iso_dated (bucket_txs (dest_bucket dest data) data)).
    rewrite Hudate, Hiso, Hbefore. reflexivity. }
  pose proof (saveEditTx_moving form src data id raw srcTx
                Hid Htid Hraw Hpos Hfind Hdate Hmove Hthrow) as Hres.
  fold removed in Hres. fold dest in Hres. fold u in Hres. rewrite Hadd in Hres.
  assert (Huid : Transaction.id u = id) by exact Hsid.
  exists data'. split; [exact Hres|].
  split; [|split; [|split]].
  - intros b. split; [intros H; exact (Hu id _ _ H Hsrc) | intros ->; exact Hsrc].
  - exact (proj1 (holds_moved src dest id u data data' Hadd Hthrow Huid Hdiff Hsrc Hu)).
  - exact Hdiff.
  - exact (unique_moved src dest id u data data' Hadd Hthrow Huid Hdiff Hsrc Hu).
Qed.

(** The ledger after two expenses are added to a fresh one in March
    2024, and the first of them is then dated to February: before the
    edit its id is in the current month only, after it in the archive of
    February only. *)
Lemma C4_witness :
  let now := first_of_month 2024 2 in
  ∃ added twice moved,
    addTransaction now "lt9x0k2ab3f7" (JS.Finite 500) "Groceries" false (emptyData now)
    = Some (added, Some ToastAdded)
    ∧ addTransaction now "lt9x0m7cd4g8" (JS.Finite (9 # 2)) "Coffee" false added
      = Some (twice, Some ToastAdded)
    ∧ PriorMonths.saveEditTx editToFebruary None twice
      = Some (moved, Some (ToastMoved "2024-02"))
    ∧ unique_buckets twice
    ∧ unique_buckets moved
    ∧ (∀ b, holds twice b "lt9x0k2ab3f7" ↔ b = None)
    ∧ (∀ b, holds moved b "lt9x0k2ab3f7" ↔ b = Some "2024-02"%string)
    ∧ transactions moved
      = [Transaction.mk "lt9x0m7cd4g8" "2024-03-01" "00:00" (-(9 # 2)) "Coffee"].
Proof.
  intros now.
  set (added := with_transactions
                  [Transaction.mk "lt9x0k2ab3f7" "2024-03-01" "00:00" (-(500)) "Groceries"]
                  (emptyData now)).
  set (twice := with_transactions
                  [Transaction.mk "lt9x0m7cd4g8" "2024-03-01" "00:00" (-(9 # 2)) "Coffee";
                   Transaction.mk "lt9x0k2ab3f7" "2024-03-01" "00:00" (-(500)) "Groceries"]
                  (emptyData now)).
  assert (Hadded : addTransaction now "lt9x0k2ab3f7" (JS.Finite 500) "Groceries" false
                     (emptyData now) = Some (added, Some ToastAdded)) by reflexivity.
  assert (Htwice : addTransaction now "lt9x0m7cd4g8" (JS.Finite (9 # 2)) "Coffee" false
                     added = Some (twice, Some ToastAdded)) by reflexivity.
  assert (Hreach : reachable candidate_unique unused_id twice).
  { apply (reachable_step _ _ added).
    - apply (reachable_step _ _ (emptyData now)); [apply reachable_empty|].
      apply (step_add _ _ _ now "lt9x0k2ab3f7"%string (JS.Finite 500) "Groceries"%string
               false added (Some ToastAdded)); [|exact Hadded].
      intros key. apply holds_history_None. apply lookup_empty.
    - apply (step_add _ _ _ now "lt9x0m7cd4g8"%string (JS.Finite (9 # 2)) "Coffee"%string
               false twice (Some ToastAdded)); [|exact Htwice].
      intros key. apply holds_history_None. apply lookup_empty. }
  destruct (proj2 C4_unique_buckets_invariant editToFebruary None twice
              "lt9x0k2ab3f7"%string 500%Q
              (Transaction.mk "lt9x0k2ab3f7" "2024-03-01" "00:00" (-(500)) "Groceries")
              Hreach eq_refl eq_refl eq_refl eq_refl eq_refl eq_refl
              ltac:(discriminate) eq_refl eq_refl)
    as (moved & Hres & Hbefore & Hafter & _ & Hunique).
  exists added, twice, moved.
  split; [exact Hadded|]. split; [exact Htwice|]. split; [exact Hres|].
  split; [exact (proj1 C4_unique_buckets_invariant twice Hreach)|].
  split; [exact Hunique|]. split; [exact Hbefore|]. split; [exact Hafter|].
  vm_compute in Hres. injection Hres as <-. reflexivity.
Defined.

From Stdlib Require Import Lqa.

(** ** Escaping *)

Section Escaping.

Lemma replace_all_app c by_text a b :
  replace_all c by_text (a +:+ b) = replace_all c by_text a +:+ replace_all c by_text b.
Proof.
  induction a as [|x a IH]; [reflexivity|].
  change (String x a +:+ b) with (String x (a +:+ b)). simpl.
  rewrite IH. destruct (Ascii.eqb x c); [|reflexivity].
  symmetry. apply app_assoc_string.
Qed.

Lemma string_app_cons c (a b : string) : String c a +:+ b = String c (a +:+ b).
Proof. reflexivity. Qed.

Lemma string_app_empty (b : string) : EmptyString +:+ b = b.
Proof. reflexivity. Qed.

Lemma escapeHtml_app a b : escapeHtml (a +:+ b) = escapeHtml a +:+ escapeHtml b.
Proof. unfold escapeHtml. rewrite !replace_all_app. reflexivity. Qed.

Lemma escapeHtml_char c : escapeHtml (String c EmptyString) = entity_of c.
Proof. destruct c as [[] [] [] [] [] [] [] []]; reflexivity. Qed.

(** The five replacements in a row are one pass over the characters:
    no replacement touches the text that an earlier one has put in. *)
Lemma escapeHtml_each s : escapeHtml s = escape_each s.
Proof.
  induction s as [|c s IH]; [reflexivity|].
  change (String c s) with (String c EmptyString +:+ s).
  rewrite escapeHtml_app, escapeHtml_char, IH. reflexivity.
Qed.

Lemma has_char_app c a b : has_char c (a +:+ b) = has_char c a || has_char c b.
Proof.
  induction a as [|x a IH]; [reflexivity|].
  rewrite string_app_cons. simpl. rewrite IH. apply orb_assoc.
Qed.

Lemma entity_of_markup_free c :
  has_char "<" (entity_of c) = false ∧ has_char ">" (entity_of c) = false
  ∧ has_char "034" (entity_of c) = false ∧ has_char "'" (entity_of c) = false.
Proof. destruct c as [[] [] [] [] [] [] [] []]; repeat split; reflexivity. Qed.

(** X1: the escaped text has no angle bracket and no quote, whatever
    the text was; a text without the five characters is left as it is. *)
Theorem escapeHtml_markup_free s :
  (has_char "<" (escapeHtml s) = false ∧ has_char ">" (escapeHtml s) = false
   ∧ has_char "034" (escapeHtml s) = false ∧ has_char "'" (escapeHtml s) = false)
  ∧ (has_char "&" s = false → has_char "<" s = false → has_char ">" s = false →
     has_char "034" s = false → has_char "'" s = false → escapeHtml s = s).
Proof.
  rewrite escapeHtml_each. split.
  - induction s as [|c s (H1 & H2 & H3 & H4)]; [repeat split; reflexivity|].
    simpl. rewrite !has_char_app, H1, H2, H3, H4.
    destruct (entity_of_markup_free c) as (-> & -> & -> & ->). repeat split; reflexivity.
  - induction s as [|c s IH]; [reflexivity|].
    simpl. intros [Ha Hs1]%orb_false_elim [Hl Hs2]%orb_false_elim
                  [Hg Hs3]%orb_false_elim [Hq Hs4]%orb_false_elim
                  [Hp Hs5]%orb_false_elim.
    rewrite (IH Hs1 Hs2 Hs3 Hs4 Hs5). unfold entity_of.
    rewrite Ha, Hl, Hg, Hq, Hp. reflexivity.
Qed.

(** The escaped description of scenario B's transaction. *)
Lemma escapeHtml_markup_free_witness : escapeHtml "Groceries" = "Groceries"%string.
Proof.
  apply (proj2 (escapeHtml_markup_free "Groceries")); reflexivity.
Defined.

Lemma entity_of_cases c :
  (c = "&"%char ∧ entity_of c = "&amp;"%string)
  ∨ (c = "<"%char ∧ entity_of c = "&lt;"%string)
  ∨ (c = ">"%char ∧ entity_of c = "&gt;"%string)
  ∨ (c = "034"%char ∧ entity_of c = "&quot;"%string)
  ∨ (c = "'"%char ∧ entity_of c = "&#39;"%string)
  ∨ (c ≠ "&"%char ∧ entity_of c = String c EmptyString).
Proof.
  destruct c as [[] [] [] [] [] [] [] []];
    first [ left; split; reflexivity
          | right; left; split; reflexivity
          | right; right; left; split; reflexivity
          | right; right; right; left; split; reflexivity
          | right; right; right; right; left; split; reflexivity
          | right; right; right; right; right; split; [discriminate | reflexivity] ].
Qed.

(** X2: escaping loses nothing: two texts with the same escaped text
    are the same text. *)
Theorem escapeHtml_inj s : ∀ t, escapeHtml s = escapeHtml t → s = t.
Proof.
  setoid_rewrite escapeHtml_each.
  induction s as [|a s IH]; intros [|b t] H; simpl in H.
  - reflexivity.
  - exfalso.
    destruct (entity_of_cases b) as [[_ E]|[[_ E]|[[_ E]|[[_ E]|[[_ E]|[_ E]]]]]];
      rewrite E in H; discriminate H.
  - exfalso.
    destruct (entity_of_cases a) as [[_ E]|[[_ E]|[[_ E]|[[_ E]|[[_ E]|[_ E]]]]]];
      rewrite E in H; discriminate H.
  - destruct (entity_of_cases a) as [[Ha Ea]|[[Ha Ea]|[[Ha Ea]|[[Ha Ea]|[[Ha Ea]|[Ha Ea]]]]]],
             (entity_of_cases b) as [[Hb Eb]|[[Hb Eb]|[[Hb Eb]|[[Hb Eb]|[[Hb Eb]|[Hb Eb]]]]]];
      rewrite Ea, Eb in H; rewrite ?string_app_cons, ?string_app_empty in H;
      try (exfalso; congruence);
      try (subst a b; f_equal; apply IH; congruence).
    f_equal; [congruence | apply IH; congruence].
Qed.

(** Injectivity at a description with markup. *)
Lemma escapeHtml_inj_witness : "<b>Tea</b>"%string = "<b>Tea</b>"%string.
Proof. apply (escapeHtml_inj "<b>Tea</b>" "<b>Tea</b>"). reflexivity. Defined.

End Escaping.

(** ** The order of the month keys and the history tab *)

Section KeyOrder.

Lemma compare_lt_trans a b c :
  String.compare a b = Lt → String.compare b c = Lt → String.compare a c = Lt.
Proof.
  intros Hab Hbc.
  apply OrderedTypeEx.String_as_OT.cmp_lt in Hab, Hbc.
  apply OrderedTypeEx.String_as_OT.cmp_lt.
  exact (OrderedTypeEx.String_as_OT.lt_trans _ _ _ Hab Hbc).
Qed.

(** A text function that grows at each step of a range grows along the
    range. *)
Lemma compare_chain (g : Z → string) lo hi :
  (∀ i, lo <= i < hi → String.compare (g i) (g (i + 1)) = Lt) →
  ∀ a b, lo <= a <= hi → lo <= b <= hi →
         String.compare (g a) (g b) = (a ?= b).
Proof.
  intros Hstep.
  assert (Up : ∀ n a, lo <= a → a + Z.of_nat n + 1 <= hi →
                      String.compare (g a) (g (a + Z.of_nat n + 1)) = Lt).
  { induction n as [|n IH]; intros a Ha Hb.
    - replace (a + Z.of_nat 0 + 1) with (a + 1) by lia. apply Hstep. lia.
    - apply (compare_lt_trans _ (g (a + Z.of_nat n + 1))).
      + apply IH; lia.
      + replace (a + Z.of_nat (S n) + 1) with (a + Z.of_nat n + 1 + 1) by lia.
        apply Hstep. lia. }
  assert (Lt_case : ∀ a b, lo <= a → a < b → b <= hi →
                           String.compare (g a) (g b) = Lt).
  { intros a b Ha Hab Hb.
    replace b with (a + Z.of_nat (Z.to_nat (b - a - 1)) + 1) by lia.
    apply Up; lia. }
  intros a b Ha Hb. destruct (Z.compare_spec a b) as [->|Hlt|Hgt].
  - apply compare_refl.
  - apply Lt_case; lia.
  - rewrite String.compare_antisym, (Lt_case b a); [reflexivity|lia..].
Qed.

Lemma toString_year_order a b :
  1000 <= a <= 9999 → 1000 <= b <= 9999 →
  String.compare (JS.toString a) (JS.toString b) = (a ?= b).
Proof.
  apply (compare_chain JS.toString 1000 9999).
  intros i Hi.
  assert (H : forallb (λ n, match String.compare (JS.toString (1000 + Z.of_nat n))
                                                 (JS.toString (1000 + Z.of_nat n + 1)) with
                            | Lt => true | _ => false end)
                      (seq 0 (Z.to_nat 8999)) = true) by (vm_compute; reflexivity).
  rewrite forallb_forall in H.
  specialize (H (Z.to_nat (i - 1000))).
  replace (1000 + Z.of_nat (Z.to_nat (i - 1000))) with i in H by lia.
  destruct (String.compare (JS.toString i) (JS.toString (i + 1)));
    try reflexivity; exfalso;
    (assert (Hin : In (Z.to_nat (i - 1000)) (seq 0 (Z.to_nat 8999))) by (apply in_seq; lia));
    specialize (H Hin); discriminate H.
Qed.

Lemma padded_month_order a b :
  0 <= a <= 11 → 0 <= b <= 11 →
  String.compare (JS.padStart2 (JS.toString (a + 1))) (JS.padStart2 (JS.toString (b + 1)))
  = (a ?= b).
Proof.
  apply (compare_chain (λ m, JS.padStart2 (JS.toString (m + 1))) 0 11).
  intros i Hi.
  assert (Hcases : i = 0 ∨ i = 1 ∨ i = 2 ∨ i = 3 ∨ i = 4 ∨ i = 5 ∨ i = 6 ∨ i = 7
                   ∨ i = 8 ∨ i = 9 ∨ i = 10) by lia.
  repeat (destruct Hcases as [->|Hcases]; [reflexivity|]). subst i. reflexivity.
Qed.

Lemma compare_app_same_length a : ∀ b r1 r2,
  String.length a = String.length b →
  String.compare (a +:+ r1) (b +:+ r2)
  = match String.compare a b with
    | Eq => String.compare r1 r2
    | c => c
    end.
Proof.
  induction a as [|x a IH]; intros [|y b] r1 r2 Hlen; simpl in Hlen; try discriminate Hlen.
  - reflexivity.
  - rewrite !string_app_cons. simpl.
    destruct (Ascii.compare x y); try reflexivity.
    apply IH. congruence.
Qed.

(** X3: with the month padded to two digits, the month keys of two dates
    (four-digit years) stand in the order of the code units as the months
    stand in time. *)
Theorem month_keys_chronological d1 d2 :
  valid_date d1 → valid_date d2 →
  String.compare (CURRENT_MONTH_KEY d1) (CURRENT_MONTH_KEY d2)
  = match getFullYear d1 ?= getFullYear d2 with
    | Eq => getMonth d1 ?= getMonth d2
    | c => c
    end.
Proof.
  intros [Hm1 Hy1] [Hm2 Hy2]. unfold CURRENT_MONTH_KEY.
  rewrite compare_app_same_length by (rewrite !toString_length4 by lia; reflexivity).
  rewrite toString_year_order by lia.
  destruct (getFullYear d1 ?= getFullYear d2); try reflexivity.
  rewrite (compare_app_same_length "-" "-") by reflexivity.
  simpl. apply padded_month_order; lia.
Qed.

(** September 2024 stands before October 2024. *)
Lemma month_keys_chronological_witness :
  String.compare (CURRENT_MONTH_KEY (first_of_month 2024 8))
                 (CURRENT_MONTH_KEY (first_of_month 2024 9)) = Lt.
Proof.
  rewrite month_keys_chronological; [reflexivity | split; simpl; lia | split; simpl; lia].
Defined.

End KeyOrder.

Section HistoryTab.

Lemma compare_asym x y : String.compare x y = Gt → String.compare y x ≠ Gt.
Proof. intros H. rewrite String.compare_antisym, H. discriminate. Qed.

Lemma StronglySorted_snoc {A} (R : A → A → Prop) l x :
  StronglySorted R l → Forall (λ a, R a x) l → StronglySorted R (l ++ [x]).
Proof.
  induction 1 as [|y l Hl IH Hy]; intros Hx; simpl.
  - repeat constructor.
  - apply Forall_cons in Hx as [Hyx Hx].
    constructor; [apply IH; exact Hx|].
    apply Forall_app. split; [exact Hy | repeat constructor; exact Hyx].
Qed.

Lemma StronglySorted_rev {A} (R : A → A → Prop) l :
  StronglySorted R l → StronglySorted (λ a b, R b a) (rev l).
Proof.
  induction 1 as [|x l Hl IH Hx]; simpl; [constructor|].
  apply StronglySorted_snoc; [exact IH|].
  rewrite Forall_forall in Hx |- *. intros a Ha. apply Hx.
  apply list_elem_of_In, in_rev, list_elem_of_In. exact Ha.
Qed.

Lemma StronglySorted_strict l :
  NoDup l → StronglySorted (λ a b, String.compare a b ≠ Gt) l →
  StronglySorted (λ a b, String.compare a b = Lt) l.
Proof.
  intros Hnd. induction 1 as [|x l Hl IH Hx]; [constructor|].
  apply NoDup_cons in Hnd as [Hnin Hnd].
  constructor; [apply IH; exact Hnd|].
  rewrite Forall_forall in Hx |- *. intros y Hy.
  specialize (Hx y Hy).
  destruct (String.compare x y) eqn:E; [|reflexivity|contradiction].
  apply String.compare_eq_iff in E. subst y. contradiction.
Qed.

Lemma historyKeys_elem data key :
  key ∈ historyKeys data ↔ is_Some (history data !! key).
Proof.
  unfold historyKeys. rewrite <- elem_of_Object_keys.
  rewrite list_elem_of_In, <- in_rev, <- list_elem_of_In.
  rewrite (sort_perm String.compare). reflexivity.
Qed.

Lemma card_keys (h : gmap string MonthBucket.t) (f : string → MonthBucket.t → HistoryCard)
    (l : list string) :
  (∀ key month, card_key (f key month) = key) →
  (∀ key, key ∈ l → is_Some (h !! key)) →
  card_key <$> omap (λ key, match h !! key with
                            | Some month => Some (f key month)
                            | None => None
                            end) l = l.
Proof.
  intros Hf. induction l as [|k l IH]; intros Hl; [reflexivity|].
  destruct (Hl k (list_elem_of_here _ _)) as [month Hk]. simpl.
  rewrite Hk. simpl. rewrite Hf. f_equal.
  apply IH. intros key Hkey. apply Hl. apply list_elem_of_further. exact Hkey.
Qed.

(** X4: the history tab has one card for each archived month, the
    greatest key first, each key once; the card of a month has the
    transactions of the month, its goal and the net of its
    transactions. *)
Theorem renderHistory_cards data :
  card_key <$> renderHistory data = historyKeys data
  ∧ historyKeys data ≡ₚ Object_keys (history data)
  ∧ StronglySorted (λ a b, String.compare a b = Gt) (historyKeys data)
  ∧ (∀ card, card ∈ renderHistory data →
       ∃ month, history data !! card_key card = Some month
                ∧ card_transactions card = MonthBucket.transactions month
                ∧ (card_goal card == MonthBucket.goal month)%Q
                ∧ (card_net card == Spec.netOf (MonthBucket.transactions month))%Q).
Proof.
  split; [|split; [|split]].
  - unfold renderHistory.
    apply (card_keys (history data)
             (λ key month,
                {| card_key := key;
                   card_goal := JS.or_zero (MonthBucket.goal month);
                   card_net := (spentOf (MonthBucket.transactions month)
                                - incomeOf (MonthBucket.transactions month))%Q;
                   card_transactions := MonthBucket.transactions month |})).
    + reflexivity.
    + intros key. apply historyKeys_elem.
  - unfold historyKeys. rewrite <- (Permutation_rev _).
    apply (sort_perm String.compare).
  - unfold historyKeys.
    assert (Hs : StronglySorted (λ a b, String.compare a b = Lt)
                   (JS.sort String.compare (Object_keys (history data)))).
    { apply StronglySorted_strict.
      - rewrite (sort_perm String.compare). apply NoDup_fst_map_to_list.
      - apply sort_sorted; [exact compare_asym | exact compare_le_trans]. }
    apply StronglySorted_rev in Hs.
    clear -Hs. induction Hs as [|x l Hl IH Hx]; constructor; [exact IH|].
    eapply Forall_impl; [exact Hx|]. intros b H. cbv beta in H.
    rewrite String.compare_antisym, H. reflexivity.
  - intros card Hcard. unfold renderHistory in Hcard.
    apply list_elem_of_omap in Hcard as [key [_ Hkey]].
    destruct (history data !! key) as [month|] eqn:E; [|discriminate Hkey].
    injection Hkey as <-. cbn. exists month.
    assert (Hnet : (spentOf (MonthBucket.transactions month)
                    - incomeOf (MonthBucket.transactions month)
                    == Spec.netOf (MonthBucket.transactions month))%Q).
    { unfold spentOf, incomeOf, Spec.netOf. rewrite foldl_spent, foldl_income. ring. }
    split; [exact E|]. split; [reflexivity|]. split; [apply or_zero_eq|].
    exact Hnet.
Qed.

End HistoryTab.

(** ** Export and import *)

Section ExportImport.

(** X6: a file written by the export is never refused by the import.
    Confirmed, it replaces the state, whatever that was, by the exported
    one: settings, current month and current transactions as exported (the
    month is not checked against the clock), the version with 1 for a
    missing one, and the history without the months before last year.
    Not confirmed, it changes nothing. *)
Theorem export_then_import now data before :
  let after := importData now (Some (exportData data)) true before in
  snd after = Some ToastImported
  ∧ version (fst after) = (if version data =? 0 then 1 else version data)
  ∧ settings (fst after) = settings data
  ∧ currentMonth (fst after) = currentMonth data
  ∧ transactions (fst after) = transactions data
  ∧ (∀ key, history (fst after) !! key
            = if year_before key (getFullYear now - 1) then None
              else history data !! key)
  ∧ importData now (Some (exportData data)) false before = (before, None).
Proof.
  intros after. subst after. unfold importData, exportData. cbn.
  repeat split. intros key. apply pruneOldHistory_lookup.
Qed.

Lemma pruneOldHistory_within now data :
  (∀ key, is_Some (history data !! key) → year_before key (getFullYear now - 1) = false) →
  pruneOldHistory now data = data.
Proof.
  intros Hkeys.
  assert (E : history (pruneOldHistory now data) = history data).
  { apply map_eq. intros key. rewrite pruneOldHistory_lookup.
    destruct (year_before key (getFullYear now - 1)) eqn:Ey; [|reflexivity].
    destruct (history data !! key) as [b|] eqn:Eb; [|reflexivity].
    rewrite Hkeys in Ey by (exists b; exact Eb). discriminate Ey. }
  unfold pruneOldHistory in *. cbn [history with_history] in E. cbv zeta.
  rewrite E. apply with_history_same.
Qed.

(** X7: when the state has a version and no archived month before last
    year, as after a rollover or an import in the same year, exporting it
    and importing the file gives the state back. *)
Theorem export_import_restores now data before :
  version data ≠ 0 →
  (∀ key, is_Some (history data !! key) → year_before key (getFullYear now - 1) = false) →
  fst (importData now (Some (exportData data)) true before) = data.
Proof.
  intros Hv Hkeys. unfold importData, exportData. cbn.
  apply Z.eqb_neq in Hv. rewrite Hv.
  set (restored := assign_imported now _).
  assert (E : restored = data) by (destruct data; reflexivity).
  rewrite E. apply pruneOldHistory_within. exact Hkeys.
Qed.

Lemma export_import_restores_witness :
  fst (importData (first_of_month 2024 2) (Some (exportData marchLedger)) true januaryLedger)
  = marchLedger.
Proof.
  apply (export_import_restores (first_of_month 2024 2) marchLedger januaryLedger).
  - discriminate.
  - intros key [b Hb]. cbn [history marchLedger] in Hb.
    apply lookup_singleton_Some in Hb as [<- _]. vm_compute. reflexivity.
Defined.

End ExportImport.

(** ** Deleting from a list or from the edit sheet *)

Section ConfirmDelete.





End ConfirmDelete.

(** ** Starting the application *)

Section Start.
Variable calcDynamicMonthlyGoal : Date → LedgerState → Q.

Lemma checkMonthlyReset_month now data :
  currentMonth (checkMonthlyReset_with calcDynamicMonthlyGoal now data)
  = CURRENT_MONTH_KEY now.
Proof.
  unfold checkMonthlyReset_with.
  destruct (String.eqb (currentMonth data) (CURRENT_MONTH_KEY now)) eqn:E.
  - apply String.eqb_eq. exact E.
  - reflexivity.
Qed.

(** The start of either script, for its own goal. *)
Lemma init_month now store :
  let data := init_with (checkMonthlyReset_with calcDynamicMonthlyGoal) now store in
  currentMonth data = CURRENT_MONTH_KEY now
  ∧ checkMonthlyReset_with calcDynamicMonthlyGoal now data = data
  ∧ (store = NoItem ∨ store = BadText → data = emptyData now)
  ∧ (∀ saved previous,
       store = saveData true saved previous →
       data = checkMonthlyReset_with calcDynamicMonthlyGoal now saved)
  ∧ (∀ saved previous,
       store = saveData true saved previous →
       currentMonth saved = CURRENT_MONTH_KEY now →
       data = saved).
Proof.
  intros data. subst data. unfold init_with.
  assert (Hsaved : ∀ saved previous,
            loadData now (saveData true saved previous) (emptyData now) = saved).
  { intros saved previous. destruct saved. reflexivity. }
  split; [apply checkMonthlyReset_month|].
  split; [apply checkMonthlyReset_current, checkMonthlyReset_month|].
  split; [|split].
  - intros [->| ->]; apply checkMonthlyReset_current; reflexivity.
  - intros saved previous ->. rewrite Hsaved. reflexivity.
  - intros saved previous -> Hmonth. rewrite Hsaved.
    apply checkMonthlyReset_current. exact Hmonth.
Qed.

End Start.

(** X9: whatever the store holds, after [init] the current month is the
    month of the clock and a second check of the month changes nothing;
    an empty store and a text that does not parse give the empty state; a
    state saved earlier is read back and rolled over when its month has
    passed, so one saved in this month comes back as it was. *)
Theorem init_current_month now store :
  let start (reset : Date → LedgerState → LedgerState) :=
    let data := init_with reset now store in
    currentMonth data = CURRENT_MONTH_KEY now
    ∧ reset now data = data
    ∧ (store = NoItem ∨ store = BadText → data = emptyData now)
    ∧ (∀ saved previous,
         store = saveData true saved previous → data = reset now saved)
    ∧ (∀ saved previous,
         store = saveData true saved previous →
         currentMonth saved = CURRENT_MONTH_KEY now →
         data = saved) in
  start PriorMonths.checkMonthlyReset ∧ start YearToDate.checkMonthlyReset.
Proof.
  intros start. split.
  - apply (init_month PriorMonths.calcDynamicMonthlyGoal).
  - apply (init_month YearToDate.calcDynamicMonthlyGoal).
Qed.

Lemma init_current_month_witness :
  init_with PriorMonths.checkMonthlyReset (first_of_month 2024 2)
            (saveData true marchLedger NoItem)
  = marchLedger.
Proof.
  apply (proj2 (proj2 (proj2 (proj2 (proj1 (init_current_month (first_of_month 2024 2)
                  (saveData true marchLedger NoItem)))))) marchLedger NoItem).
  - reflexivity.
  - reflexivity.
Defined.

(** ** The two allowances side by side *)

Section TwoAllowances.
Local Open Scope Q_scope.

Lemma currentNet_netOf data :
  calcMonthSpent data - calcMonthIncome data == Spec.netOf (transactions data).
Proof.
  unfold calcMonthSpent, calcMonthIncome, Spec.netOf.
  rewrite foldl_spent, foldl_income. ring.
Qed.

Lemma yearToDate_prior now data :
  YearToDate.calcYearToDateNet now data
  == PriorMonths.calcPriorMonthsNetThisYear now data
     + (calcMonthSpent data - calcMonthIncome data).
Proof.
  unfold YearToDate.calcYearToDateNet, PriorMonths.calcPriorMonthsNetThisYear.
  cbv zeta. rewrite tally_fold, currentNet_netOf. reflexivity.
Qed.

Lemma months_nonzero now :
  (calcMonthsRemainingInYear now <=? 0)%Z = false →
  ¬ inject_Z (calcMonthsRemainingInYear now) == 0.
Proof.
  intros E H. apply Z.leb_gt in E.
  unfold Qeq in H. simpl in H. lia.
Qed.

Lemma remainingAnnual_same now data :
  YearToDate.calcRemainingAnnual now data == PriorMonths.calcRemainingAnnual now data.
Proof.
  unfold YearToDate.calcRemainingAnnual, PriorMonths.calcRemainingAnnual.
  cbv zeta. rewrite yearToDate_prior. ring.
Qed.

Lemma goal_compared now data :
  YearToDate.calcDynamicMonthlyGoal now data
  == PriorMonths.calcDynamicMonthlyGoal now data
     - (if (calcMonthsRemainingInYear now <=? 0)%Z then 0
        else (calcMonthSpent data - calcMonthIncome data)
             / inject_Z (calcMonthsRemainingInYear now)).
Proof.
  unfold YearToDate.calcDynamicMonthlyGoal, PriorMonths.calcDynamicMonthlyGoal,
    YearToDate.calcRemainingAnnual.
  cbv zeta.
  destruct (calcMonthsRemainingInYear now <=? 0)%Z eqn:E; [ring|].
  rewrite yearToDate_prior. field. apply months_nonzero. exact E.
Qed.

(** X10: the two scripts give the same remaining annual budget.  Their
    monthly goals differ by the net spend of the current month divided
    by the months that remain in the year: the first script keeps the goal
    fixed during the month, the second lowers it with every expense, and
    so does what remains of the month. *)
Theorem allowances_compared now data :
  let currentNet := calcMonthSpent data - calcMonthIncome data in
  let share :=
    if (calcMonthsRemainingInYear now <=? 0)%Z then 0
    else currentNet / inject_Z (calcMonthsRemainingInYear now) in
  YearToDate.calcYearToDateNet now data
  == PriorMonths.calcPriorMonthsNetThisYear now data + currentNet
  ∧ YearToDate.calcRemainingAnnual now data == PriorMonths.calcRemainingAnnual now data
  ∧ YearToDate.calcDynamicMonthlyGoal now data
    == PriorMonths.calcDynamicMonthlyGoal now data - share
  ∧ YearToDate.calcMonthlyRemaining now data
    == PriorMonths.calcMonthlyRemaining now data - share.
Proof.
  intros currentNet share. subst currentNet share.
  split; [apply yearToDate_prior|].
  split; [apply remainingAnnual_same|].
  split; [apply goal_compared|].
  unfold YearToDate.calcMonthlyRemaining, PriorMonths.calcMonthlyRemaining.
  cbv zeta. rewrite goal_compared. ring.
Qed.

(** One more transaction at the head of the current month. *)
Lemma netOf_single t : Spec.netOf [t] == - Transaction.amount t.
Proof.
  unfold Spec.netOf. simpl.
  destruct (JS.ltb (Transaction.amount t) 0) eqn:Eneg;
    destruct (JS.ltb 0 (Transaction.amount t)) eqn:Epos.
  - apply ltb_true in Eneg, Epos. lra.
  - apply ltb_true in Eneg. rewrite Qabs_neg by lra. ring.
  - ring.
  - apply ltb_false in Eneg, Epos. lra.
Qed.

Lemma currentNet_cons t data :
  calcMonthSpent (with_transactions (t :: transactions data) data)
  - calcMonthIncome (with_transactions (t :: transactions data) data)
  == calcMonthSpent data - calcMonthIncome data - Transaction.amount t.
Proof.
  rewrite !currentNet_netOf. cbn [transactions with_transactions].
  rewrite netOf_cons, netOf_single. ring.
Qed.

Lemma addTransaction_accepts now newId raw descriptionInput isIncomeMode data :
  0 < raw →
  addTransaction now newId (JS.Finite raw) descriptionInput isIncomeMode data
  = Some (with_transactions
            (Transaction.mk newId (toISODate now) (toTimeHM now)
               (if isIncomeMode then JS.toFixed2 raw else - JS.toFixed2 raw)
               (JS.or_else (JS.trim descriptionInput)
                           (if isIncomeMode then "Income" else "Expense"))
             :: transactions data) data,
          Some ToastAdded).
Proof.
  intros Hraw. unfold addTransaction.
  rewrite (positive_not_refused raw Hraw). reflexivity.
Qed.

(** X11: what one more transaction does to the budget.  In the first
    script the goal of the month does not move and what remains of the
    month moves by the signed amount; in the second the goal moves by the
    amount divided by the months that remain, so what remains of the month
    moves by both.  The remaining annual budget moves by the signed amount
    in either. *)
Theorem addTransaction_budget now newId raw descriptionInput (isIncomeMode : bool)
    data clock :
  0 < raw →
  let signed := if isIncomeMode then JS.toFixed2 raw else - JS.toFixed2 raw in
  let share :=
    if (calcMonthsRemainingInYear clock <=? 0)%Z then 0
    else signed / inject_Z (calcMonthsRemainingInYear clock) in
  ∃ data',
    addTransaction now newId (JS.Finite raw) descriptionInput isIncomeMode data
    = Some (data', Some ToastAdded)
    ∧ PriorMonths.calcDynamicMonthlyGoal clock data'
      = PriorMonths.calcDynamicMonthlyGoal clock data
    ∧ PriorMonths.calcMonthlyRemaining clock data'
      == PriorMonths.calcMonthlyRemaining clock data + signed
    ∧ PriorMonths.calcRemainingAnnual clock data'
      == PriorMonths.calcRemainingAnnual clock data + signed
    ∧ YearToDate.calcRemainingAnnual clock data'
      == YearToDate.calcRemainingAnnual clock data + signed
    ∧ YearToDate.calcDynamicMonthlyGoal clock data'
      == YearToDate.calcDynamicMonthlyGoal clock data + share
    ∧ YearToDate.calcMonthlyRemaining clock data'
      == YearToDate.calcMonthlyRemaining clock data + signed + share.
Proof.
  intros Hraw signed share.
  eexists. split; [apply addTransaction_accepts; exact Hraw|]. fold signed.
  set (tx := Transaction.mk _ _ _ signed _).
  assert (Hnet := currentNet_cons tx data). cbn [Transaction.amount tx] in Hnet.
  assert (Hgoal : PriorMonths.calcDynamicMonthlyGoal clock
                    (with_transactions (tx :: transactions data) data)
                  = PriorMonths.calcDynamicMonthlyGoal clock data) by reflexivity.
  assert (Hprior : PriorMonths.calcPriorMonthsNetThisYear clock
                     (with_transactions (tx :: transactions data) data)
                   = PriorMonths.calcPriorMonthsNetThisYear clock data) by reflexivity.
  assert (Hrem : PriorMonths.calcMonthlyRemaining clock
                   (with_transactions (tx :: transactions data) data)
                 == PriorMonths.calcMonthlyRemaining clock data + signed).
  { unfold PriorMonths.calcMonthlyRemaining. cbv zeta. rewrite Hgoal.
    set (s' := calcMonthSpent _) in *. set (i' := calcMonthIncome _) in *. lra. }
  assert (Hannual : PriorMonths.calcRemainingAnnual clock
                      (with_transactions (tx :: transactions data) data)
                    == PriorMonths.calcRemainingAnnual clock data + signed).
  { unfold PriorMonths.calcRemainingAnnual. cbv zeta. rewrite Hprior.
    cbn [settings with_transactions].
    set (s' := calcMonthSpent _) in *. set (i' := calcMonthIncome _) in *. lra. }
  assert (Hygoal : YearToDate.calcDynamicMonthlyGoal clock
                     (with_transactions (tx :: transactions data) data)
                   == YearToDate.calcDynamicMonthlyGoal clock data + share).
  { rewrite !goal_compared, Hgoal. subst share.
    destruct (calcMonthsRemainingInYear clock <=? 0)%Z eqn:E; [ring|].
    rewrite Hnet. field. apply months_nonzero. exact E. }
  split; [exact Hgoal|]. split; [exact Hrem|]. split; [exact Hannual|].
  split; [rewrite !remainingAnnual_same; exact Hannual|].
  split; [exact Hygoal|].
  unfold YearToDate.calcMonthlyRemaining. cbv zeta. rewrite Hygoal.
  set (s' := calcMonthSpent (with_transactions _ _)) in *.
  set (i' := calcMonthIncome (with_transactions _ _)) in *. lra.
Qed.

Lemma addTransaction_budget_witness :
  ∃ data',
    addTransaction (first_of_month 2024 2) "lt9x0k2ab3f8" (JS.Finite (1999 # 100))
      "Tea" false marchLedger
    = Some (data', Some ToastAdded)
    ∧ PriorMonths.calcMonthlyRemaining (first_of_month 2024 2) data'
      == PriorMonths.calcMonthlyRemaining (first_of_month 2024 2) marchLedger
         + - JS.toFixed2 (1999 # 100).
Proof.
  destruct (addTransaction_budget (first_of_month 2024 2) "lt9x0k2ab3f8" (1999 # 100)
              "Tea" false marchLedger (first_of_month 2024 2) ltac:(reflexivity))
    as (data' & Hadd & _ & Hrem & _).
  exists data'. split; [exact Hadd | exact Hrem].
Defined.

End TwoAllowances.

(** ** What an addition records *)

Section Recorded.
Local Open Scope Q_scope.

Lemma toFixed2_floor x :
  JS.toFixed2 x == inject_Z (Qfloor (x * 100 + (1 # 2))) * (1 # 100).
Proof.
  unfold JS.toFixed2. rewrite Qred_correct.
  unfold Qeq, Qmult, inject_Z. simpl. lia.
Qed.

Lemma toFixed2_near x : x - (1 # 200) < JS.toFixed2 x ∧ JS.toFixed2 x <= x + (1 # 200).
Proof.
  rewrite toFixed2_floor.
  pose proof (Qfloor_le (x * 100 + (1 # 2))) as Hle.
  pose proof (Qlt_floor (x * 100 + (1 # 2))) as Hlt.
  rewrite inject_Z_plus in Hlt.
  set (f := inject_Z (Qfloor (x * 100 + (1 # 2)))) in *.
  change (inject_Z 1) with 1 in Hlt.
  split; lra.
Qed.

Lemma toFixed2_nonneg x : 0 < x → (0 <= Qfloor (x * 100 + (1 # 2)))%Z.
Proof.
  intros Hx. change 0%Z with (Qfloor 0).
  apply Qfloor_resp_le. lra.
Qed.

Lemma Qfloor_half k : Qfloor (inject_Z k + (1 # 2)) = k.
Proof.
  unfold Qfloor, Qplus, inject_Z. simpl.
  symmetry. apply (Z.div_unique _ 2 k 1); lia.
Qed.

(** An amount already in cents is kept by the rounding. *)
Lemma toFixed2_idem x : JS.toFixed2 (JS.toFixed2 x) = JS.toFixed2 x.
Proof.
  unfold JS.toFixed2 at 1.
  assert (E : JS.toFixed2 x * 100 + (1 # 2)
              == inject_Z (Qfloor (x * 100 + (1 # 2))) + (1 # 2))
    by (rewrite toFixed2_floor; ring).
  rewrite (Qfloor_comp _ _ E), Qfloor_half. reflexivity.
Qed.

Lemma Qabs_toFixed2 x : 0 < x → Qabs (JS.toFixed2 x) = JS.toFixed2 x
                               ∧ Qabs (- JS.toFixed2 x) = JS.toFixed2 x.
Proof.
  intros Hx.
  assert (H0 : 0 <= JS.toFixed2 x).
  { rewrite toFixed2_floor. pose proof (toFixed2_nonneg x Hx) as Hf.
    apply Qmult_le_0_compat; [|lra].
    change 0 with (inject_Z 0). rewrite <- Zle_Qle. exact Hf. }
  destruct (JS.toFixed2 x) as [n d]. unfold Qle in H0. simpl in H0.
  unfold Qabs, Qopp. simpl. split; f_equal; lia.
Qed.

Lemma or_else_nonempty a b : b ≠ ""%string → JS.or_else a b ≠ ""%string.
Proof.
  intros Hb. unfold JS.or_else. destruct a; [exact Hb | discriminate].
Qed.

(** X12: an amount that is [NaN], negative infinity or a number not
    above zero is refused and nothing changes.  Positive infinity passes
    the guard: the code goes on to record an infinite amount, which no
    state of the model holds, and the model gives no result there.  Any
    finite amount above zero puts exactly one transaction at the head of
    the current month, with the id, the date and the time it was given, a
    description that is never empty, and the amount rounded to whole
    cents, at most half a cent from what was typed, negative for an
    expense.  An amount below half a cent is accepted and recorded as
    zero. *)
Theorem addTransaction_records now newId raw descriptionInput (isIncomeMode : bool) data :
  ((raw = JS.NaN ∨ raw = JS.NegInfinity ∨ ∃ r, raw = JS.Finite r ∧ r <= 0) →
   JS.refused raw = true
   ∧ addTransaction now newId raw descriptionInput isIncomeMode data
     = Some (data, Some ToastInvalidAmount))
  ∧ (raw = JS.PosInfinity →
     JS.refused raw = false
     ∧ addTransaction now newId raw descriptionInput isIncomeMode data = None)
  ∧ (∀ r, raw = JS.Finite r → 0 < r →
     ∃ tx,
       JS.refused raw = false
       ∧ addTransaction now newId raw descriptionInput isIncomeMode data
         = Some (with_transactions (tx :: transactions data) data, Some ToastAdded)
       ∧ Transaction.id tx = newId
       ∧ Transaction.date tx = toISODate now
       ∧ Transaction.time tx = toTimeHM now
       ∧ Transaction.description tx ≠ ""%string
       ∧ in_cents (Transaction.amount tx)
       ∧ (∃ cents : Z, (0 <= cents)%Z ∧ Qabs (Transaction.amount tx) == cents # 100)
       ∧ r - (1 # 200) < Qabs (Transaction.amount tx)
       ∧ Qabs (Transaction.amount tx) <= r + (1 # 200)
       ∧ (if isIncomeMode then 0 <= Transaction.amount tx else Transaction.amount tx <= 0)
       ∧ (r < 1 # 200 → Transaction.amount tx == 0)).
Proof.
  split; [|split].
  - intros [->|[->|[r [-> Hr]]]]; [split; reflexivity | split; reflexivity|].
    unfold addTransaction. cbn [JS.refused]. apply Qle_bool_iff in Hr. rewrite Hr.
    split; reflexivity.
  - intros ->. split; reflexivity.
  - intros r -> Hr. eexists. split; [apply positive_not_refused; exact Hr|].
    split; [apply addTransaction_accepts; exact Hr|].
    cbn [Transaction.id Transaction.date Transaction.time Transaction.description
         Transaction.amount].
    destruct (Qabs_toFixed2 r Hr) as [Hpos Hneg].
    assert (Habs : Qabs (if isIncomeMode then JS.toFixed2 r else - JS.toFixed2 r)
                   = JS.toFixed2 r) by (destruct isIncomeMode; assumption).
    destruct (toFixed2_near r) as [Hlow Hhigh].
    assert (H0 : 0 <= JS.toFixed2 r) by (rewrite <- Hpos; apply Qabs_nonneg).
    split; [reflexivity|]. split; [reflexivity|]. split; [reflexivity|].
    split; [apply or_else_nonempty; destruct isIncomeMode; discriminate|].
    split; [unfold in_cents; rewrite Habs; apply toFixed2_idem|].
    split.
    { exists (Qfloor (r * 100 + (1 # 2))). split; [apply toFixed2_nonneg; exact Hr|].
      rewrite Habs. unfold JS.toFixed2. apply Qred_correct. }
    rewrite Habs.
    split; [exact Hlow|]. split; [exact Hhigh|].
    split; [destruct isIncomeMode; lra|].
    intros Hsmall.
    assert (Hf : Qfloor (r * 100 + (1 # 2)) = 0%Z).
    { apply Z.le_antisymm; [|apply toFixed2_nonneg; exact Hr].
      assert (Hlt : (Qfloor (r * 100 + (1 # 2)) < 1)%Z).
      { rewrite Zlt_Qlt. apply Qle_lt_trans with (r * 100 + (1 # 2)).
        - apply Qfloor_le.
        - change (inject_Z 1) with 1. lra. }
      lia. }
    assert (Hz : JS.toFixed2 r == 0) by (rewrite toFixed2_floor, Hf; reflexivity).
    destruct isIncomeMode; rewrite Hz; reflexivity.
Qed.

Lemma addTransaction_records_witness :
  ∃ tx,
    addTransaction (first_of_month 2024 2) "lt9x0k2ab3f8" (JS.Finite (1 # 250)) "  " false
                   marchLedger
    = Some (with_transactions (tx :: transactions marchLedger) marchLedger,
            Some ToastAdded)
    ∧ Transaction.description tx ≠ ""%string
    ∧ Transaction.amount tx == 0.
Proof.
  destruct (proj2 (proj2 (addTransaction_records (first_of_month 2024 2) "lt9x0k2ab3f8"
                            (JS.Finite (1 # 250)) "  " false marchLedger))
                  (1 # 250) eq_refl ltac:(reflexivity))
    as [tx (_ & Hadd & _ & _ & _ & Hdesc & _ & _ & _ & _ & _ & Hzero)].
  exists tx. split; [exact Hadd|]. split; [exact Hdesc|].
  apply Hzero. reflexivity.
Defined.

(** X13: deleting the transaction that was just added gives the state
    back, from the list of either script or through the delete button,
    as long as no other transaction of the month has its id. *)
Theorem add_then_delete now newId raw descriptionInput (isIncomeMode : bool) data :
  0 < raw →
  newId ∉ ids (transactions data) →
  ∃ added,
    addTransaction now newId (JS.Finite raw) descriptionInput isIncomeMode data
    = Some (added, Some ToastAdded)
    ∧ PriorMonths.deleteTransaction newId None added = data
    ∧ YearToDate.deleteTransaction newId added = data
    ∧ confirmDeleteTx newId None true added = data.
Proof.
  intros Hraw Hfresh.
  eexists. split; [apply addTransaction_accepts; exact Hraw|].
  set (tx := Transaction.mk newId _ _ _ _).
  assert (Hdel : YearToDate.deleteTransaction newId
                   (with_transactions (tx :: transactions data) data) = data).
  { unfold YearToDate.deleteTransaction. cbn [transactions with_transactions].
    unfold remove_tx at 1. cbn [List.filter Transaction.id tx].
    rewrite String.eqb_refl. cbn [negb].
    fold (remove_tx newId (transactions data)).
    rewrite remove_tx_absent by exact Hfresh. destruct data. reflexivity. }
  split; [exact Hdel|]. split; [exact Hdel|].
  unfold confirmDeleteTx, lookup_tx. cbn [truthy_key transactions with_transactions].
  unfold find_tx. cbn [List.find Transaction.id tx]. rewrite String.eqb_refl.
  exact Hdel.
Qed.

Lemma add_then_delete_witness :
  ∃ added,
    addTransaction (first_of_month 2024 2) "lt9x0k2ab3f8" (JS.Finite (1999 # 100))
      "Tea" false marchLedger
    = Some (added, Some ToastAdded)
    ∧ PriorMonths.deleteTransaction "lt9x0k2ab3f8" None added = marchLedger.
Proof.
  assert (Hfresh : "lt9x0k2ab3f8"%string ∉ ids (transactions marchLedger)).
  { vm_compute. intros H. apply list_elem_of_singleton in H. discriminate H. }
  destruct (add_then_delete (first_of_month 2024 2) "lt9x0k2ab3f8" (1999 # 100)
              "Tea" false marchLedger ltac:(reflexivity) Hfresh)
    as (added & Hadd & Hdel & _).
  exists added. split; [exact Hadd | exact Hdel].
Defined.

End Recorded.

(** ** Opening the edit sheet and saving it as it is *)

Section EditUnchanged.
Local Open Scope Q_scope.

Lemma update_found_same id txs t :
  find_tx id txs = Some t → update_found id (λ _, t) txs = txs.
Proof.
  unfold find_tx. induction txs as [|x txs IH]; simpl; [reflexivity|].
  destruct (String.eqb (Transaction.id x) id).
  - intros [= ->]. reflexivity.
  - intros H. rewrite (IH H). reflexivity.
Qed.

(** The sheet shows the magnitude and the sign; together they give the
    amount back when it is in cents. *)
Lemma amount_back a :
  in_cents a → Qle_bool (Qabs a) 0 = false →
  (if JS.ltb 0 a then JS.toFixed2 (Qabs a) else - JS.toFixed2 (Qabs a)) = a.
Proof.
  unfold in_cents. intros -> Hnz.
  assert (Hpos : 0 < Qabs a).
  { apply Qnot_le_lt. intros H%Qle_bool_iff. congruence. }
  destruct (JS.ltb 0 a) eqn:E.
  - apply ltb_true in E. destruct a as [n d].
    unfold Qlt in E. simpl in E. unfold Qabs. f_equal. lia.
  - apply ltb_false in E. destruct a as [n d].
    unfold Qle in E. simpl in E. unfold Qabs, Qopp. simpl. f_equal. lia.
Qed.

Lemma saveEditTx_unchanged id monthKey data tx form month :
  openEditTx id monthKey data = Some (form, month) →
  lookup_tx id monthKey data = Some tx →
  in_cents (Transaction.amount tx) →
  JS.trim (Transaction.description tx) = Transaction.description tx →
  Transaction.description tx ≠ ""%string →
  (Transaction.date tx = ""%string
   ∨ JS.slice0 7 (Transaction.date tx) = key_or monthKey (currentMonth data)) →
  ∃ toast, PriorMonths.saveEditTx form month data = Some (data, toast).
Proof.
  intros Hopen Hlook Hcents Htrim Hdesc Hdate.
  unfold openEditTx in Hopen. rewrite Hlook in Hopen.
  injection Hopen as <- <-.
  unfold PriorMonths.saveEditTx.
  cbn [editingTxId editAmount editDescription editDate editIsIncome].
  destruct (falsy_id (Some id)); [eexists; reflexivity|].
  cbv zeta. cbn [JS.refused JS.finite].
  destruct (Qle_bool (Qabs (Transaction.amount tx)) 0) eqn:Hnz; [eexists; reflexivity|].
  cbn [default]. unfold Datatypes.id.
  set (src := if truthy_key monthKey then monthKey else None).
  assert (Hsrc : truthy_key src = truthy_key monthKey).
  { subst src. destruct (truthy_key monthKey) eqn:E; [exact E | reflexivity]. }
  assert (Hkey : ∀ fallback, key_or src fallback = key_or monthKey fallback).
  { intros fallback. subst src. destruct monthKey as [k|]; [|reflexivity].
    cbn [truthy_key key_or]. destruct (JS.truthy k) eqn:E; cbn [key_or]; [rewrite E|];
      reflexivity. }
  assert (Hbucket : bucket_at src (history data) = bucket_at monthKey (history data)).
  { unfold bucket_at. rewrite Hsrc, Hkey. reflexivity. }
  assert (Hfound :
    (if truthy_key src
     then find_tx id (match bucket_at src (history data) with
                      | Some bucket => MonthBucket.transactions bucket
                      | None => []
                      end)
     else find_tx id (transactions data)) = Some tx).
  { rewrite Hsrc, Hbucket. exact Hlook. }
  rewrite Hfound.
  assert (Hupdated :
    updatedTx_of tx (Transaction.date tx)
      (edit_amount {| editingTxId := Some id;
                      editAmount := JS.Finite (Qabs (Transaction.amount tx));
                      editDescription := Transaction.description tx;
                      editDate := Transaction.date tx;
                      editIsIncome := JS.ltb 0 (Transaction.amount tx) |}
                   (Qabs (Transaction.amount tx)))
      (edit_description {| editingTxId := Some id;
                           editAmount := JS.Finite (Qabs (Transaction.amount tx));
                           editDescription := Transaction.description tx;
                           editDate := Transaction.date tx;
                           editIsIncome := JS.ltb 0 (Transaction.amount tx) |})
    = tx).
  { unfold updatedTx_of, edit_amount, edit_description.
    cbn [editDescription editIsIncome]. cbv zeta.
    rewrite (amount_back _ Hcents Hnz), Htrim, or_else_empty.
    assert (Hd : JS.or_else (Transaction.date tx) (Transaction.date tx) = Transaction.date tx)
      by (unfold JS.or_else; destruct (JS.truthy _); reflexivity).
    assert (He : ∀ fallback, JS.or_else (Transaction.description tx) fallback
                             = Transaction.description tx).
    { intros fallback. unfold JS.or_else.
      destruct (Transaction.description tx); [contradiction | reflexivity]. }
    rewrite Hd, He. destruct tx. reflexivity. }
  rewrite Hupdated.
  assert (Hsame :
    (if JS.truthy (Transaction.date tx) then JS.slice0 7 (Transaction.date tx)
     else key_or src (currentMonth data)) = key_or src (currentMonth data)).
  { rewrite Hkey. destruct Hdate as [->|Hd]; [reflexivity|].
    destruct (JS.truthy (Transaction.date tx)); [exact Hd | reflexivity]. }
  rewrite Hsame, String.eqb_refl. cbn [negb].
  exists (Some ToastUpdated). apply (f_equal (λ d, Some (d, Some ToastUpdated))).
  unfold PriorMonths.assign_in_source. rewrite Hsrc.
  unfold lookup_tx in Hlook.
  destruct (truthy_key monthKey) eqn:Ek.
  - unfold bucket_at in Hlook. rewrite Ek in Hlook. rewrite Hkey.
    destruct (history data !! key_or monthKey "") as [b|] eqn:Eb.
    2:{ cbn in Hlook. discriminate Hlook. }
    assert (Halter : alter (map_bucket (update_found id (λ _, tx))) (key_or monthKey "")
                       (history data) = history data).
    { apply map_eq. intros k. destruct (decide (key_or monthKey "" = k)) as [<-|Hne].
      - rewrite lookup_alter_eq, Eb. cbn. unfold map_bucket.
        rewrite (update_found_same _ _ _ Hlook). destruct b. reflexivity.
      - rewrite lookup_alter_ne by exact Hne. reflexivity. }
    rewrite Halter. apply with_history_same.
  - rewrite (update_found_same _ _ _ Hlook). apply with_transactions_same.
Qed.

(** X14: opening the edit sheet on a transaction and saving it without a
    change leaves the state as it was, when the amount is in cents, the
    description is trimmed and not empty, and the date (if any) lies in the
    month of the bucket: in the first script for the current month and
    for archived months, in the second for the current month. *)
Theorem openEditTx_then_save id monthKey data tx form month :
  openEditTx id monthKey data = Some (form, month) →
  lookup_tx id monthKey data = Some tx →
  in_cents (Transaction.amount tx) →
  JS.trim (Transaction.description tx) = Transaction.description tx →
  Transaction.description tx ≠ ""%string →
  (Transaction.date tx = ""%string
   ∨ JS.slice0 7 (Transaction.date tx) = key_or monthKey (currentMonth data)) →
  (∃ toast, PriorMonths.saveEditTx form month data = Some (data, toast))
  ∧ (monthKey = None → ∃ toast, YearToDate.saveEditTx form data = Some (data, toast)).
Proof.
  intros Hopen Hlook Hcents Htrim Hdesc Hdate.
  pose proof (saveEditTx_unchanged _ _ _ _ _ _ Hopen Hlook Hcents Htrim Hdesc Hdate) as H.
  split; [exact H|].
  intros ->. rewrite YearToDate_saveEditTx.
  unfold openEditTx in Hopen. rewrite Hlook in Hopen.
  injection Hopen as <- <-. exact H.
Qed.

Lemma openEditTx_then_save_witness :
  ∃ form month,
    openEditTx "ls4zz99yy8x7" (Some "2024-02"%string) marchLedger = Some (form, month)
    ∧ ∃ toast, PriorMonths.saveEditTx form month marchLedger = Some (marchLedger, toast).
Proof.
  eexists _, _. split; [reflexivity|].
  apply (openEditTx_then_save "ls4zz99yy8x7" (Some "2024-02"%string) marchLedger
           (Transaction.mk "ls4zz99yy8x7" "2024-02-11" "08:15" (-(75)) "Fuel")).
  - reflexivity.
  - reflexivity.
  - vm_compute. reflexivity.
  - vm_compute. reflexivity.
  - discriminate.
  - right. reflexivity.
Defined.

End EditUnchanged.

(** ** The monthly budget shown in the settings *)

Section SettingsPreview.
Local Open Scope Q_scope.

Lemma preview_cases goalOf now (input : JS.number) data :
  let shown := updateSettingsMonthlyDisplay_with goalOf now input data in
  (0 < annualBudget (settings data) → shown = Amount (goalOf now data))
  ∧ (annualBudget (settings data) <= 0 →
     ∀ annual, input = JS.Finite annual → 0 < annual →
     shown = Amount (annual / inject_Z (calcMonthsRemainingInYear now)))
  ∧ (annualBudget (settings data) <= 0 →
     (input = JS.NaN ∨ input = JS.NegInfinity
      ∨ ∃ annual, input = JS.Finite annual ∧ annual <= 0) →
     shown = Dash)
  ∧ (annualBudget (settings data) <= 0 → input = JS.PosInfinity →
     shown = InfiniteAmount).
Proof.
  intros shown. subst shown. unfold updateSettingsMonthlyDisplay_with. cbv zeta.
  split; [|split; [|split]].
  - intros H. apply ltb_true in H. rewrite H. reflexivity.
  - intros H annual -> Ha. apply ltb_false in H. rewrite H. cbn [or_zero_number].
    assert (Hz : JS.or_zero annual = annual).
    { unfold JS.or_zero. destruct (Qeq_bool annual 0) eqn:E; [|reflexivity].
      apply Qeq_bool_iff in E. lra. }
    rewrite Hz. apply ltb_true in Ha. rewrite Ha. reflexivity.
  - intros H Hin. apply ltb_false in H. rewrite H.
    destruct Hin as [->|[->|[annual [-> Ha]]]]; cbn [or_zero_number].
    + reflexivity.
    + reflexivity.
    + assert (Hno : JS.ltb 0 (JS.or_zero annual) = false)
        by (apply ltb_false; rewrite or_zero_eq; exact Ha).
      rewrite Hno. reflexivity.
  - intros H ->. apply ltb_false in H. rewrite H. reflexivity.
Qed.

(** X15: while a positive annual budget is saved, the settings show the
    goal of the saved budget and what is typed in the field is not looked
    at.  With none saved, a positive typed budget is previewed as that
    budget divided by the months that remain (an infinite one as an
    infinite amount); nothing spent so far is taken off, so the goal of
    the state in which the same budget is stored is lower by the net
    spend of the year (of the prior months in the first script) divided by
    those months, and that goal is what the settings show there.  With
    neither, the dash is shown. *)
Theorem updateSettingsMonthlyDisplay_preview now (input : JS.number) data :
  let months := inject_Z (calcMonthsRemainingInYear now) in
  ((0 < annualBudget (settings data) →
    PriorMonthsView.updateSettingsMonthlyDisplay now input data
    = Amount (PriorMonths.calcDynamicMonthlyGoal now data)
    ∧ YearToDateView.updateSettingsMonthlyDisplay now input data
      = Amount (YearToDate.calcDynamicMonthlyGoal now data))
   ∧ (annualBudget (settings data) <= 0 →
      (input = JS.NaN ∨ input = JS.NegInfinity
       ∨ ∃ annual, input = JS.Finite annual ∧ annual <= 0) →
      PriorMonthsView.updateSettingsMonthlyDisplay now input data = Dash
      ∧ YearToDateView.updateSettingsMonthlyDisplay now input data = Dash)
   ∧ (annualBudget (settings data) <= 0 → input = JS.PosInfinity →
      (0 < calcMonthsRemainingInYear now)%Z →
      PriorMonthsView.updateSettingsMonthlyDisplay now input data = InfiniteAmount
      ∧ YearToDateView.updateSettingsMonthlyDisplay now input data = InfiniteAmount)
   ∧ (annualBudget (settings data) <= 0 →
      ∀ annual, input = JS.Finite annual → 0 < annual →
      (0 < calcMonthsRemainingInYear now)%Z →
      let stored := with_settings {| annualBudget := annual |} data in
      PriorMonthsView.updateSettingsMonthlyDisplay now input data = Amount (annual / months)
      ∧ YearToDateView.updateSettingsMonthlyDisplay now input data = Amount (annual / months)
      ∧ PriorMonthsView.updateSettingsMonthlyDisplay now input stored
        = Amount (PriorMonths.calcDynamicMonthlyGoal now stored)
      ∧ PriorMonths.calcDynamicMonthlyGoal now stored
        == annual / months - PriorMonths.calcPriorMonthsNetThisYear now data / months
      ∧ YearToDateView.updateSettingsMonthlyDisplay now input stored
        = Amount (YearToDate.calcDynamicMonthlyGoal now stored)
      ∧ YearToDate.calcDynamicMonthlyGoal now stored
        == annual / months - YearToDate.calcYearToDateNet now data / months)).
Proof.
  intros months. subst months.
  destruct (preview_cases PriorMonths.calcDynamicMonthlyGoal now input data)
    as (Psaved & Ptyped & Pnone & Pinf).
  destruct (preview_cases YearToDate.calcDynamicMonthlyGoal now input data)
    as (Ysaved & Ytyped & Ynone & Yinf).
  split; [|split; [|split]].
  - intros H. split; [exact (Psaved H) | exact (Ysaved H)].
  - intros H Hin. split; [exact (Pnone H Hin) | exact (Ynone H Hin)].
  - intros H Hin _. split; [exact (Pinf H Hin) | exact (Yinf H Hin)].
  - intros H annual Hin Ha Hm stored.
    split; [exact (Ptyped H annual Hin Ha)|].
    split; [exact (Ytyped H annual Hin Ha)|].
    assert (Hstored : annualBudget (settings stored) = annual) by reflexivity.
    assert (Hpos : 0 < annualBudget (settings stored))
      by (rewrite Hstored; exact Ha).
    assert (Hmonths : (calcMonthsRemainingInYear now <=? 0)%Z = false)
      by (apply Z.leb_gt; exact Hm).
    split.
    { apply (proj1 (preview_cases PriorMonths.calcDynamicMonthlyGoal now input stored)).
      exact Hpos. }
    split.
    { unfold PriorMonths.calcDynamicMonthlyGoal. cbv zeta.
      rewrite Hmonths, Hstored, or_zero_eq.
      change (PriorMonths.calcPriorMonthsNetThisYear now stored)
        with (PriorMonths.calcPriorMonthsNetThisYear now data).
      field. apply months_nonzero. exact Hmonths. }
    split.
    { apply (proj1 (preview_cases YearToDate.calcDynamicMonthlyGoal now input stored)).
      exact Hpos. }
    unfold YearToDate.calcDynamicMonthlyGoal, YearToDate.calcRemainingAnnual. cbv zeta.
    rewrite Hmonths, Hstored, or_zero_eq.
    change (YearToDate.calcYearToDateNet now stored)
      with (YearToDate.calcYearToDateNet now data).
    field. apply months_nonzero. exact Hmonths.
Qed.

End SettingsPreview.

Lemma updateSettingsMonthlyDisplay_preview_witness :
  let now := first_of_month 2024 2 in
  let unset := with_settings {| annualBudget := 0 |} marchLedger in
  PriorMonthsView.updateSettingsMonthlyDisplay now (JS.Finite 12000) unset
  = Amount (12000 / 10)%Q
  ∧ (PriorMonths.calcDynamicMonthlyGoal now
       (with_settings {| annualBudget := 12000 |} unset)
     == 12000 / 10 - PriorMonths.calcPriorMonthsNetThisYear now unset / 10)%Q
  ∧ PriorMonths.calcPriorMonthsNetThisYear now unset = (-(1885))%Q.
Proof.
  intros now unset.
  destruct (proj2 (proj2 (proj2 (updateSettingsMonthlyDisplay_preview now
                                   (JS.Finite 12000) unset)))
              ltac:(vm_compute; discriminate) 12000%Q eq_refl ltac:(reflexivity)
              ltac:(reflexivity))
    as (Hshown & _ & _ & Hgoal & _).
  split; [exact Hshown|]. split; [exact Hgoal|]. vm_compute. reflexivity.
Defined.

(** ** The rollover and the year *)

Section RolloverYear.
Local Open Scope Q_scope.

Lemma prior_year_net now data :
  PriorMonths.calcPriorMonthsNetThisYear now data
  == year_net (JS.toString (CURRENT_YEAR now)) (map_to_list (history data)).
Proof.
  unfold PriorMonths.calcPriorMonthsNetThisYear. cbv zeta. rewrite map_fold_foldr.
  induction (map_to_list (history data)) as [|[key bucket] l IH]; simpl.
  - reflexivity.
  - destruct (JS.startsWith key (JS.toString (CURRENT_YEAR now))); [|exact IH].
    rewrite tally_fold, IH. reflexivity.
Qed.

Lemma year_net_perm y l l' : l ≡ₚ l' → year_net y l == year_net y l'.
Proof.
  induction 1 as [|[k b] l l' _ IH|[k1 b1] [k2 b2] l|l1 l2 l3 _ IH1 _ IH2]; simpl.
  - reflexivity.
  - destruct (JS.startsWith k y); rewrite IH; reflexivity.
  - destruct (JS.startsWith k1 y), (JS.startsWith k2 y); ring.
  - rewrite IH1. exact IH2.
Qed.

Lemma year_net_insert y key bucket (h : gmap string MonthBucket.t) :
  h !! key = None →
  year_net y (map_to_list (<[key := bucket]> h))
  == (if JS.startsWith key y then Spec.netOf (MonthBucket.transactions bucket) else 0)
     + year_net y (map_to_list h).
Proof.
  intros Hnone. rewrite (year_net_perm _ _ _ (map_to_list_insert h key bucket Hnone)).
  simpl. destruct (JS.startsWith key y); ring.
Qed.

Lemma year_net_delete y key (h : gmap string MonthBucket.t) :
  JS.startsWith key y = false →
  year_net y (map_to_list (delete key h)) == year_net y (map_to_list h).
Proof.
  intros Hno. destruct (h !! key) as [b|] eqn:E.
  - rewrite <- (year_net_perm _ _ _ (map_to_list_delete h key b E)).
    simpl. rewrite Hno. reflexivity.
  - rewrite delete_id by exact E. reflexivity.
Qed.

Lemma year_net_prune y lastYear keys : ∀ h : gmap string MonthBucket.t,
  (∀ key, key ∈ keys → year_before key lastYear = true → JS.startsWith key y = false) →
  year_net y (map_to_list (prune_keys lastYear keys h)) == year_net y (map_to_list h).
Proof.
  induction keys as [|k keys IH]; intros h Hkeys; [reflexivity|].
  unfold prune_keys in *. simpl foldl.
  rewrite IH by (intros key Hin; apply Hkeys; apply list_elem_of_further; exact Hin).
  destruct (year_before k lastYear) eqn:E; [|reflexivity].
  apply year_net_delete. apply Hkeys; [apply list_elem_of_here | exact E].
Qed.

Lemma year_net_none y l :
  Forall (λ kb : string * MonthBucket.t, JS.startsWith kb.1 y = false) l →
  year_net y l = 0.
Proof.
  induction 1 as [|[k b] l Hk _ IH]; simpl; [reflexivity|].
  simpl in Hk. rewrite Hk. exact IH.
Qed.

(** A key of another year does not start with the text of this year. *)
Lemma other_year key y y' :
  year_keyed key = true → (1000 <= y <= 9999)%Z →
  yearOf key = Some y' → y' ≠ y → JS.startsWith key (JS.toString y) = false.
Proof.
  intros Hk Hy Hyear Hne. rewrite (startsWith_year key y Hk Hy), Hyear.
  apply Z.eqb_neq. exact Hne.
Qed.

Lemma this_year key y :
  year_keyed key = true → (1000 <= y <= 9999)%Z →
  yearOf key = Some y → JS.startsWith key (JS.toString y) = true.
Proof.
  intros Hk Hy Hyear. rewrite (startsWith_year key y Hk Hy), Hyear.
  apply Z.eqb_refl.
Qed.

Lemma pruned_not_this_year key y :
  year_keyed key = true → (1000 <= y <= 9999)%Z →
  year_before key (y - 1) = true → JS.startsWith key (JS.toString y) = false.
Proof.
  intros Hk Hy Hb. unfold year_before in Hb.
  destruct (yearOf key) as [y'|] eqn:E; [|discriminate Hb].
  apply Z.ltb_lt in Hb. apply (other_year key y y' Hk Hy E). lia.
Qed.

Variable calcDynamicMonthlyGoal : Date → LedgerState → Q.

(** The prior months of the year after a rollover within the year: the
    month that closed is one of them. *)
Lemma rollover_prior now data :
  valid_date now →
  (∀ key, is_Some (history data !! key) → year_keyed key = true) →
  year_keyed (currentMonth data) = true →
  yearOf (currentMonth data) = Some (getFullYear now) →
  currentMonth data ≠ CURRENT_MONTH_KEY now →
  history data !! currentMonth data = None →
  PriorMonths.calcPriorMonthsNetThisYear now
    (checkMonthlyReset_with calcDynamicMonthlyGoal now data)
  == PriorMonths.calcPriorMonthsNetThisYear now data
     + (calcMonthSpent data - calcMonthIncome data).
Proof.
  intros [_ Hy] Hkeys Hcur Hyear Hne Hnone.
  rewrite !prior_year_net. unfold checkMonthlyReset_with.
  destruct (String.eqb (currentMonth data) (CURRENT_MONTH_KEY now)) eqn:E.
  { apply String.eqb_eq in E. contradiction. }
  cbv zeta. unfold archiveMonth.
  assert (Htruthy : JS.truthy (currentMonth data) = true).
  { destruct (currentMonth data); [discriminate Hcur | reflexivity]. }
  rewrite Htruthy. cbn [negb].
  unfold pruneOldHistory, CURRENT_YEAR.
  cbn [history with_history with_currentMonth with_transactions].
  rewrite year_net_prune.
  - rewrite year_net_insert by exact Hnone.
    rewrite (this_year _ _ Hcur Hy Hyear). cbn [MonthBucket.transactions].
    rewrite currentNet_netOf. ring.
  - intros key Hin Hb. apply pruned_not_this_year; [|exact Hy | exact Hb].
    apply elem_of_Object_keys in Hin.
    destruct (decide (key = currentMonth data)) as [->|Hk]; [exact Hcur|].
    rewrite lookup_insert_ne in Hin by congruence. apply Hkeys. exact Hin.
Qed.

Lemma rollover_state now data :
  currentMonth data ≠ CURRENT_MONTH_KEY now →
  settings (checkMonthlyReset_with calcDynamicMonthlyGoal now data) = settings data
  ∧ calcMonthSpent (checkMonthlyReset_with calcDynamicMonthlyGoal now data) = 0
  ∧ calcMonthIncome (checkMonthlyReset_with calcDynamicMonthlyGoal now data) = 0.
Proof.
  intros Hne. unfold checkMonthlyReset_with.
  destruct (String.eqb (currentMonth data) (CURRENT_MONTH_KEY now)) eqn:E.
  { apply String.eqb_eq in E. contradiction. }
  cbv zeta. unfold archiveMonth.
  destruct (negb (JS.truthy (currentMonth data))); repeat split.
Qed.

(** The same after a rollover into a later year: no archived month is
    of the new year. *)
Lemma rollover_new_year now data :
  valid_date now →
  (∀ key, is_Some (history data !! key) →
          year_keyed key = true ∧ ∀ y, yearOf key = Some y → (y < getFullYear now)%Z) →
  year_keyed (currentMonth data) = true →
  (∀ y, yearOf (currentMonth data) = Some y → (y < getFullYear now)%Z) →
  PriorMonths.calcPriorMonthsNetThisYear now
    (checkMonthlyReset_with calcDynamicMonthlyGoal now data) == 0.
Proof.
  intros [_ Hy] Hkeys Hcur Hyear.
  rewrite prior_year_net, year_net_none; [reflexivity|].
  apply Forall_forall. intros [key bucket] Hin. cbn [fst].
  apply elem_of_map_to_list in Hin.
  assert (Hold : year_keyed key = true ∧ ∀ y, yearOf key = Some y → (y < getFullYear now)%Z).
  { assert (Hne : currentMonth data ≠ CURRENT_MONTH_KEY now).
    { intros Heq. specialize (Hyear (getFullYear now)).
      rewrite Heq in Hyear.
      assert (Hkey : yearOf (CURRENT_MONTH_KEY now) = Some (getFullYear now))
        by (apply (yearOf_toString (getFullYear now)); lia).
      specialize (Hyear Hkey). lia. }
    destruct (checkMonthlyReset_rolls calcDynamicMonthlyGoal now data Hne) as (_ & _ & Hh).
    rewrite Hh in Hin.
    destruct (year_before key (getFullYear now - 1)); [discriminate Hin|].
    destruct (JS.truthy (currentMonth data) && String.eqb key (currentMonth data)) eqn:Ek.
    - apply andb_prop in Ek as [_ Ek]. apply String.eqb_eq in Ek as ->.
      split; assumption.
    - apply Hkeys. exists bucket. exact Hin. }
  destruct Hold as [Hk Hlt]. unfold CURRENT_YEAR.
  unfold year_keyed in Hk. destruct (yearOf key) as [y'|] eqn:E; [|discriminate Hk].
  apply (other_year key (getFullYear now) y'); [|exact Hy | exact E |].
  - unfold year_keyed. rewrite E. exact Hk.
  - specialize (Hlt y' eq_refl). lia.
Qed.

End RolloverYear.

Section RolloverBudget.
Local Open Scope Q_scope.
Variable goalOf : Date → LedgerState → Q.

Lemma valid_months now :
  valid_date now → (calcMonthsRemainingInYear now <=? 0)%Z = false.
Proof.
  intros [Hm _]. apply Z.leb_gt. unfold calcMonthsRemainingInYear. lia.
Qed.

Lemma rollover_budget now data :
  valid_date now →
  currentMonth data ≠ CURRENT_MONTH_KEY now →
  let data' := checkMonthlyReset_with goalOf now data in
  let prior' := PriorMonths.calcPriorMonthsNetThisYear now data' in
  let months := inject_Z (calcMonthsRemainingInYear now) in
  PriorMonths.calcRemainingAnnual now data' == annualBudget (settings data) - prior'
  ∧ YearToDate.calcRemainingAnnual now data' == annualBudget (settings data) - prior'
  ∧ PriorMonths.calcDynamicMonthlyGoal now data'
    == (annualBudget (settings data) - prior') / months
  ∧ YearToDate.calcDynamicMonthlyGoal now data'
    == (annualBudget (settings data) - prior') / months
  ∧ PriorMonths.calcMonthlyRemaining now data'
    == (annualBudget (settings data) - prior') / months
  ∧ YearToDate.calcMonthlyRemaining now data'
    == (annualBudget (settings data) - prior') / months.
Proof.
  intros Hnow Hne data' prior' months. subst data' prior' months.
  destruct (rollover_state goalOf now data Hne) as (Hset & Hspent & Hincome).
  pose proof (valid_months now Hnow) as Hm.
  set (data' := checkMonthlyReset_with goalOf now data) in *.
  assert (Hannual : PriorMonths.calcRemainingAnnual now data'
                    == annualBudget (settings data)
                       - PriorMonths.calcPriorMonthsNetThisYear now data').
  { unfold PriorMonths.calcRemainingAnnual. cbv zeta.
    rewrite Hset, Hspent, Hincome, or_zero_eq. ring. }
  assert (Hgoal : PriorMonths.calcDynamicMonthlyGoal now data'
                  == (annualBudget (settings data)
                      - PriorMonths.calcPriorMonthsNetThisYear now data')
                     / inject_Z (calcMonthsRemainingInYear now)).
  { unfold PriorMonths.calcDynamicMonthlyGoal. cbv zeta.
    rewrite Hm, Hset, or_zero_eq. reflexivity. }
  assert (Hygoal : YearToDate.calcDynamicMonthlyGoal now data'
                   == PriorMonths.calcDynamicMonthlyGoal now data').
  { rewrite goal_compared, Hm, Hspent, Hincome. field.
    apply months_nonzero. exact Hm. }
  split; [exact Hannual|].
  split; [rewrite remainingAnnual_same; exact Hannual|].
  split; [exact Hgoal|].
  split; [rewrite Hygoal; exact Hgoal|].
  split.
  - unfold PriorMonths.calcMonthlyRemaining. cbv zeta.
    rewrite Hspent, Hincome, Hgoal. ring.
  - unfold YearToDate.calcMonthlyRemaining. cbv zeta.
    rewrite Hspent, Hincome, Hygoal, Hgoal. ring.
Qed.

Lemma rollover_archived now data :
  JS.truthy (currentMonth data) = true →
  currentMonth data ≠ CURRENT_MONTH_KEY now →
  year_before (currentMonth data) (getFullYear now - 1) = false →
  history (checkMonthlyReset_with goalOf now data) !! currentMonth data
  = Some (MonthBucket.mk (JS.or_zero (goalOf now data)) (transactions data)).
Proof.
  intros Htruthy Hne Hkept.
  destruct (checkMonthlyReset_rolls goalOf now data Hne) as (_ & _ & Hh).
  rewrite Hh, Hkept, Htruthy, String.eqb_refl. reflexivity.
Qed.

End RolloverBudget.

(** X16: a rollover within the year, of a month that has no archive yet,
    conserves the remaining annual budget in both scripts: the closed
    month becomes one of the prior months of the year.  In the second
    script the goal of the new month is the goal written into the archive
    of the closed month; in the first the new goal is the archived one
    less the net spend of the closed month divided by the months that
    remain. *)
Theorem rollover_within_year now data :
  valid_date now →
  (∀ key, is_Some (history data !! key) → year_keyed key = true) →
  year_keyed (currentMonth data) = true →
  yearOf (currentMonth data) = Some (getFullYear now) →
  currentMonth data ≠ CURRENT_MONTH_KEY now →
  history data !! currentMonth data = None →
  let first := PriorMonths.checkMonthlyReset now data in
  let second := YearToDate.checkMonthlyReset now data in
  let closedNet := (calcMonthSpent data - calcMonthIncome data)%Q in
  let months := inject_Z (calcMonthsRemainingInYear now) in
  (PriorMonths.calcRemainingAnnual now first == PriorMonths.calcRemainingAnnual now data
   ∧ YearToDate.calcRemainingAnnual now second == YearToDate.calcRemainingAnnual now data
   ∧ (∃ archived, goal_at (currentMonth data) second = Some archived
                  ∧ YearToDate.calcDynamicMonthlyGoal now second == archived)
   ∧ (∃ archived, goal_at (currentMonth data) first = Some archived
                  ∧ PriorMonths.calcDynamicMonthlyGoal now first
                    == archived - closedNet / months))%Q.
Proof.
  intros Hnow Hkeys Hcur Hyear Hne Hnone first second closedNet months.
  subst first second closedNet months.
  unfold PriorMonths.checkMonthlyReset, YearToDate.checkMonthlyReset.
  pose proof (valid_months now Hnow) as Hm.
  pose proof (months_nonzero now Hm) as Hnz.
  assert (Htruthy : JS.truthy (currentMonth data) = true).
  { destruct (currentMonth data); [discriminate Hcur | reflexivity]. }
  assert (Hkept : year_before (currentMonth data) (getFullYear now - 1) = false).
  { unfold year_before. rewrite Hyear. apply Z.ltb_ge. lia. }
  destruct (rollover_budget PriorMonths.calcDynamicMonthlyGoal now data Hnow Hne)
    as (Pannual & _ & Pgoal & _).
  destruct (rollover_budget YearToDate.calcDynamicMonthlyGoal now data Hnow Hne)
    as (_ & Yannual & _ & Ygoal & _).
  rewrite (rollover_prior PriorMonths.calcDynamicMonthlyGoal now data
             Hnow Hkeys Hcur Hyear Hne Hnone) in Pannual, Pgoal.
  rewrite (rollover_prior YearToDate.calcDynamicMonthlyGoal now data
             Hnow Hkeys Hcur Hyear Hne Hnone) in Yannual, Ygoal.
  assert (Hbefore : (PriorMonths.calcDynamicMonthlyGoal now data
                     == (annualBudget (settings data)
                         - PriorMonths.calcPriorMonthsNetThisYear now data)
                        / inject_Z (calcMonthsRemainingInYear now))%Q).
  { unfold PriorMonths.calcDynamicMonthlyGoal. cbv zeta.
    rewrite Hm, or_zero_eq. reflexivity. }
  split; [|split; [|split]].
  - rewrite Pannual. unfold PriorMonths.calcRemainingAnnual. cbv zeta.
    rewrite or_zero_eq. ring.
  - rewrite Yannual, remainingAnnual_same. unfold PriorMonths.calcRemainingAnnual.
    cbv zeta. rewrite or_zero_eq. ring.
  - eexists. split.
    + unfold goal_at.
      rewrite (rollover_archived YearToDate.calcDynamicMonthlyGoal now data
                 Htruthy Hne Hkept). reflexivity.
    + cbn [MonthBucket.goal]. rewrite or_zero_eq, Ygoal, goal_compared, Hm, Hbefore.
      field. exact Hnz.
  - eexists. split.
    + unfold goal_at.
      rewrite (rollover_archived PriorMonths.calcDynamicMonthlyGoal now data
                 Htruthy Hne Hkept). reflexivity.
    + cbn [MonthBucket.goal]. rewrite or_zero_eq, Pgoal, Hbefore.
      field. exact Hnz.
Qed.

Lemma rollover_within_year_witness :
  (YearToDate.calcRemainingAnnual (first_of_month 2024 1)
     (YearToDate.checkMonthlyReset (first_of_month 2024 1) januaryLedger)
   == YearToDate.calcRemainingAnnual (first_of_month 2024 1) januaryLedger)%Q.
Proof.
  apply (rollover_within_year (first_of_month 2024 1) januaryLedger).
  - vm_compute. repeat split; discriminate.
  - intros key [b Hb]. cbn in Hb. rewrite lookup_empty in Hb. discriminate Hb.
  - vm_compute. reflexivity.
  - vm_compute. reflexivity.
  - vm_compute. discriminate.
  - reflexivity.
Defined.

(** X17: a rollover into a later year starts the year afresh: no
    archived month counts, the remaining annual budget is the whole
    annual budget, and the goal of the month and what remains of it are
    the annual budget divided by the months that remain, in both
    scripts; what was overspent or saved the year before is not carried
    over. *)
Theorem rollover_into_new_year now data :
  valid_date now →
  (∀ key, is_Some (history data !! key) →
          year_keyed key = true ∧ ∀ y, yearOf key = Some y → (y < getFullYear now)%Z) →
  year_keyed (currentMonth data) = true →
  (∀ y, yearOf (currentMonth data) = Some y → (y < getFullYear now)%Z) →
  let months := inject_Z (calcMonthsRemainingInYear now) in
  let afresh (remainingAnnual goal remaining : Q) :=
    (remainingAnnual == annualBudget (settings data)
     ∧ goal == annualBudget (settings data) / months
     ∧ remaining == annualBudget (settings data) / months)%Q in
  afresh (PriorMonths.calcRemainingAnnual now (PriorMonths.checkMonthlyReset now data))
         (PriorMonths.calcDynamicMonthlyGoal now (PriorMonths.checkMonthlyReset now data))
         (PriorMonths.calcMonthlyRemaining now (PriorMonths.checkMonthlyReset now data))
  ∧ afresh (YearToDate.calcRemainingAnnual now (YearToDate.checkMonthlyReset now data))
           (YearToDate.calcDynamicMonthlyGoal now (YearToDate.checkMonthlyReset now data))
           (YearToDate.calcMonthlyRemaining now (YearToDate.checkMonthlyReset now data)).
Proof.
  intros Hnow Hkeys Hcur Hyear months afresh. subst months afresh. cbv beta.
  unfold PriorMonths.checkMonthlyReset, YearToDate.checkMonthlyReset.
  pose proof (months_nonzero now (valid_months now Hnow)) as Hnz.
  assert (Hne : currentMonth data ≠ CURRENT_MONTH_KEY now).
  { intros Heq. specialize (Hyear (getFullYear now)). rewrite Heq in Hyear.
    assert (Hkey : yearOf (CURRENT_MONTH_KEY now) = Some (getFullYear now))
      by (apply (yearOf_toString (getFullYear now)); destruct Hnow; lia).
    specialize (Hyear Hkey). lia. }
  destruct (rollover_budget PriorMonths.calcDynamicMonthlyGoal now data Hnow Hne)
    as (Pannual & _ & Pgoal & _ & Prem & _).
  destruct (rollover_budget YearToDate.calcDynamicMonthlyGoal now data Hnow Hne)
    as (_ & Yannual & _ & Ygoal & _ & Yrem).
  rewrite (rollover_new_year PriorMonths.calcDynamicMonthlyGoal now data
             Hnow Hkeys Hcur Hyear) in Pannual, Pgoal, Prem.
  rewrite (rollover_new_year YearToDate.calcDynamicMonthlyGoal now data
             Hnow Hkeys Hcur Hyear) in Yannual, Ygoal, Yrem.
  repeat split.
  - rewrite Pannual. ring.
  - rewrite Pgoal. field. exact Hnz.
  - rewrite Prem. field. exact Hnz.
  - rewrite Yannual. ring.
  - rewrite Ygoal. field. exact Hnz.
  - rewrite Yrem. field. exact Hnz.
Qed.

Lemma rollover_into_new_year_witness :
  (PriorMonths.calcDynamicMonthlyGoal (first_of_month 2025 0)
     (PriorMonths.checkMonthlyReset (first_of_month 2025 0) marchLedger)
   == annualBudget (settings marchLedger) / 12)%Q.
Proof.
  apply (rollover_into_new_year (first_of_month 2025 0) marchLedger).
  - vm_compute. repeat split; discriminate.
  - intros key [b Hb]. cbn [history marchLedger] in Hb.
    apply lookup_singleton_Some in Hb as [<- _].
    split; [vm_compute; reflexivity|].
    intros y Hy. vm_compute in Hy. injection Hy as <-. reflexivity.
  - vm_compute. reflexivity.
  - intros y Hy. vm_compute in Hy. injection Hy as <-. reflexivity.
Defined.

(** ** Where the transactions go at a rollover *)

Section RolloverBuckets.
Variable goalOf : Date → LedgerState → Q.

Lemma rollover_bucket_txs now data :
  currentMonth data ≠ CURRENT_MONTH_KEY now →
  let data' := checkMonthlyReset_with goalOf now data in
  bucket_txs None data' = []
  ∧ ∀ key,
      bucket_txs (Some key) data'
      = if year_before key (getFullYear now - 1) then []
        else if JS.truthy (currentMonth data) && String.eqb key (currentMonth data)
        then transactions data
        else bucket_txs (Some key) data.
Proof.
  intros Hne data'. subst data'.
  destruct (checkMonthlyReset_rolls goalOf now data Hne) as (_ & Htxs & Hh).
  split; [exact Htxs|].
  intros key. cbn [bucket_txs]. rewrite Hh.
  destruct (year_before key (getFullYear now - 1)); [reflexivity|].
  destruct (JS.truthy (currentMonth data) && String.eqb key (currentMonth data));
    reflexivity.
Qed.

End RolloverBuckets.



(** ** An edit that stays in its bucket *)

Section EditInPlace.
Local Open Scope Q_scope.

Lemma find_update_found id u txs t :
  find_tx id txs = Some t → Transaction.id u = id →
  find_tx id (update_found id (λ _, u) txs) = Some u.
Proof.
  unfold find_tx. intros Hfind Hu.
  induction txs as [|x txs IH]; simpl in *; [discriminate Hfind|].
  destruct (String.eqb (Transaction.id x) id) eqn:E; simpl.
  - rewrite Hu, String.eqb_refl. reflexivity.
  - rewrite E. apply IH. exact Hfind.
Qed.

Lemma remove_update_found id u txs :
  Transaction.id u = id →
  remove_tx id (update_found id (λ _, u) txs) = remove_tx id txs.
Proof.
  intros Hu. unfold remove_tx.
  induction txs as [|x txs IH]; simpl; [reflexivity|].
  destruct (String.eqb (Transaction.id x) id) eqn:E; simpl.
  - rewrite Hu, String.eqb_refl. reflexivity.
  - rewrite E. simpl. rewrite IH. reflexivity.
Qed.

Lemma bucket_txs_assign_in_source src id u data b :
  bucket_txs b (PriorMonths.assign_in_source src id u data)
  = if decide (b = src_bucket src)
    then update_found id (λ _, u) (bucket_txs b data)
    else bucket_txs b data.
Proof.
  unfold PriorMonths.assign_in_source.
  destruct (src_bucket_cases src) as [[Ht [k [-> [Hk [Hs Hkey]]]]] | [Ht [Hs Hkey]]];
    rewrite Ht, Hs.
  - rewrite Hkey. destruct b as [k'|]; cbn [bucket_txs history with_history transactions].
    + destruct (decide (Some k' = Some k)) as [[= ->]|Hne].
      * rewrite lookup_alter_eq. destruct (history data !! k); reflexivity.
      * rewrite lookup_alter_ne by congruence. reflexivity.
    + destruct (decide (None = Some k)); [discriminate|reflexivity].
  - destruct b as [k'|]; cbn [bucket_txs history with_transactions transactions].
    + destruct (decide (Some k' = None)); [discriminate|reflexivity].
    + destruct (decide (@None string = None)); [reflexivity|contradiction].
Qed.

Lemma goal_at_assign_in_source src id u data key :
  goal_at key (PriorMonths.assign_in_source src id u data) = goal_at key data.
Proof.
  unfold PriorMonths.assign_in_source, goal_at.
  destruct (truthy_key src); [|reflexivity].
  cbn [history with_history].
  destruct (decide (key_or src "" = key)) as [<-|Hne].
  - rewrite lookup_alter_eq. destruct (history data !! key_or src ""); reflexivity.
  - rewrite lookup_alter_ne by exact Hne. reflexivity.
Qed.

Lemma saveEditTx_staying form src data id raw srcTx :
  editingTxId form = Some id → JS.truthy id = true →
  editAmount form = JS.Finite raw → 0 < raw →
  find_tx id (bucket_txs (src_bucket src) data) = Some srcTx →
  (JS.truthy (editDate form) = true →
   JS.slice0 7 (editDate form) = key_or src (currentMonth data)) →
  PriorMonths.saveEditTx form src data
  = Some (PriorMonths.assign_in_source src id
            (updatedTx_of srcTx (editDate form) (edit_amount form raw)
                          (edit_description form))
            data,
          Some ToastUpdated).
Proof.
  intros Hid Htid Hraw Hpos Hfind Hstay.
  unfold PriorMonths.saveEditTx. rewrite Hid. cbn [falsy_id default]. rewrite Htid.
  cbn [negb]. unfold Datatypes.id. rewrite Hraw.
  rewrite (positive_not_refused raw Hpos). cbv zeta. rewrite edit_source, Hfind.
  assert (Hdest : (if JS.truthy (editDate form) then JS.slice0 7 (editDate form)
                   else key_or src (currentMonth data)) = key_or src (currentMonth data)).
  { destruct (JS.truthy (editDate form)); [apply Hstay|]; reflexivity. }
  rewrite Hdest, String.eqb_refl. reflexivity.
Qed.

(** X19: an edit whose date stays in the month of its bucket (or is
    left empty) changes the found transaction where it stands: the id and
    the time stay, the date is the new one if given, the amount is the
    rounded input with the sign of the type, the description the trimmed
    input or the name of the type.  The list is not sorted again, so the
    order of the ids in every bucket is as before; no other transaction,
    no other bucket and no goal changes.  In the second script the same
    holds for the current month. *)
Theorem saveEditTx_in_place form src data id raw srcTx :
  editingTxId form = Some id → JS.truthy id = true →
  editAmount form = JS.Finite raw → 0 < raw →
  find_tx id (bucket_txs (src_bucket src) data) = Some srcTx →
  (JS.truthy (editDate form) = true →
   JS.slice0 7 (editDate form) = key_or src (currentMonth data)) →
  ∃ data',
    PriorMonths.saveEditTx form src data = Some (data', Some ToastUpdated)
    ∧ (∃ u, find_tx id (bucket_txs (src_bucket src) data') = Some u
            ∧ Transaction.id u = Transaction.id srcTx
            ∧ Transaction.time u = Transaction.time srcTx
            ∧ Transaction.date u = (if JS.truthy (editDate form) then editDate form
                                    else Transaction.date srcTx)
            ∧ Transaction.amount u = (if editIsIncome form then JS.toFixed2 raw
                                      else - JS.toFixed2 raw)
            ∧ Transaction.description u
              = JS.or_else (JS.trim (editDescription form))
                           (if editIsIncome form then "Income" else "Expense")%string)
    ∧ (∀ bucket, ids (bucket_txs bucket data') = ids (bucket_txs bucket data))
    ∧ remove_tx id (bucket_txs (src_bucket src) data')
      = remove_tx id (bucket_txs (src_bucket src) data)
    ∧ (∀ bucket, bucket ≠ src_bucket src →
                 bucket_txs bucket data' = bucket_txs bucket data)
    ∧ (∀ key, goal_at key data' = goal_at key data)
    ∧ settings data' = settings data
    ∧ currentMonth data' = currentMonth data
    ∧ (src = None →
       YearToDate.saveEditTx form data = Some (data', Some ToastUpdated)).
Proof.
  intros Hid Htid Hraw Hpos Hfind Hstay.
  eexists. split;
    [exact (saveEditTx_staying form src data id raw srcTx Hid Htid Hraw Hpos Hfind Hstay)|].
  set (u := updatedTx_of srcTx (editDate form) (edit_amount form raw) (edit_description form)).
  destruct (find_tx_Some _ _ _ Hfind) as [Hsrc _].
  assert (Hu : Transaction.id u = id) by exact Hsrc.
  split.
  { exists u. split.
    - rewrite bucket_txs_assign_in_source.
      destruct (decide (src_bucket src = src_bucket src)); [|contradiction].
      apply (find_update_found _ _ _ srcTx Hfind Hu).
    - subst u. unfold updatedTx_of, edit_amount, edit_description, JS.or_else at 1.
      cbn [Transaction.id Transaction.time Transaction.date Transaction.amount
           Transaction.description].
      rewrite or_else_empty. repeat split. }
  split; [intros bucket; apply ids_assign_in_source; exact Hu|].
  split.
  { rewrite bucket_txs_assign_in_source.
    destruct (decide (src_bucket src = src_bucket src)); [|contradiction].
    apply remove_update_found. exact Hu. }
  split.
  { intros bucket Hne. rewrite bucket_txs_assign_in_source.
    destruct (decide (bucket = src_bucket src)); [contradiction | reflexivity]. }
  split; [intros key; apply goal_at_assign_in_source|].
  split; [unfold PriorMonths.assign_in_source; destruct (truthy_key src); reflexivity|].
  split; [unfold PriorMonths.assign_in_source; destruct (truthy_key src); reflexivity|].
  intros ->. rewrite YearToDate_saveEditTx.
  apply (saveEditTx_staying form None data id raw srcTx Hid Htid Hraw Hpos Hfind Hstay).
Qed.

Lemma saveEditTx_in_place_witness :
  let form := {| editingTxId := Some "ls3kk55jj4h3"%string;
                 editAmount := JS.Finite (2100 # 1);
                 editDescription := " Salary ";
                 editDate := "2024-02-28";
                 editIsIncome := true |} in
  ∃ data',
    PriorMonths.saveEditTx form (Some "2024-02"%string) marchLedger
    = Some (data', Some ToastUpdated)
    ∧ ids (bucket_txs (Some "2024-02"%string) data')
      = ids (bucket_txs (Some "2024-02"%string) marchLedger).
Proof.
  intros form.
  destruct (saveEditTx_in_place form (Some "2024-02"%string) marchLedger "ls3kk55jj4h3"
              (2100 # 1)
              (Transaction.mk "ls3kk55jj4h3" "2024-02-02" "19:40" (2000) "Salary")
              eq_refl eq_refl eq_refl eq_refl eq_refl (λ _, eq_refl))
    as (data' & Hres & _ & Hids & _).
  exists data'. split; [exact Hres | apply Hids].
Defined.

End EditInPlace.

(** ** Deleting from the edit sheet *)



(** ** Amounts stay in cents *)

Section Cents.
Local Open Scope Q_scope.

Lemma in_cents_signed raw (income : bool) :
  0 < raw → in_cents (if income then JS.toFixed2 raw else - JS.toFixed2 raw).
Proof.
  intros Hraw. unfold in_cents.
  destruct (Qabs_toFixed2 raw Hraw) as [Hpos Hneg].
  destruct income; [rewrite Hpos | rewrite Hneg]; apply toFixed2_idem.
Qed.

Lemma positive_input raw : Qle_bool raw 0 = false → 0 < raw.
Proof.
  intros H. apply Qnot_le_lt. intros Hle%Qle_bool_iff. congruence.
Qed.

Lemma cents_sub data data' :
  (∀ bucket t, t ∈ bucket_txs bucket data' → t ∈ bucket_txs bucket data) →
  cents_everywhere data → cents_everywhere data'.
Proof.
  intros Hsub Hc bucket t Hin. exact (Hc bucket t (Hsub bucket t Hin)).
Qed.

Lemma elem_of_remove_tx id txs (t : Transaction.t) : t ∈ remove_tx id txs → t ∈ txs.
Proof.
  unfold remove_tx. intros H. apply list_elem_of_In in H. apply filter_In in H.
  apply list_elem_of_In. tauto.
Qed.

Lemma elem_of_update_found id u txs (t : Transaction.t) :
  t ∈ update_found id (λ _, u) txs → t = u ∨ t ∈ txs.
Proof.
  induction txs as [|x txs IH]; simpl; [auto|].
  destruct (String.eqb (Transaction.id x) id).
  - rewrite !elem_of_cons. tauto.
  - rewrite !elem_of_cons. intros [->|H]; [auto|].
    destruct (IH H); auto.
Qed.

Lemma elem_of_unshift_sorted u txs l (t : Transaction.t) :
  unshift_sorted u txs = Some l → t ∈ l → t = u ∨ t ∈ txs.
Proof.
  intros Hl. destruct (unshift_sorted_spec u txs l Hl) as [Hperm _].
  rewrite Hperm. apply elem_of_cons.
Qed.

Lemma finite_positive raw r :
  JS.refused raw = false → JS.finite raw = Some r → 0 < r.
Proof.
  destruct raw; try discriminate. cbn. intros H [= <-]. apply positive_input. exact H.
Qed.

Lemma cents_emptyData now : cents_everywhere (emptyData now).
Proof.
  intros [key|] t; cbn; [rewrite lookup_empty|]; intros H; inversion H.
Qed.

Lemma cents_addTransaction now newId raw descriptionInput isIncomeMode data data' toast :
  addTransaction now newId raw descriptionInput isIncomeMode data = Some (data', toast) →
  cents_everywhere data → cents_everywhere data'.
Proof.
  intros Hres Hc. unfold addTransaction in Hres.
  destruct (JS.refused raw) eqn:E; [injection Hres as <- _; exact Hc|].
  destruct (JS.finite raw) as [r|] eqn:Er; [|discriminate Hres].
  cbv zeta in Hres. injection Hres as <- _. intros [key|] t.
  - apply (Hc (Some key)).
  - cbn [bucket_txs transactions with_transactions]. rewrite elem_of_cons.
    intros [->|H]; [|exact (Hc None t H)].
    cbn [Transaction.amount]. apply in_cents_signed, (finite_positive raw r E Er).
Qed.

Lemma cents_deleteTransaction id monthKey data :
  cents_everywhere data → cents_everywhere (PriorMonths.deleteTransaction id monthKey data).
Proof.
  destruct (PriorMonths.inherited_key monthKey (history data)) eqn:Hin.
  { rewrite (deleteTransaction_thrown id monthKey data Hin). auto. }
  apply cents_sub. intros bucket t.
  destruct (bucket_at monthKey (history data)) as [b|] eqn:E.
  - apply bucket_at_Some in E as [k [-> [Hk Hb]]].
    rewrite (deleteTransaction_bucket id k b data Hk Hb).
    destruct bucket as [key|]; cbn [bucket_txs history with_history transactions]; [|auto].
    destruct (decide (k = key)) as [<-|Hne].
    + rewrite lookup_insert_eq, Hb. cbn. apply elem_of_remove_tx.
    + rewrite lookup_insert_ne by exact Hne. auto.
  - rewrite (deleteTransaction_current id monthKey data E Hin).
    destruct bucket as [key|]; cbn [bucket_txs history with_transactions transactions];
      [auto|]. apply elem_of_remove_tx.
Qed.

Lemma cents_checkMonthlyReset goalOf now data :
  cents_everywhere data → cents_everywhere (checkMonthlyReset_with goalOf now data).
Proof.
  intros Hc.
  destruct (String.eqb (currentMonth data) (CURRENT_MONTH_KEY now)) eqn:E.
  { apply String.eqb_eq in E. rewrite checkMonthlyReset_current by exact E. exact Hc. }
  apply String.eqb_neq in E.
  destruct (rollover_bucket_txs goalOf now data E) as [Hcur Hkey].
  intros [key|] t.
  - rewrite Hkey.
    destruct (year_before key (getFullYear now - 1)); [intros H; inversion H|].
    destruct (JS.truthy (currentMonth data) && String.eqb key (currentMonth data)).
    + apply (Hc None).
    + apply (Hc (Some key)).
  - rewrite Hcur. intros H; inversion H.
Qed.

(** What an edit does to the state, with the amount it writes. *)
Lemma saveEditTx_writes form src data data' toast :
  PriorMonths.saveEditTx form src data = Some (data', toast) →
  data' = data
  ∨ (∃ id, data' = PriorMonths.remove_from_source src id data)
  ∨ ∃ id u dest,
      in_cents (Transaction.amount u)
      ∧ ((PriorMonths.destination_throws dest
            (PriorMonths.remove_from_source src id data) = false
          ∧ PriorMonths.add_to_destination dest u
              (PriorMonths.remove_from_source src id data) = Some data')
         ∨ data' = PriorMonths.assign_in_source src id u data).
Proof.
  unfold PriorMonths.saveEditTx.
  destruct (falsy_id (editingTxId form)); [intros [= <- _]; left; reflexivity|].
  cbv zeta.
  destruct (JS.refused (editAmount form)) eqn:Eraw; [intros [= <- _]; left; reflexivity|].
  rewrite edit_source.
  set (id := default ""%string (editingTxId form)).
  destruct (find_tx id (bucket_txs (src_bucket src) data)) as [srcTx|];
    [|intros [= <- _]; left; reflexivity].
  assert (Hcents : ∀ raw, JS.finite (editAmount form) = Some raw →
            in_cents (Transaction.amount
                        (updatedTx_of srcTx (editDate form) (edit_amount form raw)
                                      (edit_description form)))).
  { intros raw Hraw. unfold updatedTx_of, edit_amount. cbn [Transaction.amount].
    apply in_cents_signed, (finite_positive _ raw Eraw Hraw). }
  match goal with |- context [negb (String.eqb ?d ?k)] =>
    set (dest := d); destruct (String.eqb dest k); cbn [negb] end.
  - destruct (JS.finite (editAmount form)) as [raw|]; [|discriminate].
    intros [= <- _]. right. right.
    exists id,
      (updatedTx_of srcTx (editDate form) (edit_amount form raw) (edit_description form)),
      dest.
    split; [apply Hcents; reflexivity | right; reflexivity].
  - destruct (PriorMonths.destination_throws dest
                (PriorMonths.remove_from_source src id data)) eqn:Hthrow.
    + intros [= <- _]. right. left. exists id. reflexivity.
    + destruct (JS.finite (editAmount form)) as [raw|]; [|discriminate].
      destruct (PriorMonths.add_to_destination dest _ _) as [d|] eqn:Hadd; [|discriminate].
      intros [= <- _]. right. right.
      exists id,
        (updatedTx_of srcTx (editDate form) (edit_amount form raw) (edit_description form)),
        dest.
      split; [apply Hcents; reflexivity | left; split; [exact Hthrow | exact Hadd]].
Qed.

Lemma cents_saveEditTx form src data data' toast :
  PriorMonths.saveEditTx form src data = Some (data', toast) →
  cents_everywhere data → cents_everywhere data'.
Proof.
  intros Hres Hc.
  assert (Hrem : ∀ id bucket t',
            t' ∈ bucket_txs bucket (PriorMonths.remove_from_source src id data) →
            in_cents (Transaction.amount t')).
  { intros id bucket t'. rewrite bucket_txs_remove_from_source.
    destruct (decide (bucket = src_bucket src)).
    - intros H. apply (Hc bucket), (elem_of_remove_tx _ _ _ H).
    - apply (Hc bucket). }
  destruct (saveEditTx_writes form src data data' toast Hres)
    as [-> | [[id ->] | (id & u & dest & Hu & [[Hthrow Hadd] | ->])]].
  - exact Hc.
  - intros bucket t. apply Hrem.
  - intros bucket t.
    destruct (bucket_txs_add_to_destination dest u _ data' bucket Hadd Hthrow)
      as (sorted & Hsorted & ->).
    destruct (decide (bucket = dest_bucket dest (PriorMonths.remove_from_source src id data)))
      as [->|].
    + intros [->|H]%(elem_of_unshift_sorted _ _ _ _ Hsorted);
        [exact Hu | exact (Hrem id _ t H)].
    + apply Hrem.
  - intros bucket t. rewrite bucket_txs_assign_in_source.
    destruct (decide (bucket = src_bucket src)).
    + intros [->|H]%elem_of_update_found; [exact Hu | exact (Hc bucket t H)].
    + apply (Hc bucket).
Qed.

Lemma cents_importData now imported confirmed data :
  (∀ c, imported = Some c → candidate_cents c) →
  cents_everywhere data →
  cents_everywhere (fst (importData now imported confirmed data)).
Proof.
  intros Hdoc Hc. unfold importData.
  destruct imported as [c|]; [|exact Hc].
  destruct (negb (is_truthy (c_settings c)) || is_undefined (c_transactions c)); [exact Hc|].
  destruct confirmed; [|exact Hc]. cbn [fst].
  apply (cents_sub (assign_imported now c)); [|apply (Hdoc c eq_refl)].
  intros [key|] t; [|auto]. unfold bucket_txs. rewrite pruneOldHistory_lookup.
  destruct (year_before key (getFullYear now - 1)); [intros H; inversion H | auto].
Qed.

End Cents.

(** X21: amounts stay in cents.  In every state reached from the empty
    state by adding (under any id), editing, deleting, rolling over and
    importing documents whose amounts are in cents, every amount of the
    current month and of the archive is a whole number of cents, for the
    additions and edits that store a finite amount and sort lists of
    YYYY-MM-DD dates only (an infinite input passes the guard and is
    stored as it is); such edits of the second script keep it so as well,
    and so do its delete and rollover, the delete button and clearing the
    data. *)
Theorem amounts_stay_in_cents :
  (∀ data, reachable candidate_cents any_id data → cents_everywhere data)
  ∧ (∀ data, cents_everywhere data →
       (∀ form data' toast,
          YearToDate.saveEditTx form data = Some (data', toast) → cents_everywhere data')
       ∧ (∀ id, cents_everywhere (YearToDate.deleteTransaction id data))
       ∧ (∀ now, cents_everywhere (YearToDate.checkMonthlyReset now data))
       ∧ (∀ id monthKey confirmed,
            cents_everywhere (confirmDeleteTx id monthKey confirmed data))
       ∧ (∀ now confirmed, cents_everywhere (confirmClearData now confirmed data))).
Proof.
  split.
  - intros data Hreach. induction Hreach as [now|data data' _ IH Hstep].
    + apply cents_emptyData.
    + destruct Hstep as [now newId raw descriptionInput isIncomeMode data' toast _ Hres
                        | form editingTxMonth data' toast Hres
                        | id monthKey
                        | now
                        | now imported confirmed Hdoc].
      * exact (cents_addTransaction _ _ _ _ _ _ _ _ Hres IH).
      * exact (cents_saveEditTx _ _ _ _ _ Hres IH).
      * apply cents_deleteTransaction. exact IH.
      * apply cents_checkMonthlyReset. exact IH.
      * apply cents_importData; assumption.
  - intros data Hc. split; [|split; [|split; [|split]]].
    + intros form data' toast Hres. rewrite YearToDate_saveEditTx in Hres.
      exact (cents_saveEditTx _ _ _ _ _ Hres Hc).
    + intros id. apply (cents_deleteTransaction id None data Hc).
    + intros now. apply cents_checkMonthlyReset. exact Hc.
    + intros id monthKey confirmed. unfold confirmDeleteTx.
      destruct (lookup_tx id monthKey data); [|exact Hc].
      destruct confirmed; [|exact Hc]. apply cents_deleteTransaction. exact Hc.
    + intros now confirmed. unfold confirmClearData.
      destruct confirmed; [apply cents_emptyData | exact Hc].
Qed.

(** An input of 12.345 added in March 2024 and then dated to February:
    the amount is stored as 12.35 and the archive of February holds it. *)
Lemma amounts_stay_in_cents_witness :
  let now := first_of_month 2024 2 in
  let form := {| editingTxId := Some "lt9x0k2ab3f8"%string;
                 editAmount := JS.Finite (12345 # 1000);
                 editDescription := "Tea";
                 editDate := "2024-02-28";
                 editIsIncome := false |} in
  ∃ added moved,
    addTransaction now "lt9x0k2ab3f8" (JS.Finite (12345 # 1000)) "Tea" false (emptyData now)
    = Some (added, Some ToastAdded)
    ∧ PriorMonths.saveEditTx form None added = Some (moved, Some (ToastMoved "2024-02"))
    ∧ cents_everywhere moved
    ∧ bucket_txs (Some "2024-02"%string) moved
      = [Transaction.mk "lt9x0k2ab3f8" "2024-02-28" "00:00" (-(247 # 20)) "Tea"].
Proof.
  intros now form.
  eexists _, _. split; [reflexivity|]. split; [vm_compute; reflexivity|].
  split; [|vm_compute; reflexivity].
  apply (proj1 amounts_stay_in_cents).
  eapply reachable_step.
  - eapply reachable_step; [apply (reachable_empty _ _ now)|].
    apply (step_add _ _ _ now "lt9x0k2ab3f8"%string (JS.Finite (12345 # 1000))
             "Tea"%string false _ (Some ToastAdded) I). reflexivity.
  - apply (step_edit _ _ _ form None _ (Some (ToastMoved "2024-02"))).
    vm_compute. reflexivity.
Defined.

(** ** One bucket for each id, in the second script and from the buttons *)

Lemma unique_marchLedger : unique_buckets marchLedger.
Proof.
  assert (Hcur : ∀ x, holds marchLedger None x → x = "lt9x0k2ab3f7"%string).
  { intros x H. unfold holds in H. cbn in H. apply list_elem_of_singleton in H. exact H. }
  assert (Hkey : ∀ key x, holds marchLedger (Some key) x →
                          key = "2024-02"%string ∧ x ≠ "lt9x0k2ab3f7"%string).
  { intros key x H. unfold holds, bucket_txs in H. cbn [history marchLedger] in H.
    destruct (decide (key = "2024-02"%string)) as [->|Hne].
    - split; [reflexivity|]. intros ->. vm_compute in H.
      repeat (apply elem_of_cons in H as [H|H]; [discriminate H|]).
      exact (not_elem_of_nil _ H).
    - rewrite lookup_singleton_ne in H by congruence.
      exfalso. exact (not_elem_of_nil _ H). }
  intros x [k1|] [k2|] H1 H2.
  - destruct (Hkey _ _ H1) as [-> _], (Hkey _ _ H2) as [-> _]. reflexivity.
  - destruct (Hkey _ _ H1) as [_ Hne]. apply Hcur in H2. contradiction.
  - destruct (Hkey _ _ H2) as [_ Hne]. apply Hcur in H1. contradiction.
  - reflexivity.
Qed.

(** X22: the operations that the reachable states of the first script
    do not list keep each id in at most one bucket as well: the edit
    (where it stores a finite amount and sorts lists of YYYY-MM-DD dates
    only), the delete and the rollover of the second script, the delete
    button and the sheet's delete, clearing the data, and, for a
    document that has each id once, reading the store. *)
Theorem unique_buckets_everywhere data :
  unique_buckets data →
  (∀ form data' toast,
     YearToDate.saveEditTx form data = Some (data', toast) → unique_buckets data')
  ∧ (∀ id, unique_buckets (YearToDate.deleteTransaction id data))
  ∧ (∀ now, unique_buckets (YearToDate.checkMonthlyReset now data))
  ∧ (∀ id monthKey confirmed, unique_buckets (confirmDeleteTx id monthKey confirmed data))
  ∧ (∀ form month confirmed, unique_buckets (deleteEditTx form month confirmed data))
  ∧ (∀ now confirmed, unique_buckets (confirmClearData now confirmed data))
  ∧ (∀ now store,
       (∀ parsed, store = Document parsed → candidate_unique parsed) →
       unique_buckets (loadData now store data)
       ∧ unique_buckets (init_with PriorMonths.checkMonthlyReset now store)
       ∧ unique_buckets (init_with YearToDate.checkMonthlyReset now store)).
Proof.
  intros Hu.
  assert (Hdelete : ∀ id monthKey confirmed,
            unique_buckets (confirmDeleteTx id monthKey confirmed data)).
  { intros id monthKey confirmed. unfold confirmDeleteTx.
    destruct (lookup_tx id monthKey data); [|exact Hu].
    destruct confirmed; [|exact Hu]. apply unique_deleteTransaction. exact Hu. }
  assert (Hload : ∀ now store d,
            unique_buckets d →
            (∀ parsed, store = Document parsed → candidate_unique parsed) →
            unique_buckets (loadData now store d)).
  { intros now store d Hd Hdoc. destruct store as [| |parsed]; cbn [loadData].
    - exact Hd.
    - apply unique_emptyData.
    - apply (Hdoc parsed eq_refl). }
  split; [|split; [|split; [|split; [|split; [|split]]]]].
  - intros form data' toast Hres. rewrite YearToDate_saveEditTx in Hres.
    exact (unique_saveEditTx _ _ _ _ _ Hres Hu).
  - intros id. apply (unique_deleteTransaction id None data Hu).
  - intros now. apply unique_checkMonthlyReset. exact Hu.
  - exact Hdelete.
  - intros form month confirmed. unfold deleteEditTx.
    destruct (falsy_id (editingTxId form)); [exact Hu | apply Hdelete].
  - intros now confirmed. unfold confirmClearData.
    destruct confirmed; [apply unique_emptyData | exact Hu].
  - intros now store Hdoc. split; [apply Hload; assumption|].
    split; apply unique_checkMonthlyReset, Hload;
      solve [apply unique_emptyData | exact Hdoc].
Qed.

(** The March ledger, its one current transaction dated to February by
    the second script: the id is then in the archive of February, with
    the three that were there, and no longer in the current month; and
    the same ledger rolled over in April. *)
Lemma unique_buckets_everywhere_witness :
  ∃ moved,
    YearToDate.saveEditTx editToFebruary marchLedger
    = Some (moved, Some (ToastMoved "2024-02"))
    ∧ unique_buckets moved
    ∧ ids (bucket_txs (Some "2024-02"%string) moved)
      = ["ls5aa01bb2c3"; "lt9x0k2ab3f7"; "ls4zz99yy8x7"; "ls3kk55jj4h3"]%string
    ∧ ids (bucket_txs None moved) = []
    ∧ unique_buckets (YearToDate.checkMonthlyReset (first_of_month 2024 3) marchLedger).
Proof.
  eexists. split; [vm_compute; reflexivity|].
  split.
  { refine (proj1 (unique_buckets_everywhere marchLedger unique_marchLedger)
                  editToFebruary _ (Some (ToastMoved "2024-02")) _).
    vm_compute. reflexivity. }
  split; [vm_compute; reflexivity|]. split; [vm_compute; reflexivity|].
  exact (proj1 (proj2 (proj2 (unique_buckets_everywhere marchLedger unique_marchLedger)))
               (first_of_month 2024 3)).
Defined.
